(** * DPIP network dashboard: timeline reindexing, severity colours, statistics

    Shallow embedding of the computational core of [src/app/page.tsx].
    The source file holds two revisions of the page component; the
    revision-specific functions live in the modules [Rev1] (lines 1-513)
    and [Rev2] (lines 514-1130), the functions that are textually the same in
    both revisions ([getColorByLoss], [getStats], the body of
    [prepareScatterData]) are embedded once.

    Numbers.  Minute counts, bucket indices and epoch milliseconds are
    integers far below 2^53, on which the arithmetic of doubles is exact:
    they are embedded as [Z].  Measurements (ping, loss) are embedded as the
    rational value [Q] of the double, compared with [Qeq_bool]/[Qle_bool] the
    way [===] and [<=] compare numeric values.  The sums, quotients and
    products of the statistics are rounded after every operation to the
    nearest double, ties to even ([binary64]), as IEEE-754 arithmetic does,
    with its gradual underflow.  [NaN], overflow beyond the largest finite
    double and time values outside the range of [Date] are outside the model;
    the two infinities appear only as the results of [Math.min]/[Math.max] on
    no arguments.  A [Date] built by [new Date(t)] is represented by its time
    value [t], which is what [getTime()] gives back. *)

From Stdlib Require Import QArith Qround Qminmax Qabs Qpower Lqa.
From stdpp Require Import base list strings numbers.

Local Open Scope Z_scope.

(** ** Data model *)

(** [interface NetworkData], with the optional [time] property that
    [fetchNetworkData] adds to every item ([None]: property absent). *)
Record NetworkData := mkNetworkData {
  ping : Q;
  loss : Q;
  ping_dev : Q;
  loss_dev : Q;
  time : option Z
}.

Record ISP := mkISP { value : string; label : string }.

(** The union type ['cloudflare' | 'origin']. *)
Inductive ChartType := cloudflare | origin.

(** [TIME_RANGES], the [value] of each entry. *)
Definition TIME_RANGES : list Z := [5; 15; 30; 60; 180; 360; 1440].

(** A number that may be one of the two infinities. *)
Inductive Number := Finite (q : Q) | Infinity | NegInfinity.

(** ** Library functions of the host language *)

(** [Math.round]: nearest integer, ties towards plus infinity. *)
Definition Math_round (q : Q) : Z := Qfloor (q + (1 # 2))%Q.

(** [Math.ceil]. *)
Definition Math_ceil (q : Q) : Z := Qceiling q.

(** *** Double-precision arithmetic *)

Definition pow2 (e : Z) : Q := (2 ^ e)%Q.

(** The nearest integer, a tie going to the even one. *)
Definition roundTiesToEven (q : Q) : Z :=
  let f := Qfloor q in
  match (q - inject_Z f ?= 1 # 2)%Q with
  | Lt => f
  | Gt => f + 1
  | Eq => if Z.even f then f else f + 1
  end.

(** The integer part of the binary logarithm of a positive number. *)
Definition ilog2 (q : Q) : Z :=
  let k := Z.log2 (Qnum q) - Z.log2 (Z.pos (Qden q)) in
  if Qle_bool (pow2 k) q then k else k - 1.

(** The exponent of the last bit of the double nearest to a positive number:
    53 significant bits, and no exponent below -1074 (subnormal numbers). *)
Definition exponent64 (q : Q) : Z := Z.max (ilog2 q - 52) (-1074).

Definition binary64_pos (q : Q) : Q :=
  let e := exponent64 q in
  (inject_Z (roundTiesToEven (q / pow2 e)) * pow2 e)%Q.

(** The double nearest to a number (IEEE-754 binary64, round to nearest,
    ties to even). *)
Definition binary64 (q : Q) : Q :=
  match (q ?= 0)%Q with
  | Eq => 0%Q
  | Gt => binary64_pos q
  | Lt => (- binary64_pos (- q))%Q
  end.

(** The operators [+], [*] and [/] on numbers. *)
Definition Number_add (a b : Q) : Q := binary64 (a + b).
Definition Number_mul (a b : Q) : Q := binary64 (a * b).
Definition Number_div (a b : Q) : Q := binary64 (a / b).

(** [Math.min(...args)]: plus infinity on no arguments. *)
Definition Math_min (args : list Q) : Number :=
  fold_left (fun acc a =>
               match acc with
               | Infinity => Finite a
               | Finite m => Finite (Qmin m a)
               | NegInfinity => NegInfinity
               end) args Infinity.

(** [Math.max(...args)]: minus infinity on no arguments. *)
Definition Math_max (args : list Q) : Number :=
  fold_left (fun acc a =>
               match acc with
               | NegInfinity => Finite a
               | Finite m => Finite (Qmax m a)
               | Infinity => Infinity
               end) args NegInfinity.

(** [Array.from({ length }, (_, index) => f(index))]; [ToLength] turns a
    negative length into 0. *)
Definition Array_from {A} (length : Z) (f : Z -> A) : list A :=
  f <$> seqZ 0 length.

(** [xs.reduce((a, b) => a + b, 0)]. *)
Definition reduce_add (xs : list Q) : Q := fold_left Number_add xs 0%Q.

(** ** Severity colour (lines 89-95 and 630-636) *)

Definition getColorByLoss (loss : Q) : string :=
  if Qeq_bool loss (-1) then "#9CA3AF"
  else if Qle_bool loss 0 then "#10B981"
  else if Qle_bool loss 33 then "#3B82F6"
  else if Qle_bool loss 66 then "#EF4444"
  else "#8B5CF6".

(** ** Bucket timeline *)

(** [now || Date.now()] (line 639): an absent [now] and the falsy number 0
    both give way to the clock. *)
Definition or_Date_now (now : option Z) (Date_now : Z) : Z :=
  match now with
  | Some n => if n =? 0 then Date_now else n
  | None => Date_now
  end.

(** The branch on [rangeMinutes] that fixes [unitMs] and [points]
    (lines 99-111 and 640-652); returns [(unitMs, points)]. *)
Definition cadence (rangeMinutes : Z) : Z * Z :=
  if rangeMinutes <=? 60 then (30 * 1000, rangeMinutes * 2)
  else if rangeMinutes <=? 1440 then (60 * 1000, rangeMinutes)
  else (60 * 60 * 1000, Math_ceil (inject_Z rangeMinutes / 60)%Q).

(** ** One chart point per bucket *)

(** The object literal returned by the callback of [prepareScatterData]. *)
Module ScatterPoint.
Record t := mk {
  x : Z;
  y : option Q;
  loss : Q;
  color : string;
  timeLabel : string;
  hasData : bool
}.
End ScatterPoint.

(** [Date.prototype.toLocaleTimeString('zh-TW', ...)] is supplied by the
    runtime: a formatter from a time value and the flag "seconds shown". *)
Definition TimeFormatter := Z -> bool -> string.

(** [type === 'cloudflare' ? item.ping : item.ping_dev]. *)
Definition pingOf (type : ChartType) (item : NetworkData) : Q :=
  match type with cloudflare => ping item | origin => ping_dev item end.

(** [type === 'cloudflare' ? item.loss : item.loss_dev]. *)
Definition lossOf (type : ChartType) (item : NetworkData) : Q :=
  match type with cloudflare => loss item | origin => loss_dev item end.

(** The callback [(timePoint, index) => ...] of [prepareScatterData]
    (lines 121-138 and 664-681).  [data[index]] is [undefined] past the end
    of [data]; an item that is present is an object, hence truthy. *)
Definition scatterPoint (toLocaleTimeString : TimeFormatter)
           (selectedRange : Z) (data : list NetworkData) (type : ChartType)
           (index : nat) (timePoint : Z) : ScatterPoint.t :=
  let dataItem := data !! index in
  let ping := match dataItem with
              | Some item => pingOf type item
              | None => (-1)%Q
              end in
  let loss := match dataItem with
              | Some item => lossOf type item
              | None => (-1)%Q
              end in
  {| ScatterPoint.x := timePoint;
     ScatterPoint.y := if Qeq_bool ping (-1) then None else Some ping;
     ScatterPoint.loss := loss;
     ScatterPoint.color :=
       if Qeq_bool ping (-1) then "rgba(156, 163, 175, 0.3)"
       else getColorByLoss loss;
     ScatterPoint.timeLabel :=
       toLocaleTimeString timePoint (selectedRange <=? 60);
     ScatterPoint.hasData := negb (Qeq_bool ping (-1)) |}.

(** ** Summary statistics (lines 142-162 and 685-705) *)

Record Stats := mkStats {
  avgPing : Z;
  minPing : Number;
  maxPing : Number;
  avgLoss : Q;
  maxLoss : Number;
  dataPoints : nat;
  totalPoints : nat
}.

Definition getStats (data : list NetworkData) (type : ChartType)
  : option Stats :=
  let validData :=
    List.filter (fun item =>
                   let ping := pingOf type item in
                   negb (Qeq_bool ping (-1))) data in
  if (length validData =? 0)%nat then None
  else
    let pings := map (pingOf type) validData in
    let losses := map (lossOf type) validData in
    Some {| avgPing :=
              Math_round
                (Number_div (reduce_add pings)
                            (inject_Z (Z.of_nat (length pings))));
            minPing := Math_min pings;
            maxPing := Math_max pings;
            avgLoss :=
              Number_div
                (inject_Z
                   (Math_round
                      (Number_mul
                         (Number_div (reduce_add losses)
                                     (inject_Z (Z.of_nat (length losses))))
                         100)))
                100;
            maxLoss := Math_max losses;
            dataPoints := length validData;
            totalPoints := length data |}.

(** ** The sample-series request *)

(** The decoded body of a response: a bare array of samples, or an object
    whose [data] and [now] properties may each be missing. *)
Inductive Json :=
| JArray (items : list NetworkData)
| JObject (data : option (list NetworkData)) (now : option Z).

(** What [await fetch(...)] followed by [await response.json()] can give:
    the request is rejected, or a response arrives with its [ok] flag and a
    body ([None]: the body does not decode and [json()] rejects). *)
Inductive FetchResult :=
| Rejected
| Responded (ok : bool) (json : option Json).

(** [new Date(v)] as stored in [lastUpdated]. *)
Inductive DateObj := DateAt (t : Z) | InvalidDate.

Definition Date_new (v : option Z) : DateObj :=
  match v with Some t => DateAt t | None => InvalidDate end.

(** [items.map((item, index) => ({ ...item, time: index + 1 }))]. *)
Definition formatData (items : list NetworkData) : list NetworkData :=
  imap (fun index item =>
          {| ping := ping item; loss := loss item;
             ping_dev := ping_dev item; loss_dev := loss_dev item;
             time := Some (Z.of_nat index + 1) |}) items.

(** The message of [setError] in the [catch] block of [fetchNetworkData]. *)
Definition networkDataError : string := "無法取得網路數據".

Module Rev1.

(** The [useState] cells of the component (lines 29-34). *)
Record State := mkState {
  selectedISP : string;
  selectedRange : Z;
  ispList : list ISP;
  networkData : list NetworkData;
  loading : bool;
  error : string
}.

Definition setNetworkData (v : list NetworkData) (st : State) : State :=
  {| selectedISP := selectedISP st; selectedRange := selectedRange st;
     ispList := ispList st; networkData := v;
     loading := loading st; error := error st |}.

Definition setLoading (v : bool) (st : State) : State :=
  {| selectedISP := selectedISP st; selectedRange := selectedRange st;
     ispList := ispList st; networkData := networkData st;
     loading := v; error := error st |}.

Definition setError (v : string) (st : State) : State :=
  {| selectedISP := selectedISP st; selectedRange := selectedRange st;
     ispList := ispList st; networkData := networkData st;
     loading := loading st; error := v |}.

(** The [try] block of [fetchNetworkData] (lines 46-57); [None] when it
    throws: rejected request, [!response.ok], undecodable body, or
    [data.map] on a value that is not an array. *)
Definition fetchNetworkData_try (st : State) (r : FetchResult)
  : option State :=
  match r with
  | Rejected => None
  | Responded ok json =>
      if negb ok then None
      else match json with
           | Some (JArray data) => Some (setNetworkData (formatData data) st)
           | Some (JObject _ _) => None
           | None => None
           end
  end.

(** [fetchNetworkData] (lines 40-64), as the state it leaves once the
    request [r] has settled. *)
Definition fetchNetworkData (st : State) (r : FetchResult) : State :=
  if String.eqb (selectedISP st) "" then st
  else
    let st := setLoading true st in
    let st := setError "" st in
    let st := match fetchNetworkData_try st r with
              | Some st' => st'
              | None => setNetworkData [] (setError networkDataError st)
              end in
    setLoading false st.

(** [getAllTimePoints] (lines 97-116).  [Date_now] is the reading of
    [Date.now()] taken by the call. *)
Definition getAllTimePoints (Date_now : Z) (rangeMinutes : Z) : list Z :=
  let now := Date_now in
  let '(unitMs, points) := cadence rangeMinutes in
  Array_from points (fun index => now - ((points - 1 - index) * unitMs)).

(** [prepareScatterData] (lines 118-139). *)
Definition prepareScatterData (toLocaleTimeString : TimeFormatter)
           (Date_now : Z) (st : State)
           (data : list NetworkData) (type : ChartType)
  : list ScatterPoint.t :=
  let allTimePoints := getAllTimePoints Date_now (selectedRange st) in
  imap (fun index timePoint =>
          scatterPoint toLocaleTimeString (selectedRange st) data type
                       index timePoint) allTimePoints.

End Rev1.

Module Rev2.

(** The [useState] cells of the component (lines 541-549).  [serverNow] is
    [None] when [setServerNow] was given [undefined]. *)
Record State := mkState {
  selectedISP : string;
  selectedRange : Z;
  ispList : list ISP;
  networkData : list NetworkData;
  loading : bool;
  error : string;
  autoRefresh : bool;
  lastUpdated : option DateObj;
  serverNow : option Z
}.

Definition setNetworkData (v : list NetworkData) (st : State) : State :=
  {| selectedISP := selectedISP st; selectedRange := selectedRange st;
     ispList := ispList st; networkData := v;
     loading := loading st; error := error st;
     autoRefresh := autoRefresh st; lastUpdated := lastUpdated st;
     serverNow := serverNow st |}.

Definition setLoading (v : bool) (st : State) : State :=
  {| selectedISP := selectedISP st; selectedRange := selectedRange st;
     ispList := ispList st; networkData := networkData st;
     loading := v; error := error st;
     autoRefresh := autoRefresh st; lastUpdated := lastUpdated st;
     serverNow := serverNow st |}.

Definition setError (v : string) (st : State) : State :=
  {| selectedISP := selectedISP st; selectedRange := selectedRange st;
     ispList := ispList st; networkData := networkData st;
     loading := loading st; error := v;
     autoRefresh := autoRefresh st; lastUpdated := lastUpdated st;
     serverNow := serverNow st |}.

Definition setLastUpdated (v : option DateObj) (st : State) : State :=
  {| selectedISP := selectedISP st; selectedRange := selectedRange st;
     ispList := ispList st; networkData := networkData st;
     loading := loading st; error := error st;
     autoRefresh := autoRefresh st; lastUpdated := v;
     serverNow := serverNow st |}.

Definition setServerNow (v : option Z) (st : State) : State :=
  {| selectedISP := selectedISP st; selectedRange := selectedRange st;
     ispList := ispList st; networkData := networkData st;
     loading := loading st; error := error st;
     autoRefresh := autoRefresh st; lastUpdated := lastUpdated st;
     serverNow := v |}.

(** The [try] block of [fetchNetworkData] (lines 566-579); [None] when it
    throws: rejected request, [!response.ok], undecodable body, or
    [responseData.data.map] where [responseData.data] is [undefined] (a bare
    array has no [data] property). *)
Definition fetchNetworkData_try (st : State) (r : FetchResult)
  : option State :=
  match r with
  | Rejected => None
  | Responded ok json =>
      if negb ok then None
      else match json with
           | Some (JObject (Some data) now) =>
               let st := setNetworkData (formatData data) st in
               let st := setLastUpdated (Some (Date_new now)) st in
               Some (setServerNow now st)
           | Some (JObject None _) => None
           | Some (JArray _) => None
           | None => None
           end
  end.

(** [fetchNetworkData] (lines 555-594) for a request that runs alone: the
    state it leaves once the request [r] has settled, when nothing else
    touches the state between the call and the settlement.  The
    [maintainScroll] argument only saves and restores the window's scroll
    position, which is no part of the state. *)
Definition fetchNetworkData (st : State) (r : FetchResult) : State :=
  if String.eqb (selectedISP st) "" then st
  else
    let st := setLoading true st in
    let st := setError "" st in
    let st := match fetchNetworkData_try st r with
              | Some st' => st'
              | None => setNetworkData [] (setError networkDataError st)
              end in
    setLoading false st.

(** [getAllTimePoints] (lines 638-659).  [now] is the optional argument
    ([None]: [undefined]); [now || Date.now()] takes the clock also when
    [now] is 0. *)
Definition getAllTimePoints (Date_now : Z) (rangeMinutes : Z)
           (now : option Z) : list Z :=
  let currentTime := or_Date_now now Date_now in
  let '(unitMs, points) := cadence rangeMinutes in
  let startTime := currentTime - ((points - 1) * unitMs) in
  Array_from points (fun index => startTime + (index * unitMs)).

(** [prepareScatterData] (lines 661-682). *)
Definition prepareScatterData (toLocaleTimeString : TimeFormatter)
           (Date_now : Z) (st : State)
           (data : list NetworkData) (type : ChartType)
  : list ScatterPoint.t :=
  let allTimePoints :=
    getAllTimePoints Date_now (selectedRange st) (serverNow st) in
  imap (fun index timePoint =>
          scatterPoint toLocaleTimeString (selectedRange st) data type
                       index timePoint) allTimePoints.

End Rev2.

(** ** The rest of the page component *)


(** [xs.filter((x, index) => f(x, index))], the indices counted from
    [index]. *)
Fixpoint Array_filter_from {A} (f : A -> Z -> bool) (index : Z) (xs : list A)
  : list A :=
  match xs with
  | [] => []
  | x :: rest =>
      if f x index then x :: Array_filter_from f (index + 1) rest
      else Array_filter_from f (index + 1) rest
  end.

Definition Array_filter {A} (f : A -> Z -> bool) (xs : list A) : list A :=
  Array_filter_from f 0 xs.


(** The [ticks] of the time axis in revision 2 (lines 960-966 and
    1065-1071).  [Math.floor(length / 8)] is the integer quotient and [%]
    the remainder, both on non-negative integers. *)
Definition xAxisTicks (Date_now : Z) (st : Rev2.State) : list Z :=
  let allTimePoints :=
    Rev2.getAllTimePoints Date_now (Rev2.selectedRange st)
                          (Rev2.serverNow st) in
  let step := Z.max 1 (Z.of_nat (length allTimePoints) / 8) in
  Array_filter (fun _ index =>
                  (Z.rem index step =? 0)
                  || (index =? Z.of_nat (length allTimePoints) - 1))
               allTimePoints.

(** The properties given to the [Cell] of a chart point (lines 407-413 and
    1007-1013). *)
Record CellProps := mkCellProps {
  fill : string;
  fillOpacity : Q;
  stroke : string;
  strokeWidth : Z
}.

Definition cellProps (entry : ScatterPoint.t) : CellProps :=
  {| fill := ScatterPoint.color entry;
     fillOpacity := if ScatterPoint.hasData entry then 1%Q else 0.3%Q;
     stroke := if ScatterPoint.hasData entry
               then ScatterPoint.color entry else "#9CA3AF";
     strokeWidth := if ScatterPoint.hasData entry then 0 else 1 |}.

(** The "data completeness" figure of the statistics card:
    [Math.round(stats.dataPoints / stats.totalPoints * 100)]
    (lines 294, 326, 874 and 906). *)
Definition completeness (stats : Stats) : Z :=
  Math_round
    (Number_mul
       (Number_div (inject_Z (Z.of_nat (dataPoints stats)))
                   (inject_Z (Z.of_nat (totalPoints stats))))
       100).

(** Which blocks of the page are rendered (lines 230-267 and 809-847): the
    error box, the loading spinner, the prompt to select an ISP, the
    "no data" notice and the statistics with the two charts.  A string is
    truthy when it is not empty. *)
Record Panels := mkPanels {
  showError : bool;
  showLoading : bool;
  showSelectPrompt : bool;
  showNoData : bool;
  showCharts : bool
}.

Definition truthy (s : string) : bool := negb (String.eqb s "").

Definition panels (selectedISP : string) (loading : bool) (error : string)
           (networkData : list NetworkData) : Panels :=
  {| showError := truthy error;
     showLoading := loading;
     showSelectPrompt := negb (truthy selectedISP);
     showNoData :=
       negb loading && truthy selectedISP
       && (length networkData =? 0)%nat && negb (truthy error);
     showCharts :=
       negb loading && truthy selectedISP
       && (0 <? length networkData)%nat |}.

(** The decoded body of the ISP-list response: an array of names, or a
    value that is no array (so that [data.map] throws). *)
Inductive IspJson :=
| IspNames (names : list string)
| IspNotArray.

Inductive IspFetchResult :=
| IspRejected
| IspResponded (ok : bool) (json : option IspJson).

(** [data.map((isp) => ({ value: isp, label: isp }))]. *)
Definition formatISPs (names : list string) : list ISP :=
  map (fun isp => {| value := isp; label := isp |}) names.

(** The message of [setError] in the [catch] block of [fetchISPList]. *)
Definition ispListError : string := "無法取得 ISP 列表".

(** The [try] block of [fetchISPList] (lines 75-83 and 616-624): the list to
    store, [None] when the block throws. *)
Definition fetchISPList_try (r : IspFetchResult) : option (list ISP) :=
  match r with
  | IspRejected => None
  | IspResponded ok json =>
      if negb ok then None
      else match json with
           | Some (IspNames data) => Some (formatISPs data)
           | Some IspNotArray => None
           | None => None
           end
  end.

Module Rev1Events.

Definition setSelectedISP (v : string) (st : Rev1.State) : Rev1.State :=
  {| Rev1.selectedISP := v; Rev1.selectedRange := Rev1.selectedRange st;
     Rev1.ispList := Rev1.ispList st;
     Rev1.networkData := Rev1.networkData st;
     Rev1.loading := Rev1.loading st; Rev1.error := Rev1.error st |}.

Definition setSelectedRange (v : Z) (st : Rev1.State) : Rev1.State :=
  {| Rev1.selectedISP := Rev1.selectedISP st; Rev1.selectedRange := v;
     Rev1.ispList := Rev1.ispList st;
     Rev1.networkData := Rev1.networkData st;
     Rev1.loading := Rev1.loading st; Rev1.error := Rev1.error st |}.

Definition setISPList (v : list ISP) (st : Rev1.State) : Rev1.State :=
  {| Rev1.selectedISP := Rev1.selectedISP st;
     Rev1.selectedRange := Rev1.selectedRange st;
     Rev1.ispList := v;
     Rev1.networkData := Rev1.networkData st;
     Rev1.loading := Rev1.loading st; Rev1.error := Rev1.error st |}.

(** [fetchISPList] (lines 74-87), as the state it leaves once the request
    has settled. *)
Definition fetchISPList (st : Rev1.State) (r : IspFetchResult)
  : Rev1.State :=
  match fetchISPList_try r with
  | Some formattedISPs => setISPList formattedISPs st
  | None => Rev1.setError ispListError st
  end.

(** The effect on [selectedISP] and [selectedRange] (lines 66-72); [r] is
    the outcome of the request, if one is sent. *)
Definition selectionEffect (st : Rev1.State) (r : FetchResult)
  : Rev1.State :=
  if truthy (Rev1.selectedISP st) then Rev1.fetchNetworkData st r
  else Rev1.setNetworkData [] st.

(** Choosing another ISP (line 190) or another range (line 209), followed
    by the effect that the change triggers. *)
Definition onSelectISP (isp : string) (st : Rev1.State) (r : FetchResult)
  : Rev1.State :=
  selectionEffect (setSelectedISP isp st) r.

Definition onSelectRange (range : Z) (st : Rev1.State) (r : FetchResult)
  : Rev1.State :=
  selectionEffect (setSelectedRange range st) r.

Definition view (st : Rev1.State) : Panels :=
  panels (Rev1.selectedISP st) (Rev1.loading st) (Rev1.error st)
         (Rev1.networkData st).

End Rev1Events.

Module Rev2Events.

Definition setSelectedISP (v : string) (st : Rev2.State) : Rev2.State :=
  {| Rev2.selectedISP := v; Rev2.selectedRange := Rev2.selectedRange st;
     Rev2.ispList := Rev2.ispList st;
     Rev2.networkData := Rev2.networkData st;
     Rev2.loading := Rev2.loading st; Rev2.error := Rev2.error st;
     Rev2.autoRefresh := Rev2.autoRefresh st;
     Rev2.lastUpdated := Rev2.lastUpdated st;
     Rev2.serverNow := Rev2.serverNow st |}.

Definition setSelectedRange (v : Z) (st : Rev2.State) : Rev2.State :=
  {| Rev2.selectedISP := Rev2.selectedISP st; Rev2.selectedRange := v;
     Rev2.ispList := Rev2.ispList st;
     Rev2.networkData := Rev2.networkData st;
     Rev2.loading := Rev2.loading st; Rev2.error := Rev2.error st;
     Rev2.autoRefresh := Rev2.autoRefresh st;
     Rev2.lastUpdated := Rev2.lastUpdated st;
     Rev2.serverNow := Rev2.serverNow st |}.

Definition setISPList (v : list ISP) (st : Rev2.State) : Rev2.State :=
  {| Rev2.selectedISP := Rev2.selectedISP st;
     Rev2.selectedRange := Rev2.selectedRange st;
     Rev2.ispList := v;
     Rev2.networkData := Rev2.networkData st;
     Rev2.loading := Rev2.loading st; Rev2.error := Rev2.error st;
     Rev2.autoRefresh := Rev2.autoRefresh st;
     Rev2.lastUpdated := Rev2.lastUpdated st;
     Rev2.serverNow := Rev2.serverNow st |}.

(** [fetchISPList] (lines 615-628), as the state it leaves once the request
    has settled. *)
Definition fetchISPList (st : Rev2.State) (r : IspFetchResult)
  : Rev2.State :=
  match fetchISPList_try r with
  | Some formattedISPs => setISPList formattedISPs st
  | None => Rev2.setError ispListError st
  end.

(** The effect on [selectedISP] and [selectedRange] (lines 596-602). *)
Definition selectionEffect (st : Rev2.State) (r : FetchResult)
  : Rev2.State :=
  if truthy (Rev2.selectedISP st) then Rev2.fetchNetworkData st r
  else Rev2.setNetworkData [] st.

(** Choosing another ISP (line 727) or another range (line 746), followed
    by the effect that the change triggers. *)
Definition onSelectISP (isp : string) (st : Rev2.State) (r : FetchResult)
  : Rev2.State :=
  selectionEffect (setSelectedISP isp st) r.

Definition onSelectRange (range : Z) (st : Rev2.State) (r : FetchResult)
  : Rev2.State :=
  selectionEffect (setSelectedRange range st) r.

Definition view (st : Rev2.State) : Panels :=
  panels (Rev2.selectedISP st) (Rev2.loading st) (Rev2.error st)
         (Rev2.networkData st).

End Rev2Events.

(** The [disabled] flags of the two selects (lines 191, 210, 728
    and 747). *)
Definition ispSelectDisabled (loading : bool) (ispList : list ISP) : bool :=
  loading || (length ispList =? 0)%nat.


(** ** Requests that overlap (revision 2)

    A call of [fetchNetworkData] runs up to its first [await] and returns;
    the rest runs when the request settles, on the state of that moment.
    The interval of the auto refresh (lines 605-613) calls it every 30
    seconds whether or not [loading] is set, so that a request can be sent
    while another one is in flight, and the two settle in any order. *)

(** The part of [fetchNetworkData] that runs at the call (lines 556-564). *)
Definition fetchNetworkData_start (st : Rev2.State) : Rev2.State :=
  if String.eqb (Rev2.selectedISP st) "" then st
  else Rev2.setError "" (Rev2.setLoading true st).

(** The part of [fetchNetworkData] that runs when the request has settled
    with [r]: the rest of the [try] block, the [catch] block and the
    [finally] block (lines 566-585), on the state [st] of that moment. *)
Definition fetchNetworkData_settle (st : Rev2.State) (r : FetchResult)
  : Rev2.State :=
  let st := match Rev2.fetchNetworkData_try st r with
            | Some st' => st'
            | None => Rev2.setNetworkData [] (Rev2.setError networkDataError st)
            end in
  Rev2.setLoading false st.

(** The page with its requests in flight.  The handlers that settle do not
    depend on which request they belong to, so the number of requests in
    flight is all that is kept of them. *)
Record Page := mkPage {
  state : Rev2.State;
  inFlight : nat
}.

Inductive Event :=
| Tick                       (** the interval fires (lines 608-610) *)
| Refresh                    (** click on the refresh button (lines 780-784) *)
| Settled (r : FetchResult)  (** a request in flight settles *).

(** A call of [fetchNetworkData(true)]: no request is sent without an
    ISP. *)
Definition call (p : Page) : Page :=
  if String.eqb (Rev2.selectedISP (state p)) "" then p
  else {| state := fetchNetworkData_start (state p);
          inFlight := S (inFlight p) |}.

(** The interval exists while an ISP is selected and the auto refresh is on
    (line 606); the button is rendered for a selected ISP and disabled while
    [loading] (lines 777 and 784). *)
Definition step (p : Page) (e : Event) : Page :=
  match e with
  | Tick =>
      if truthy (Rev2.selectedISP (state p)) && Rev2.autoRefresh (state p)
      then call p else p
  | Refresh =>
      if truthy (Rev2.selectedISP (state p)) && negb (Rev2.loading (state p))
      then call p else p
  | Settled r =>
      match inFlight p with
      | O => p
      | S n => {| state := fetchNetworkData_settle (state p) r;
                  inFlight := n |}
      end
  end.

Definition run (p : Page) (es : list Event) : Page := foldl step p es.

(** Whether the response is accepted by the [try] block of revision 2. *)
Definition accepted (r : FetchResult) : bool :=
  match r with
  | Responded true (Some (JObject (Some _) _)) => true
  | _ => false
  end.

(** Whether an event is the settlement of a request that fails. *)
Definition isFailure (e : Event) : bool :=
  match e with
  | Settled r => negb (accepted r)
  | _ => false
  end.

Definition isSettled (e : Event) : bool :=
  match e with
  | Settled _ => true
  | _ => false
  end.

(** Number of chart points that carry a value. *)
Definition countHasData (pts : list ScatterPoint.t) : nat :=
  length (List.filter ScatterPoint.hasData pts).

(** ** Predicates used in the statements *)

(** Consecutive entries of [pts] are [unitMs] apart. *)
Definition evenlySpaced (unitMs : Z) (pts : list Z) : Prop :=
  forall (i : nat) (t t' : Z),
    pts !! i = Some t -> pts !! S i = Some t' -> t' - t = unitMs.

(** What bucket [i] shows of [data]: the sample at position [i] when there is
    one and its metric is not the sentinel, otherwise an empty bucket. *)
Definition alignedAt (data : list NetworkData) (type : ChartType)
           (i : nat) (pt : ScatterPoint.t) : Prop :=
  (forall item : NetworkData,
      data !! i = Some item -> ~ (pingOf type item == -1)%Q ->
      ScatterPoint.y pt = Some (pingOf type item) /\
      ScatterPoint.loss pt = lossOf type item /\
      ScatterPoint.hasData pt = true /\
      ScatterPoint.color pt = getColorByLoss (lossOf type item)) /\
  (data !! i = None ->
   ScatterPoint.y pt = None /\
   ScatterPoint.hasData pt = false /\
   ScatterPoint.loss pt = (-1)%Q /\
   ScatterPoint.color pt = "rgba(156, 163, 175, 0.3)") /\
  (forall item : NetworkData,
      data !! i = Some item -> (pingOf type item == -1)%Q ->
      ScatterPoint.y pt = None /\
      ScatterPoint.hasData pt = false /\
      ScatterPoint.loss pt = lossOf type item /\
      ScatterPoint.color pt = "rgba(156, 163, 175, 0.3)").

(** The arithmetic mean of a list of numbers. *)
Definition mean (xs : list Q) : Q :=
  (fold_right Qplus 0 xs / inject_Z (Z.of_nat (length xs)))%Q.

(** The samples that [getStats] keeps: metric different from the sentinel. *)
Definition isValid (type : ChartType) (item : NetworkData) : bool :=
  negb (Qeq_bool (pingOf type item) (-1)).

(** Number of entries of [data] whose metric is not the sentinel. *)
Fixpoint countValid (type : ChartType) (data : list NetworkData) : nat :=
  match data with
  | [] => 0
  | item :: rest =>
      if Qeq_bool (pingOf type item) (-1)
      then countValid type rest
      else S (countValid type rest)
  end.

(** ** Sample inputs *)

Definition noLabel : TimeFormatter := fun _ _ => "".

Definition sampleOf (p l pd ld : Q) : NetworkData :=
  {| ping := p; loss := l; ping_dev := pd; loss_dev := ld; time := None |}.

Definition rev1_state (range : Z) (data : list NetworkData) : Rev1.State :=
  {| Rev1.selectedISP := "HiNet"; Rev1.selectedRange := range;
     Rev1.ispList := []; Rev1.networkData := data;
     Rev1.loading := false; Rev1.error := "" |}.

Definition rev2_state (range : Z) (data : list NetworkData)
           (now : option Z) : Rev2.State :=
  {| Rev2.selectedISP := "Chunghwa Telecom Co. Ltd.";
     Rev2.selectedRange := range;
     Rev2.ispList := []; Rev2.networkData := data;
     Rev2.loading := false; Rev2.error := "";
     Rev2.autoRefresh := true; Rev2.lastUpdated := None;
     Rev2.serverNow := now |}.

(** Three samples: measured, primary target unmeasured, measured with no
    loss figure. *)
Definition threeSamples : list NetworkData :=
  [sampleOf 12 0 20 (1 # 2); sampleOf (-1) (-1) 35 50; sampleOf 9 (-1) 15 100].

(** Forty measured samples, 23 of them with a loss of 1 and 17 without
    loss. *)
Definition fortySamples : list NetworkData :=
  replicate 23 (sampleOf 10 1 10 1) ++ replicate 17 (sampleOf 10 0 10 0).

(** * Properties *)

(** ** Double-precision rounding *)

Lemma pow2_pos (e : Z) : (0 < pow2 e)%Q.
Proof. apply Qpower_0_lt. reflexivity. Qed.

Lemma pow2_add (a b : Z) : (pow2 (a + b) == pow2 a * pow2 b)%Q.
Proof. apply Qpower_plus. discriminate. Qed.

Lemma pow2_le (a b : Z) : a <= b -> (pow2 a <= pow2 b)%Q.
Proof. intros H. apply Qpower_le_compat_l; [exact H|discriminate]. Qed.

Lemma pow2_lt (a b : Z) : a < b -> (pow2 a < pow2 b)%Q.
Proof. intros H. apply Qpower_lt_compat_l; [exact H|reflexivity]. Qed.

Lemma pow2_lt_inv (a b : Z) : (pow2 a < pow2 b)%Q -> a < b.
Proof. intros H. eapply Qpower_lt_compat_l_inv; [exact H|reflexivity]. Qed.

Lemma pow2_Z (a : Z) : 0 <= a -> (pow2 a == inject_Z (2 ^ a))%Q.
Proof. intros H. unfold pow2. by rewrite Zpower_Qpower. Qed.

Lemma pow2_succ (a : Z) : (pow2 (a + 1) == 2 * pow2 a)%Q.
Proof. rewrite pow2_add. change (pow2 1) with 2%Q. ring. Qed.

Lemma pow2_pred (a : Z) : (pow2 a == 2 * pow2 (a - 1))%Q.
Proof. rewrite <- pow2_succ. by replace (a - 1 + 1) with a by lia. Qed.

Lemma pow2_sub (a b : Z) : (pow2 (a - b) == pow2 a / pow2 b)%Q.
Proof. apply Qpower_minus. discriminate. Qed.


Lemma Qdiv_lt_cross (a b c d : Q) :
  (0 < b)%Q -> (0 < d)%Q -> (a * d < c * b)%Q -> (a / b < c / d)%Q.
Proof.
  intros Hb Hd H. apply Qlt_shift_div_r; [exact Hb|].
  assert (E : (c / d * b == (c * b) / d)%Q) by (field; lra).
  rewrite E. by apply Qlt_shift_div_l.
Qed.

Lemma Qdiv_le_cross (a b c d : Q) :
  (0 < b)%Q -> (0 < d)%Q -> (a * d <= c * b)%Q -> (a / b <= c / d)%Q.
Proof.
  intros Hb Hd H. apply Qle_shift_div_r; [exact Hb|].
  assert (E : (c / d * b == (c * b) / d)%Q) by (field; lra).
  rewrite E. by apply Qle_shift_div_l.
Qed.

Lemma ilog2_spec (q : Q) :
  (0 < q)%Q -> (pow2 (ilog2 q) <= q)%Q /\ (q < pow2 (ilog2 q + 1))%Q.
Proof.
  intros Hq. unfold ilog2.
  destruct q as [n d]. simpl Qnum. simpl Qden.
  assert (Hn : 0 < n) by (unfold Qlt in Hq; simpl in Hq; lia).
  pose proof (Z.log2_spec n Hn) as [Hn1 Hn2].
  pose proof (Z.log2_spec (Z.pos d) ltac:(lia)) as [Hd1 Hd2].
  pose proof (Z.log2_nonneg n) as Ha. pose proof (Z.log2_nonneg (Z.pos d)) as Hb.
  set (a := Z.log2 n) in *. set (b := Z.log2 (Z.pos d)) in *.
  assert (Hq' : (n # d == inject_Z n / inject_Z (Z.pos d))%Q) by apply Qmake_Qdiv.
  assert (HD : (0 < inject_Z (Z.pos d))%Q) by (rewrite <- (Zlt_Qlt 0); lia).
  assert (HBp := pow2_pos b). assert (HAp := pow2_pos a).
  rewrite Zle_Qle in Hn1, Hd1. rewrite Zlt_Qlt in Hn2, Hd2.
  replace (Z.succ a) with (a + 1) in Hn2 by lia.
  replace (Z.succ b) with (b + 1) in Hd2 by lia.
  rewrite <- pow2_Z in Hn1, Hd1, Hn2, Hd2 by lia.
  rewrite pow2_succ in Hn2, Hd2.
  assert (Hk : (pow2 (a - b) == pow2 a / pow2 b)%Q) by apply pow2_sub.
  set (N := inject_Z n) in *. set (D := inject_Z (Z.pos d)) in *.
  set (A := pow2 a) in *. set (B := pow2 b) in *.
  destruct (Qle_bool (pow2 (a - b)) (n # d)) eqn:E.
  - apply Qle_bool_iff in E. split; [exact E|].
    rewrite pow2_succ, Hk, Hq'.
    assert (H1 : (2 * (A / B) == (2 * A) / B)%Q) by (field; lra).
    rewrite H1. apply Qdiv_lt_cross; [done|done|].
    assert (T1 : (N * B < 2 * A * B)%Q) by (apply Qmult_lt_compat_r; lra).
    assert (T2 : (2 * A * B <= 2 * A * D)%Q)
      by (apply Qmult_le_l; lra).
    lra.
  - assert (E' : (n # d < pow2 (a - b))%Q).
    { apply Qnot_le_lt. intros H. apply Qle_bool_iff in H. congruence. }
    replace (a - b - 1 + 1) with (a - b) by lia. split; [|exact E'].
    assert (Hp : (pow2 (a - b) == 2 * pow2 (a - b - 1))%Q) by apply pow2_pred.
    assert (H2 : (pow2 (a - b - 1) == A / (2 * B))%Q).
    { assert (H : (pow2 (a - b - 1) == pow2 (a - b) * (1 # 2))%Q)
        by (rewrite Hp; field).
      rewrite H, Hk. field. lra. }
    rewrite H2, Hq'. apply Qdiv_le_cross; [lra|done|].
    assert (T1 : (A * D <= A * (2 * B))%Q) by (apply Qmult_le_l; lra).
    assert (T2 : (A * (2 * B) <= N * (2 * B))%Q)
      by (apply Qmult_le_compat_r; lra).
    lra.
Qed.

Lemma ilog2_unique (q : Q) (k : Z) :
  (pow2 k <= q)%Q -> (q < pow2 (k + 1))%Q -> ilog2 q = k.
Proof.
  intros H1 H2.
  assert (Hq : (0 < q)%Q) by (pose proof (pow2_pos k); lra).
  destruct (ilog2_spec q Hq) as [S1 S2].
  assert (ilog2 q < k + 1) by (apply pow2_lt_inv; lra).
  assert (k < ilog2 q + 1) by (apply pow2_lt_inv; lra).
  lia.
Qed.

Lemma ilog2_comp (x y : Q) : (0 < x)%Q -> (x == y)%Q -> ilog2 x = ilog2 y.
Proof.
  intros Hx Hxy. destruct (ilog2_spec x Hx) as [S1 S2].
  symmetry. apply ilog2_unique; lra.
Qed.

Lemma ilog2_mono (x y : Q) : (0 < x)%Q -> (x <= y)%Q -> ilog2 x <= ilog2 y.
Proof.
  intros Hx Hxy.
  destruct (ilog2_spec x Hx) as [S1 _].
  destruct (ilog2_spec y ltac:(lra)) as [_ T2].
  assert (ilog2 x < ilog2 y + 1) by (apply pow2_lt_inv; lra). lia.
Qed.

Lemma ilog2_lt_pow2 (x : Q) (k : Z) :
  (0 < x)%Q -> (x < pow2 k)%Q -> ilog2 x < k.
Proof.
  intros Hx Hk. destruct (ilog2_spec x Hx) as [S1 _].
  apply pow2_lt_inv. lra.
Qed.

Lemma ilog2_le_pow2 (x : Q) (k : Z) :
  (0 < x)%Q -> (x <= pow2 k)%Q -> ilog2 x <= k.
Proof.
  intros Hx Hk.
  assert (ilog2 x < k + 1); [|lia].
  apply ilog2_lt_pow2; [done|]. pose proof (pow2_lt k (k + 1) ltac:(lia)). lra.
Qed.

Lemma roundTiesToEven_cases (q : Q) :
  roundTiesToEven q = Qfloor q \/ roundTiesToEven q = Qfloor q + 1.
Proof. unfold roundTiesToEven. repeat case_match; auto. Qed.

Lemma roundTiesToEven_bounds (q : Q) :
  (q - (1 # 2) <= inject_Z (roundTiesToEven q))%Q /\
  (inject_Z (roundTiesToEven q) <= q + (1 # 2))%Q.
Proof.
  unfold roundTiesToEven.
  pose proof (Qfloor_le q) as Hle. pose proof (Qlt_floor q) as Hlt.
  rewrite inject_Z_plus in Hlt. change (inject_Z 1) with 1%Q in Hlt.
  destruct (q - inject_Z (Qfloor q) ?= 1 # 2)%Q eqn:E.
  - apply Qeq_alt in E. destruct (Z.even (Qfloor q));
      rewrite ?inject_Z_plus; change (inject_Z 1) with 1%Q; split; lra.
  - apply Qlt_alt in E. split; lra.
  - apply Qgt_alt in E. rewrite inject_Z_plus. change (inject_Z 1) with 1%Q.
    split; lra.
Qed.

Lemma roundTiesToEven_Z (k : Z) : roundTiesToEven (inject_Z k) = k.
Proof.
  unfold roundTiesToEven. rewrite Qfloor_Z.
  assert (E : (inject_Z k - inject_Z k ?= 1 # 2)%Q = Lt).
  { apply Qlt_alt.
    assert (H : (inject_Z k - inject_Z k == 0)%Q) by ring.
    rewrite H. reflexivity. }
  by rewrite E.
Qed.

Lemma roundTiesToEven_comp (x y : Q) :
  (x == y)%Q -> roundTiesToEven x = roundTiesToEven y.
Proof.
  intros Hxy. unfold roundTiesToEven.
  rewrite (Qfloor_comp x y Hxy).
  assert (E : (x - inject_Z (Qfloor y) ?= 1 # 2)%Q
              = (y - inject_Z (Qfloor y) ?= 1 # 2)%Q).
  { apply Qcompare_comp; [by rewrite Hxy|reflexivity]. }
  by rewrite E.
Qed.

Lemma roundTiesToEven_mono (x y : Q) :
  (x <= y)%Q -> roundTiesToEven x <= roundTiesToEven y.
Proof.
  intros Hxy.
  pose proof (Qfloor_resp_le x y Hxy) as Hf.
  destruct (Z.eq_dec (Qfloor x) (Qfloor y)) as [Heq|Hne].
  - unfold roundTiesToEven. rewrite Heq.
    destruct (x - inject_Z (Qfloor y) ?= 1 # 2)%Q eqn:Ex;
      destruct (y - inject_Z (Qfloor y) ?= 1 # 2)%Q eqn:Ey;
      try (destruct (Z.even (Qfloor y))); try lia;
      exfalso;
      repeat match goal with
             | H : (_ ?= _)%Q = Eq |- _ => apply Qeq_alt in H
             | H : (_ ?= _)%Q = Lt |- _ => apply Qlt_alt in H
             | H : (_ ?= _)%Q = Gt |- _ => apply Qgt_alt in H
             end; lra.
  - destruct (roundTiesToEven_cases x) as [-> | ->],
             (roundTiesToEven_cases y) as [-> | ->]; lia.
Qed.


Lemma scaled_back (q : Q) (e : Z) : (q / pow2 e * pow2 e == q)%Q.
Proof. field. pose proof (pow2_pos e). lra. Qed.

Lemma binary64_pos_err (q : Q) :
  (q - pow2 (exponent64 q) * (1 # 2) <= binary64_pos q)%Q /\
  (binary64_pos q <= q + pow2 (exponent64 q) * (1 # 2))%Q.
Proof.
  unfold binary64_pos. cbv zeta.
  set (e := exponent64 q). pose proof (pow2_pos e) as Hp.
  destruct (roundTiesToEven_bounds (q / pow2 e)) as [H1 H2].
  pose proof (scaled_back q e) as Hy.
  set (y := (q / pow2 e)%Q) in *.
  set (r := inject_Z (roundTiesToEven y)) in *.
  set (p := pow2 e) in *.
  assert (T1 : ((y - (1 # 2)) * p <= r * p)%Q)
    by (apply Qmult_le_compat_r; lra).
  assert (T2 : (r * p <= (y + (1 # 2)) * p)%Q)
    by (apply Qmult_le_compat_r; lra).
  assert (E1 : ((y - (1 # 2)) * p == y * p - p * (1 # 2))%Q) by ring.
  assert (E2 : ((y + (1 # 2)) * p == y * p + p * (1 # 2))%Q) by ring.
  rewrite E1 in T1. rewrite E2 in T2. rewrite Hy in T1, T2. split; lra.
Qed.

Lemma binary64_pos_comp (x y : Q) :
  (0 < x)%Q -> (x == y)%Q -> (binary64_pos x == binary64_pos y)%Q.
Proof.
  intros Hx Hxy. unfold binary64_pos, exponent64. cbv zeta.
  rewrite (ilog2_comp x y Hx Hxy).
  set (e := Z.max (ilog2 y - 52) (-1074)).
  assert (E : (x / pow2 e == y / pow2 e)%Q) by (by rewrite Hxy).
  by rewrite (roundTiesToEven_comp _ _ E).
Qed.

Lemma exponent64_mono (x y : Q) :
  (0 < x)%Q -> (x <= y)%Q -> exponent64 x <= exponent64 y.
Proof.
  intros Hx Hxy. unfold exponent64.
  pose proof (ilog2_mono x y Hx Hxy). lia.
Qed.

Lemma scale_le (x y : Q) (e : Z) : (x <= y)%Q -> (x / pow2 e <= y / pow2 e)%Q.
Proof.
  intros H. pose proof (pow2_pos e).
  apply Qdiv_le_cross; try done. by apply Qmult_le_compat_r; [|lra].
Qed.

Lemma binary64_pos_mono (x y : Q) :
  (0 < x)%Q -> (x <= y)%Q -> (binary64_pos x <= binary64_pos y)%Q.
Proof.
  intros Hx Hxy.
  pose proof (exponent64_mono x y Hx Hxy) as He.
  unfold binary64_pos. cbv zeta.
  set (ex := exponent64 x) in *. set (ey := exponent64 y) in *.
  destruct (Z.eq_dec ex ey) as [Heq|Hne].
  - rewrite Heq. apply Qmult_le_compat_r; [|pose proof (pow2_pos ey); lra].
    rewrite <- Zle_Qle. apply roundTiesToEven_mono. by apply scale_le.
  - assert (Hlt : ex < ey) by lia.
    (* x is below 2^(ex+53), y is at least 2^(ey+52) *)
    destruct (ilog2_spec x Hx) as [_ X2].
    destruct (ilog2_spec y ltac:(lra)) as [Y1 _].
    assert (Hex : ilog2 x - 52 <= ex) by (subst ex; unfold exponent64; lia).
    assert (Hey : ey = ilog2 y - 52) by (subst ex ey; unfold exponent64 in *; lia).
    assert (Xs : (x / pow2 ex <= inject_Z (2 ^ 53))%Q).
    { rewrite <- pow2_Z by lia.
      apply Qle_shift_div_r; [apply pow2_pos|].
      rewrite <- pow2_add.
      pose proof (pow2_le (ilog2 x + 1) (53 + ex) ltac:(lia)). lra. }
    assert (Ys : (inject_Z (2 ^ 52) <= y / pow2 ey)%Q).
    { rewrite <- pow2_Z by lia.
      apply Qle_shift_div_l; [apply pow2_pos|].
      rewrite <- pow2_add.
      pose proof (pow2_le (52 + ey) (ilog2 y) ltac:(lia)). lra. }
    apply roundTiesToEven_mono in Xs, Ys.
    rewrite roundTiesToEven_Z in Xs, Ys.
    rewrite Zle_Qle in Xs, Ys. rewrite <- !pow2_Z in Xs, Ys by lia.
    set (rx := inject_Z (roundTiesToEven (x / pow2 ex))) in *.
    set (ry := inject_Z (roundTiesToEven (y / pow2 ey))) in *.
    assert (T1 : (rx * pow2 ex <= pow2 53 * pow2 ex)%Q)
      by (apply Qmult_le_compat_r; [done|pose proof (pow2_pos ex); lra]).
    assert (T2 : (pow2 52 * pow2 ey <= ry * pow2 ey)%Q)
      by (apply Qmult_le_compat_r; [done|pose proof (pow2_pos ey); lra]).
    rewrite <- pow2_add in T1, T2.
    pose proof (pow2_le (53 + ex) (52 + ey) ltac:(lia)). lra.
Qed.

Lemma binary64_pos_nonneg (x : Q) : (0 < x)%Q -> (0 <= binary64_pos x)%Q.
Proof.
  intros Hx. unfold binary64_pos. cbv zeta.
  set (e := exponent64 x). pose proof (pow2_pos e) as Hp.
  apply Qmult_le_0_compat; [|lra].
  rewrite <- (Zle_Qle 0). rewrite <- (roundTiesToEven_Z 0).
  apply roundTiesToEven_mono. change (inject_Z 0) with 0%Q.
  apply Qle_shift_div_l; [done|]. lra.
Qed.

(** A positive multiple [m * 2^j] of a power of two with [m < 2^53] and
    [j >= -1074] is a double. *)
Lemma binary64_pos_exact (m j : Z) :
  0 < m < 2 ^ 53 -> -1074 <= j ->
  (binary64_pos (inject_Z m * pow2 j) == inject_Z m * pow2 j)%Q.
Proof.
  intros Hm Hj.
  set (x := (inject_Z m * pow2 j)%Q).
  assert (Hx : (0 < x)%Q).
  { subst x. apply Qmult_lt_0_compat; [|apply pow2_pos].
    rewrite <- (Zlt_Qlt 0). lia. }
  assert (Hlog : ilog2 x < 53 + j).
  { apply ilog2_lt_pow2; [done|]. subst x. rewrite pow2_add.
    apply Qmult_lt_compat_r; [apply pow2_pos|].
    rewrite pow2_Z by lia. rewrite <- Zlt_Qlt. lia. }
  unfold binary64_pos. cbv zeta.
  set (e := exponent64 x).
  assert (He : e <= j) by (subst e; unfold exponent64; lia).
  assert (Hs : (x / pow2 e == inject_Z (m * 2 ^ (j - e)))%Q).
  { subst x. rewrite inject_Z_mult, <- pow2_Z by lia. rewrite pow2_sub.
    field. pose proof (pow2_pos e). lra. }
  rewrite (roundTiesToEven_comp _ _ Hs), roundTiesToEven_Z, <- Hs.
  apply scaled_back.
Qed.


Lemma binary64_of_pos (x : Q) : (0 < x)%Q -> binary64 x = binary64_pos x.
Proof.
  intros Hx. unfold binary64.
  assert (E : (x ?= 0)%Q = Gt) by (by apply Qgt_alt).
  by rewrite E.
Qed.

Lemma binary64_of_neg (x : Q) :
  (x < 0)%Q -> binary64 x = (- binary64_pos (- x))%Q.
Proof.
  intros Hx. unfold binary64.
  assert (E : (x ?= 0)%Q = Lt) by (by apply Qlt_alt).
  by rewrite E.
Qed.

Lemma binary64_of_zero (x : Q) : (x == 0)%Q -> binary64 x = 0%Q.
Proof.
  intros Hx. unfold binary64.
  assert (E : (x ?= 0)%Q = Eq) by (by apply Qeq_alt).
  by rewrite E.
Qed.

Lemma Q_sign_cases (x : Q) : (x < 0)%Q \/ (x == 0)%Q \/ (0 < x)%Q.
Proof.
  destruct (Q_dec x 0) as [[H|H]|H]; auto.
Qed.

Lemma binary64_comp (x y : Q) : (x == y)%Q -> (binary64 x == binary64 y)%Q.
Proof.
  intros Hxy. destruct (Q_sign_cases x) as [H|[H|H]].
  - rewrite (binary64_of_neg x H), (binary64_of_neg y) by lra.
    apply Qopp_comp. apply binary64_pos_comp; lra.
  - rewrite (binary64_of_zero x H), (binary64_of_zero y) by lra. reflexivity.
  - rewrite (binary64_of_pos x H), (binary64_of_pos y) by lra.
    by apply binary64_pos_comp.
Qed.

Lemma binary64_mono (x y : Q) : (x <= y)%Q -> (binary64 x <= binary64 y)%Q.
Proof.
  intros Hxy.
  destruct (Q_sign_cases x) as [Hx|[Hx|Hx]];
    destruct (Q_sign_cases y) as [Hy|[Hy|Hy]]; try (exfalso; lra).
  - rewrite (binary64_of_neg x Hx), (binary64_of_neg y Hy).
    pose proof (binary64_pos_mono (- y) (- x) ltac:(lra) ltac:(lra)). lra.
  - rewrite (binary64_of_neg x Hx), (binary64_of_zero y Hy).
    pose proof (binary64_pos_nonneg (- x) ltac:(lra)). lra.
  - rewrite (binary64_of_neg x Hx), (binary64_of_pos y Hy).
    pose proof (binary64_pos_nonneg (- x) ltac:(lra)).
    pose proof (binary64_pos_nonneg y Hy). lra.
  - rewrite (binary64_of_zero x Hx), (binary64_of_zero y Hy). lra.
  - rewrite (binary64_of_zero x Hx), (binary64_of_pos y Hy).
    by apply binary64_pos_nonneg.
  - rewrite (binary64_of_pos x Hx), (binary64_of_pos y Hy).
    by apply binary64_pos_mono.
Qed.

(** A number [m * 2^j] with [|m| < 2^53] and [j >= -1074] is a double. *)
Lemma binary64_exact (m j : Z) :
  Z.abs m < 2 ^ 53 -> -1074 <= j ->
  (binary64 (inject_Z m * pow2 j) == inject_Z m * pow2 j)%Q.
Proof.
  intros Hm Hj. pose proof (pow2_pos j) as Hp.
  destruct (Z.lt_trichotomy m 0) as [Hneg|[->|Hpos]].
  - assert (Hx : (inject_Z m * pow2 j < 0)%Q).
    { assert (H : (inject_Z m < inject_Z 0)%Q) by (rewrite <- Zlt_Qlt; lia).
      change (inject_Z 0) with 0%Q in H.
      assert (T : (inject_Z m * pow2 j < 0 * pow2 j)%Q)
        by (by apply Qmult_lt_compat_r).
      lra. }
    rewrite (binary64_of_neg _ Hx).
    assert (E : (- (inject_Z m * pow2 j) == inject_Z (- m) * pow2 j)%Q)
      by (rewrite inject_Z_opp; ring).
    assert (Hx' : (0 < - (inject_Z m * pow2 j))%Q) by lra.
    rewrite (binary64_pos_comp _ _ Hx' E).
    rewrite binary64_pos_exact by lia. rewrite inject_Z_opp. ring.
  - rewrite binary64_of_zero; [ring|]. change (inject_Z 0) with 0%Q. ring.
  - assert (Hx : (0 < inject_Z m * pow2 j)%Q).
    { apply Qmult_lt_0_compat; [|done]. rewrite <- (Zlt_Qlt 0). lia. }
    rewrite (binary64_of_pos _ Hx). apply binary64_pos_exact; lia.
Qed.

Lemma binary64_Z (k : Z) :
  Z.abs k < 2 ^ 53 -> (binary64 (inject_Z k) == inject_Z k)%Q.
Proof.
  intros Hk.
  assert (E : (inject_Z k == inject_Z k * pow2 0)%Q)
    by (change (pow2 0) with 1%Q; ring).
  rewrite (binary64_comp _ _ E), binary64_exact by lia.
  by rewrite <- E.
Qed.

(** Rounding moves a number of magnitude at most [2^K] by at most
    [2^(K-53)]. *)
Lemma binary64_err (x : Q) (K : Z) :
  -1022 <= K -> (- pow2 K <= x)%Q -> (x <= pow2 K)%Q ->
  (x - pow2 (K - 53) <= binary64 x)%Q /\ (binary64 x <= x + pow2 (K - 53))%Q.
Proof.
  intros HK H1 H2. pose proof (pow2_pos (K - 53)) as Hp.
  assert (Hhalf : forall e : Z, e <= K - 52 ->
            (pow2 e * (1 # 2) <= pow2 (K - 53))%Q).
  { intros e He. pose proof (pow2_le e (K - 52) He) as Hle.
    pose proof (pow2_pred (K - 52)) as Hpred.
    replace (K - 52 - 1) with (K - 53) in Hpred by lia. lra. }
  destruct (Q_sign_cases x) as [Hx|[Hx|Hx]].
  - rewrite (binary64_of_neg x Hx).
    destruct (binary64_pos_err (- x)) as [E1 E2].
    assert (He : exponent64 (- x) <= K - 52).
    { unfold exponent64.
      pose proof (ilog2_le_pow2 (- x) K ltac:(lra) ltac:(lra)). lia. }
    specialize (Hhalf _ He). split; lra.
  - rewrite (binary64_of_zero x Hx). split; lra.
  - rewrite (binary64_of_pos x Hx).
    destruct (binary64_pos_err x) as [E1 E2].
    assert (He : exponent64 x <= K - 52).
    { unfold exponent64.
      pose proof (ilog2_le_pow2 x K Hx H2). lia. }
    specialize (Hhalf _ He). split; lra.
Qed.

(** ** Severity colour *)

Lemma Qle_bool_false (a b : Q) : Qle_bool a b = false <-> (b < a)%Q.
Proof.
  split.
  - intros H. apply Qnot_le_lt. intros Hle.
    apply Qle_bool_iff in Hle. congruence.
  - intros H. destruct (Qle_bool a b) eqn:E; [|done].
    apply Qle_bool_iff in E. exfalso. eapply Qlt_not_le; eauto.
Qed.

Lemma Qeq_bool_false (a b : Q) : Qeq_bool a b = false <-> ~ (a == b)%Q.
Proof.
  split.
  - apply Qeq_bool_neq.
  - intros H. destruct (Qeq_bool a b) eqn:E; [|done].
    apply Qeq_bool_iff in E. done.
Qed.

(** C3.  [getColorByLoss] is a total function of the loss alone.  A loss
    equal to -1 gets the no-data grey [#9CA3AF]; any other loss [<= 0] the
    healthy green [#10B981]; a loss in (0, 33] the minor blue [#3B82F6]; in
    (33, 66] the major red [#EF4444]; above 66 the severe purple [#8B5CF6].
    The upper bounds are inclusive: 33 is minor, 66 is major, 67 and 66.5
    are severe, and 0 is healthy. *)
Theorem getColorByLoss_bands :
  (forall l : Q,
      ((l == -1)%Q -> getColorByLoss l = "#9CA3AF") /\
      (~ (l == -1)%Q -> (l <= 0)%Q -> getColorByLoss l = "#10B981") /\
      ((0 < l)%Q -> (l <= 33)%Q -> getColorByLoss l = "#3B82F6") /\
      ((33 < l)%Q -> (l <= 66)%Q -> getColorByLoss l = "#EF4444") /\
      ((66 < l)%Q -> getColorByLoss l = "#8B5CF6")) /\
  getColorByLoss (-1) = "#9CA3AF" /\
  getColorByLoss 0 = "#10B981" /\
  getColorByLoss 33 = "#3B82F6" /\
  getColorByLoss 66 = "#EF4444" /\
  getColorByLoss 67 = "#8B5CF6" /\
  getColorByLoss 66.5 = "#8B5CF6".
Proof.
  split; [|repeat split; reflexivity].
  intros l. unfold getColorByLoss.
  destruct (Qeq_bool l (-1)) eqn:E1;
    [apply Qeq_bool_iff in E1 | apply Qeq_bool_false in E1].
  { repeat split; intros; try reflexivity; exfalso; lra. }
  destruct (Qle_bool l 0) eqn:E2;
    [apply Qle_bool_iff in E2 | apply Qle_bool_false in E2].
  { repeat split; intros; try reflexivity; try contradiction; exfalso; lra. }
  destruct (Qle_bool l 33) eqn:E3;
    [apply Qle_bool_iff in E3 | apply Qle_bool_false in E3].
  { repeat split; intros; try reflexivity; try contradiction; exfalso; lra. }
  destruct (Qle_bool l 66) eqn:E4;
    [apply Qle_bool_iff in E4 | apply Qle_bool_false in E4];
    repeat split; intros; try reflexivity; try contradiction; exfalso; lra.
Qed.

Lemma getColorByLoss_bands_witness :
  getColorByLoss (1 # 2) = "#3B82F6" /\ getColorByLoss (133 # 2) = "#8B5CF6".
Proof.
  split.
  - apply (proj1 (proj2 (proj2 (proj1 getColorByLoss_bands (1 # 2)))));
      by compute.
  - apply (proj2 (proj2 (proj2 (proj2 (proj1 getColorByLoss_bands (133 # 2))))));
      by compute.
Defined.

(** ** Bucket timeline *)

Lemma Array_from_length {A} (n : Z) (f : Z -> A) :
  length (Array_from n f) = Z.to_nat n.
Proof. unfold Array_from. by rewrite length_fmap, length_seqZ. Qed.

Lemma Array_from_lookup {A} (n : Z) (f : Z -> A) (i : nat) :
  Z.of_nat i < n -> Array_from n f !! i = Some (f (Z.of_nat i)).
Proof.
  intros Hi. unfold Array_from.
  rewrite list_lookup_fmap, lookup_seqZ_lt by done. done.
Qed.

Lemma Array_from_lookup_ge {A} (n : Z) (f : Z -> A) (i : nat) :
  n <= Z.of_nat i -> Array_from n f !! i = None.
Proof.
  intros Hi. unfold Array_from.
  rewrite list_lookup_fmap, lookup_seqZ_ge by done. done.
Qed.

Lemma Array_from_lookup_Some {A} (n : Z) (f : Z -> A) (i : nat) (a : A) :
  Array_from n f !! i = Some a -> Z.of_nat i < n /\ a = f (Z.of_nat i).
Proof.
  intros H. destruct (Z_lt_le_dec (Z.of_nat i) n) as [Hlt|Hge].
  - rewrite Array_from_lookup in H by done. by inversion H.
  - rewrite Array_from_lookup_ge in H by done. done.
Qed.

(** [Math.ceil(rangeMinutes / 60)] on an integer is the rounded-up integer
    quotient. *)
Lemma Math_ceil_div60 (r : Z) :
  Math_ceil (inject_Z r / 60)%Q = (r + 59) / 60.
Proof.
  unfold Math_ceil, Qceiling.
  assert (E : (- (inject_Z r / 60) == (- r) # 60)%Q).
  { unfold Qeq, Qdiv, Qmult, Qinv, Qopp, inject_Z. simpl. lia. }
  rewrite (Qfloor_comp _ _ E). unfold Qfloor.
  change (Z.pos 60) with 60.
  pose proof (Z.div_mod (- r) 60 ltac:(lia)).
  pose proof (Z.mod_pos_bound (- r) 60 ltac:(lia)).
  pose proof (Z.div_mod (r + 59) 60 ltac:(lia)).
  pose proof (Z.mod_pos_bound (r + 59) 60 ltac:(lia)).
  lia.
Qed.

Lemma cadence_unitMs_pos (r : Z) : 0 < (cadence r).1.
Proof. unfold cadence. repeat case_match; simpl; lia. Qed.

Lemma rev1_lookup (c r : Z) (i : nat) :
  Z.of_nat i < (cadence r).2 ->
  Rev1.getAllTimePoints c r !! i
  = Some (c - ((cadence r).2 - 1 - Z.of_nat i) * (cadence r).1).
Proof.
  intros Hi. unfold Rev1.getAllTimePoints.
  destruct (cadence r) as [unitMs points]. simpl in *.
  by rewrite Array_from_lookup.
Qed.

Lemma rev1_length (c r : Z) :
  length (Rev1.getAllTimePoints c r) = Z.to_nat (cadence r).2.
Proof.
  unfold Rev1.getAllTimePoints. destruct (cadence r) as [unitMs points].
  apply Array_from_length.
Qed.

(** Stepping forward from the anchor visits the same time values as
    stepping backward from the current time. *)
Lemma rev2_as_rev1 (c r : Z) (now : option Z) :
  Rev2.getAllTimePoints c r now = Rev1.getAllTimePoints (or_Date_now now c) r.
Proof.
  unfold Rev2.getAllTimePoints, Rev1.getAllTimePoints.
  destruct (cadence r) as [unitMs points].
  unfold Array_from. apply list_fmap_ext. intros i index _. lia.
Qed.

Lemma rev2_length (c r : Z) (now : option Z) :
  length (Rev2.getAllTimePoints c r now) = Z.to_nat (cadence r).2.
Proof. rewrite rev2_as_rev1. apply rev1_length. Qed.

Lemma rev1_evenlySpaced (c r : Z) :
  evenlySpaced (cadence r).1 (Rev1.getAllTimePoints c r).
Proof.
  intros i t t' Ht Ht'. unfold Rev1.getAllTimePoints in *.
  destruct (cadence r) as [unitMs points]. simpl.
  apply Array_from_lookup_Some in Ht as [_ ->].
  apply Array_from_lookup_Some in Ht' as [_ ->]. lia.
Qed.

Lemma rev2_lookup (c r : Z) (now : option Z) (i : nat) :
  Z.of_nat i < (cadence r).2 ->
  Rev2.getAllTimePoints c r now !! i
  = Some (or_Date_now now c - ((cadence r).2 - 1) * (cadence r).1
          + Z.of_nat i * (cadence r).1).
Proof.
  intros Hi. unfold Rev2.getAllTimePoints.
  destruct (cadence r) as [unitMs points]. simpl in *.
  by rewrite Array_from_lookup.
Qed.

Lemma rev2_evenlySpaced (c r : Z) (now : option Z) :
  evenlySpaced (cadence r).1 (Rev2.getAllTimePoints c r now).
Proof. rewrite rev2_as_rev1. apply rev1_evenlySpaced. Qed.

Lemma or_Date_now_nonzero (n c : Z) : n <> 0 -> or_Date_now (Some n) c = n.
Proof. intros Hn. unfold or_Date_now. by rewrite (proj2 (Z.eqb_neq n 0) Hn). Qed.

Lemma rev1_last (c r : Z) :
  0 < (cadence r).2 -> list.last (Rev1.getAllTimePoints c r) = Some c.
Proof.
  intros Hpos. rewrite last_lookup, rev1_length.
  replace (Nat.pred (Z.to_nat (cadence r).2))
    with (Z.to_nat ((cadence r).2 - 1)) by lia.
  rewrite rev1_lookup by lia. rewrite Z2Nat.id by lia. f_equal. ring.
Qed.

Example getAllTimePoints_rev1_5 :
  Rev1.getAllTimePoints 1000000 5
  = [730000; 760000; 790000; 820000; 850000;
     880000; 910000; 940000; 970000; 1000000].
Proof. reflexivity. Qed.

Example getAllTimePoints_rev2_5 :
  Rev2.getAllTimePoints 42 5 (Some 1000000)
  = [730000; 760000; 790000; 820000; 850000;
     880000; 910000; 940000; 970000; 1000000].
Proof. reflexivity. Qed.

(** A [now] of 0 is falsy: the clock reading is used instead. *)
Example getAllTimePoints_rev2_now_0 :
  Rev2.getAllTimePoints 1000000 5 (Some 0) = Rev1.getAllTimePoints 1000000 5.
Proof. reflexivity. Qed.

(** C1.  For every integer range, and so for every member of [TIME_RANGES],
    and every clock reading and [now], both revisions of [getAllTimePoints]
    return: [range * 2] time points 30 s apart when [range <= 60]; [range]
    points 60 s apart when [60 < range <= 1440]; the rounded-up quotient of
    [range] by 60 points, 3600 s apart, when [range > 1440].  On
    [TIME_RANGES] the counts are 10, 30, 60, 120, 180, 360 and 1440. *)
Theorem getAllTimePoints_cadence_policy (range Date_now : Z) (now : option Z) :
  let pts1 := Rev1.getAllTimePoints Date_now range in
  let pts2 := Rev2.getAllTimePoints Date_now range now in
  (range <= 60 ->
   length pts1 = Z.to_nat (range * 2) /\ evenlySpaced (30 * 1000) pts1 /\
   length pts2 = Z.to_nat (range * 2) /\ evenlySpaced (30 * 1000) pts2) /\
  (60 < range <= 1440 ->
   length pts1 = Z.to_nat range /\ evenlySpaced (60 * 1000) pts1 /\
   length pts2 = Z.to_nat range /\ evenlySpaced (60 * 1000) pts2) /\
  (1440 < range ->
   length pts1 = Z.to_nat ((range + 59) / 60) /\
   evenlySpaced (3600 * 1000) pts1 /\
   length pts2 = Z.to_nat ((range + 59) / 60) /\
   evenlySpaced (3600 * 1000) pts2) /\
  (fun r => length (Rev1.getAllTimePoints Date_now r)) <$> TIME_RANGES
  = [10; 30; 60; 120; 180; 360; 1440]%nat /\
  (fun r => length (Rev2.getAllTimePoints Date_now r now)) <$> TIME_RANGES
  = [10; 30; 60; 120; 180; 360; 1440]%nat.
Proof.
  intros pts1 pts2.
  pose proof (rev1_length Date_now range) as L1.
  pose proof (rev2_length Date_now range now) as L2.
  pose proof (rev1_evenlySpaced Date_now range) as S1.
  pose proof (rev2_evenlySpaced Date_now range now) as S2.
  fold pts1 in L1, S1. fold pts2 in L2, S2.
  repeat split; intros;
    try (unfold TIME_RANGES; simpl;
         rewrite ?rev1_length, ?rev2_length; reflexivity);
    revert L1 L2 S1 S2; unfold cadence;
    repeat (case_match; try lia); simpl;
    rewrite ?Math_ceil_div60; intros; assumption.
Qed.

Lemma getAllTimePoints_cadence_policy_witness :
  length (Rev2.getAllTimePoints 1700000000000 5 (Some 1700000030000)) = 10%nat
  /\ length (Rev1.getAllTimePoints 1700000000000 180) = 180%nat
  /\ length (Rev1.getAllTimePoints 1700000000000 1500) = 25%nat.
Proof.
  pose proof (getAllTimePoints_cadence_policy 5 1700000000000
                (Some 1700000030000)) as (H5 & _).
  pose proof (getAllTimePoints_cadence_policy 180 1700000000000 None)
    as (_ & H180 & _).
  pose proof (getAllTimePoints_cadence_policy 1500 1700000000000 None)
    as (_ & _ & H1500 & _).
  split; [|split].
  - apply H5. lia.
  - apply H180. lia.
  - apply H1500. lia.
Defined.

(** C4.  Whatever the range, let [nowEpochMs] be the current time of the
    call: the clock reading of revision 1, and [now || Date.now()] of
    revision 2.  Stepping backward from [nowEpochMs] (revision 1) and
    stepping forward from the anchor [nowEpochMs - (count - 1) * width]
    (revision 2) give the same list: bucket [i] is at
    [nowEpochMs - (count - 1 - i) * width], which is
    [anchor + i * width]; consecutive buckets are [width] apart, the list is
    strictly increasing (oldest first), and when there is a bucket at all the
    last one is at [nowEpochMs]. *)
Theorem getAllTimePoints_backward_forward
        (range nowEpochMs Date_now : Z) (now : option Z) :
  or_Date_now now Date_now = nowEpochMs ->
  let width := (cadence range).1 in
  let count := (cadence range).2 in
  let backward := Rev1.getAllTimePoints nowEpochMs range in
  let forward := Rev2.getAllTimePoints Date_now range now in
  backward = forward /\
  (forall i : nat, Z.of_nat i < count ->
     backward !! i = Some (nowEpochMs - (count - 1 - Z.of_nat i) * width) /\
     forward !! i
     = Some (nowEpochMs - (count - 1) * width + Z.of_nat i * width)) /\
  length forward = Z.to_nat count /\
  evenlySpaced width forward /\
  (forall (i j : nat) (t t' : Z),
     (i < j)%nat -> forward !! i = Some t -> forward !! j = Some t' ->
     t < t') /\
  (0 < count -> list.last forward = Some nowEpochMs).
Proof.
  intros Hnow width count backward forward.
  assert (Heq : backward = forward).
  { subst backward forward. by rewrite rev2_as_rev1, Hnow. }
  split; [exact Heq|]. split; [|split; [|split; [|split]]].
  - intros i Hi. split.
    + by apply rev1_lookup.
    + subst forward. rewrite rev2_lookup by done. by rewrite Hnow.
  - apply rev2_length.
  - apply rev2_evenlySpaced.
  - intros i j t t' Hij Hi Hj.
    pose proof (cadence_unitMs_pos range) as Hw.
    rewrite <- Heq in Hi, Hj. subst backward.
    unfold Rev1.getAllTimePoints in Hi, Hj.
    destruct (cadence range) as [unitMs points]. simpl in Hw.
    apply Array_from_lookup_Some in Hi as [_ ->].
    apply Array_from_lookup_Some in Hj as [_ ->]. nia.
  - intros Hpos. rewrite <- Heq. by apply rev1_last.
Qed.

Lemma getAllTimePoints_backward_forward_witness :
  Rev1.getAllTimePoints 1700000030000 5
  = Rev2.getAllTimePoints 1700000000000 5 (Some 1700000030000)
  /\ list.last (Rev2.getAllTimePoints 1700000000000 5 (Some 1700000030000))
     = Some 1700000030000.
Proof.
  pose proof (getAllTimePoints_backward_forward 5 1700000030000
                1700000000000 (Some 1700000030000) eq_refl)
    as (Heq & _ & _ & _ & _ & Hlast).
  split; [exact Heq|]. apply Hlast. reflexivity.
Defined.

(** ** Reindexing samples onto the timeline *)

Lemma scatterPoint_aligned (fmt : TimeFormatter) (range : Z)
      (data : list NetworkData) (type : ChartType) (i : nat) (t : Z) :
  alignedAt data type i (scatterPoint fmt range data type i t).
Proof.
  unfold alignedAt, scatterPoint. simpl.
  split; [|split].
  - intros item -> Hne. apply Qeq_bool_false in Hne. by rewrite Hne.
  - by intros ->.
  - intros item -> He. apply Qeq_bool_iff in He. by rewrite He.
Qed.

(** A sample that is present passes its loss on, and its metric too unless
    the metric is the sentinel. *)
Lemma scatterPoint_present (fmt : TimeFormatter) (range : Z)
      (data : list NetworkData) (type : ChartType) (i : nat) (t : Z)
      (item : NetworkData) :
  data !! i = Some item ->
  ScatterPoint.loss (scatterPoint fmt range data type i t) = lossOf type item /\
  (~ (pingOf type item == -1)%Q ->
   ScatterPoint.y (scatterPoint fmt range data type i t)
   = Some (pingOf type item) /\
   ScatterPoint.hasData (scatterPoint fmt range data type i t) = true).
Proof.
  intros Hitem.
  destruct (scatterPoint_aligned fmt range data type i t) as (Hv & _ & Hs).
  split.
  - destruct (Qeq_bool (pingOf type item) (-1)) eqn:E.
    + apply Qeq_bool_iff in E. by apply (Hs item Hitem E).
    + apply Qeq_bool_false in E. by apply (Hv item Hitem E).
  - intros Hne. by destruct (Hv item Hitem Hne) as (? & ? & ? & ?).
Qed.



Lemma rev2_prepare_length (fmt : TimeFormatter) (c : Z) (st : Rev2.State)
      (data : list NetworkData) (type : ChartType) :
  length (Rev2.prepareScatterData fmt c st data type)
  = length (Rev2.getAllTimePoints c (Rev2.selectedRange st)
                                  (Rev2.serverNow st)).
Proof. unfold Rev2.prepareScatterData. apply length_imap. Qed.

Lemma rev1_prepare_lookup (fmt : TimeFormatter) (c : Z) (st : Rev1.State)
      (data : list NetworkData) (type : ChartType) (i : nat) :
  Rev1.prepareScatterData fmt c st data type !! i
  = scatterPoint fmt (Rev1.selectedRange st) data type i
      <$> Rev1.getAllTimePoints c (Rev1.selectedRange st) !! i.
Proof. unfold Rev1.prepareScatterData. apply list_lookup_imap. Qed.

Lemma rev2_prepare_lookup (fmt : TimeFormatter) (c : Z) (st : Rev2.State)
      (data : list NetworkData) (type : ChartType) (i : nat) :
  Rev2.prepareScatterData fmt c st data type !! i
  = scatterPoint fmt (Rev2.selectedRange st) data type i
      <$> Rev2.getAllTimePoints c (Rev2.selectedRange st)
            (Rev2.serverNow st) !! i.
Proof. unfold Rev2.prepareScatterData. apply list_lookup_imap. Qed.

(** C2.  In both revisions, for every sample list, chart type, state and
    bucket index [i] below the bucket count, [prepareScatterData] has an
    [i]-th point, stamped with the [i]-th time point, that is aligned with
    position [i] of the samples: a sample whose metric is not -1 gives its
    metric and loss unchanged with [hasData = true]; no sample gives
    [y = null], [hasData = false], [loss = -1]; a sample whose metric is -1
    gives [y = null], [hasData = false] and the no-data colour.  When the
    list has exactly as many samples as there are buckets, every sample [i]
    is shown by bucket [i], loss and (unless it is -1) metric unchanged. *)
Theorem prepareScatterData_by_position
        (fmt : TimeFormatter) (Date_now : Z)
        (st1 : Rev1.State) (st2 : Rev2.State)
        (data : list NetworkData) (type : ChartType) :
  (forall i : nat,
      Z.of_nat i < (cadence (Rev1.selectedRange st1)).2 ->
      exists (pt : ScatterPoint.t) (t : Z),
        Rev1.prepareScatterData fmt Date_now st1 data type !! i = Some pt /\
        Rev1.getAllTimePoints Date_now (Rev1.selectedRange st1) !! i = Some t /\
        ScatterPoint.x pt = t /\ alignedAt data type i pt) /\
  (forall i : nat,
      Z.of_nat i < (cadence (Rev2.selectedRange st2)).2 ->
      exists (pt : ScatterPoint.t) (t : Z),
        Rev2.prepareScatterData fmt Date_now st2 data type !! i = Some pt /\
        Rev2.getAllTimePoints Date_now (Rev2.selectedRange st2)
          (Rev2.serverNow st2) !! i = Some t /\
        ScatterPoint.x pt = t /\ alignedAt data type i pt) /\
  (length data = Z.to_nat (cadence (Rev1.selectedRange st1)).2 ->
   forall (i : nat) (item : NetworkData),
     data !! i = Some item ->
     exists pt : ScatterPoint.t,
       Rev1.prepareScatterData fmt Date_now st1 data type !! i = Some pt /\
       ScatterPoint.loss pt = lossOf type item /\
       (~ (pingOf type item == -1)%Q ->
        ScatterPoint.y pt = Some (pingOf type item) /\
        ScatterPoint.hasData pt = true)) /\
  (length data = Z.to_nat (cadence (Rev2.selectedRange st2)).2 ->
   forall (i : nat) (item : NetworkData),
     data !! i = Some item ->
     exists pt : ScatterPoint.t,
       Rev2.prepareScatterData fmt Date_now st2 data type !! i = Some pt /\
       ScatterPoint.loss pt = lossOf type item /\
       (~ (pingOf type item == -1)%Q ->
        ScatterPoint.y pt = Some (pingOf type item) /\
        ScatterPoint.hasData pt = true)).
Proof.
  split; [|split; [|split]].
  - intros i Hi. eexists _, _.
    rewrite rev1_prepare_lookup, rev1_lookup by done. simpl.
    split; [reflexivity|]. split; [reflexivity|].
    split; [reflexivity|apply scatterPoint_aligned].
  - intros i Hi. eexists _, _.
    rewrite rev2_prepare_lookup, rev2_lookup by done. simpl.
    split; [reflexivity|]. split; [reflexivity|].
    split; [reflexivity|apply scatterPoint_aligned].
  - intros Hlen i item Hitem.
    assert (Hi : Z.of_nat i < (cadence (Rev1.selectedRange st1)).2).
    { apply lookup_lt_Some in Hitem. lia. }
    eexists. rewrite rev1_prepare_lookup, rev1_lookup by done. simpl.
    split; [reflexivity|]. by apply scatterPoint_present.
  - intros Hlen i item Hitem.
    assert (Hi : Z.of_nat i < (cadence (Rev2.selectedRange st2)).2).
    { apply lookup_lt_Some in Hitem. lia. }
    eexists. rewrite rev2_prepare_lookup, rev2_lookup by done. simpl.
    split; [reflexivity|]. by apply scatterPoint_present.
Qed.

Lemma prepareScatterData_by_position_witness :
  (exists (pt : ScatterPoint.t) (t : Z),
      Rev2.prepareScatterData noLabel 1700000000000
        (rev2_state 5 threeSamples (Some 1700000030000))
        threeSamples cloudflare !! 2%nat = Some pt /\
      Rev2.getAllTimePoints 1700000000000 5 (Some 1700000030000) !! 2%nat
      = Some t /\
      ScatterPoint.x pt = t /\ alignedAt threeSamples cloudflare 2 pt) /\
  (exists pt : ScatterPoint.t,
      Rev2.prepareScatterData noLabel 1700000000000
        (rev2_state 1 (take 2 threeSamples) None)
        (take 2 threeSamples) origin !! 1%nat = Some pt /\
      ScatterPoint.loss pt = 50%Q /\
      (~ (35 == -1)%Q ->
       ScatterPoint.y pt = Some 35%Q /\ ScatterPoint.hasData pt = true)).
Proof.
  split.
  - apply (proj1 (proj2 (prepareScatterData_by_position
                           noLabel 1700000000000 (rev1_state 5 [])
                           (rev2_state 5 threeSamples (Some 1700000030000))
                           threeSamples cloudflare)) 2%nat).
    reflexivity.
  - apply (proj2 (proj2 (proj2 (prepareScatterData_by_position
                           noLabel 1700000000000 (rev1_state 5 [])
                           (rev2_state 1 (take 2 threeSamples) None)
                           (take 2 threeSamples) origin)))
             eq_refl 1%nat (sampleOf (-1) (-1) 35 50) eq_refl).
Defined.



(** The scenario of an empty sample list at range 60: 120 points, none with
    data. *)
Example prepareScatterData_empty_60 :
  let pts := Rev2.prepareScatterData noLabel 1700000000000
               (rev2_state 60 [] (Some 1700000030000)) [] cloudflare in
  length pts = 120%nat /\
  forallb (fun pt => negb (ScatterPoint.hasData pt)) pts = true.
Proof. split; vm_compute; reflexivity. Qed.

(** ** Summary statistics *)

Lemma Math_round_nearest (q : Q) :
  (q - (1 # 2) < inject_Z (Math_round q) /\
   inject_Z (Math_round q) <= q + (1 # 2))%Q.
Proof.
  unfold Math_round.
  pose proof (Qfloor_le (q + (1 # 2))) as Hle.
  pose proof (Qlt_floor (q + (1 # 2))) as Hlt.
  rewrite inject_Z_plus in Hlt. change (inject_Z 1) with 1%Q in Hlt.
  split; lra.
Qed.

(** The sums and quotients of [getStats] are taken in doubles.  Two facts
    about them are used below: they keep within integer bounds as long as
    the integers involved are exact, and they stay close to the exact sum
    and quotient for the magnitudes of the measurements. *)


Lemma Math_round_Z (k : Z) : Math_round (inject_Z k) = k.
Proof.
  unfold Math_round, Qfloor, inject_Z, Qplus. simpl.
  change (Z.pos (1 * 2)) with 2. rewrite Z.mul_1_r.
  symmetry. apply (Z.div_unique (k * 2 + 1) 2 k 1); lia.
Qed.

Lemma Math_round_between (lo hi : Z) (q : Q) :
  (inject_Z lo <= q)%Q -> (q <= inject_Z hi)%Q ->
  lo <= Math_round q <= hi.
Proof.
  intros Hlo Hhi.
  assert (H1 : Math_round (inject_Z lo) <= Math_round q)
    by (unfold Math_round; apply Qfloor_resp_le; lra).
  assert (H2 : Math_round q <= Math_round (inject_Z hi))
    by (unfold Math_round; apply Qfloor_resp_le; lra).
  rewrite Math_round_Z in H1, H2. lia.
Qed.


Lemma sum_between (a b : Q) (xs : list Q) :
  (forall x : Q, x ∈ xs -> (a <= x)%Q /\ (x <= b)%Q) ->
  (a * inject_Z (Z.of_nat (length xs)) <= fold_right Qplus 0 xs)%Q /\
  (fold_right Qplus 0 xs <= b * inject_Z (Z.of_nat (length xs)))%Q.
Proof.
  induction xs as [|x xs IH]; intros Hall.
  - change (inject_Z (Z.of_nat (length (@nil Q)))) with 0%Q.
    change (fold_right Qplus 0 [])%Q with 0%Q. split; lra.
  - destruct IH as [IH1 IH2].
    { intros y Hy. apply Hall. by constructor. }
    destruct (Hall x ltac:(constructor)) as [Hx1 Hx2].
    simpl length. rewrite Nat2Z.inj_succ, <- Z.add_1_r, inject_Z_plus.
    change (inject_Z 1) with 1%Q.
    change (fold_right Qplus 0 (x :: xs))%Q
      with (x + fold_right Qplus 0 xs)%Q.
    split; lra.
Qed.

Lemma length_pos_Q {A : Type} (xs : list A) :
  xs <> [] -> (0 < inject_Z (Z.of_nat (length xs)))%Q.
Proof.
  intros Hne. destruct xs; [done|].
  change 0%Q with (inject_Z 0). rewrite <- Zlt_Qlt. simpl length. lia.
Qed.

Lemma mean_between (a b : Q) (xs : list Q) :
  xs <> [] ->
  (forall x : Q, x ∈ xs -> (a <= x)%Q /\ (x <= b)%Q) ->
  (a <= mean xs)%Q /\ (mean xs <= b)%Q.
Proof.
  intros Hne Hall. destruct (sum_between a b xs Hall) as [H1 H2].
  pose proof (length_pos_Q xs Hne) as Hn. unfold mean. split.
  - by apply Qle_shift_div_l.
  - by apply Qle_shift_div_r.
Qed.

Lemma fold_Number_add_between (lo hi : Z) (xs : list Q) :
  (forall x : Q, x ∈ xs -> (inject_Z lo <= x)%Q /\ (x <= inject_Z hi)%Q) ->
  forall (a : Q) (A B : Z),
    Z.abs A + Z.of_nat (length xs) * Z.abs lo < 2 ^ 53 ->
    Z.abs B + Z.of_nat (length xs) * Z.abs hi < 2 ^ 53 ->
    (inject_Z A <= a)%Q -> (a <= inject_Z B)%Q ->
    (inject_Z (A + Z.of_nat (length xs) * lo)
     <= fold_left Number_add xs a)%Q /\
    (fold_left Number_add xs a
     <= inject_Z (B + Z.of_nat (length xs) * hi))%Q.
Proof.
  induction xs as [|x xs IH]; intros Hall a A B HA HB Ha1 Ha2.
  - simpl. rewrite !Z.add_0_r. done.
  - destruct (Hall x ltac:(constructor)) as [Hx1 Hx2].
    simpl length in *. rewrite Nat2Z.inj_succ, Z.mul_succ_l in HA, HB.
    rewrite Nat2Z.inj_succ, !Z.mul_succ_l.
    pose proof (Z.mul_nonneg_nonneg (Z.of_nat (length xs)) (Z.abs lo)
                  ltac:(lia) ltac:(lia)) as Hnl.
    pose proof (Z.mul_nonneg_nonneg (Z.of_nat (length xs)) (Z.abs hi)
                  ltac:(lia) ltac:(lia)) as Hnh.
    simpl fold_left.
    destruct (IH ltac:(intros y Hy; apply Hall; by constructor)
                (Number_add a x) (A + lo) (B + hi)) as [I1 I2].
    + lia.
    + lia.
    + rewrite <- (binary64_Z (A + lo)) by lia.
      apply binary64_mono. rewrite inject_Z_plus. lra.
    + rewrite <- (binary64_Z (B + hi)) by lia.
      apply binary64_mono. rewrite inject_Z_plus. lra.
    + split.
      * replace (A + (Z.of_nat (length xs) * lo + lo))
          with (A + lo + Z.of_nat (length xs) * lo) by lia. exact I1.
      * replace (B + (Z.of_nat (length xs) * hi + hi))
          with (B + hi + Z.of_nat (length xs) * hi) by lia. exact I2.
Qed.

(** The double average of values between two integers lies between them,
    when the whole integer sums are below 2^53. *)
Lemma average_between (lo hi : Z) (xs : list Q) :
  xs <> [] ->
  (forall x : Q, x ∈ xs -> (inject_Z lo <= x)%Q /\ (x <= inject_Z hi)%Q) ->
  Z.of_nat (length xs) * Z.max (Z.abs lo) (Z.abs hi) < 2 ^ 53 ->
  (inject_Z lo
   <= Number_div (reduce_add xs) (inject_Z (Z.of_nat (length xs))))%Q /\
  (Number_div (reduce_add xs) (inject_Z (Z.of_nat (length xs)))
   <= inject_Z hi)%Q.
Proof.
  intros Hne Hall Hmag.
  pose proof (length_pos_Q xs Hne) as Hn.
  assert (Hn1 : 1 <= Z.of_nat (length xs)).
  { destruct xs; [done|]. simpl length. lia. }
  assert (Hlo : Z.of_nat (length xs) * Z.abs lo < 2 ^ 53) by nia.
  assert (Hhi : Z.of_nat (length xs) * Z.abs hi < 2 ^ 53) by nia.
  destruct (fold_Number_add_between lo hi xs Hall 0%Q 0 0) as [S1 S2];
    [simpl Z.abs; lia | simpl Z.abs; lia | done | done |].
  rewrite !Z.add_0_l in S1, S2. fold (reduce_add xs) in S1, S2.
  rewrite inject_Z_mult in S1, S2.
  unfold Number_div. split.
  - rewrite <- (binary64_Z lo) by nia. apply binary64_mono.
    apply Qle_shift_div_l; [done|]. lra.
  - rewrite <- (binary64_Z hi) by nia. apply binary64_mono.
    apply Qle_shift_div_r; [done|]. lra.
Qed.

Lemma binary64_err_33 (x : Q) :
  (-8589934592 <= x)%Q -> (x <= 8589934592)%Q ->
  (x - (1 # 1048576) <= binary64 x)%Q /\
  (binary64 x <= x + (1 # 1048576))%Q.
Proof.
  intros H1 H2. pose proof (binary64_err x 33 ltac:(lia)) as H.
  assert (E1 : pow2 33 = 8589934592%Q) by (vm_compute; reflexivity).
  assert (E2 : pow2 (33 - 53) = (1 # 1048576)%Q) by (vm_compute; reflexivity).
  rewrite E1, E2 in H. apply H; assumption.
Qed.

Lemma binary64_err_23 (x : Q) :
  (-8388608 <= x)%Q -> (x <= 8388608)%Q ->
  (x - (1 # 1073741824) <= binary64 x)%Q /\
  (binary64 x <= x + (1 # 1073741824))%Q.
Proof.
  intros H1 H2. pose proof (binary64_err x 23 ltac:(lia)) as H.
  assert (E1 : pow2 23 = 8388608%Q) by (vm_compute; reflexivity).
  assert (E2 : pow2 (23 - 53) = (1 # 1073741824)%Q) by (vm_compute; reflexivity).
  rewrite E1, E2 in H. apply H; assumption.
Qed.

Lemma binary64_err_17 (x : Q) :
  (-131072 <= x)%Q -> (x <= 131072)%Q ->
  (x - (1 # 68719476736) <= binary64 x)%Q /\
  (binary64 x <= x + (1 # 68719476736))%Q.
Proof.
  intros H1 H2. pose proof (binary64_err x 17 ltac:(lia)) as H.
  assert (E1 : pow2 17 = 131072%Q) by (vm_compute; reflexivity).
  assert (E2 : pow2 (17 - 53) = (1 # 68719476736)%Q) by (vm_compute; reflexivity).
  rewrite E1, E2 in H. apply H; assumption.
Qed.

(** The double sum of at most 65536 values of magnitude at most 65536 is
    within 2^-20 per addend of the exact sum. *)
Lemma fold_Number_add_err (xs : list Q) :
  (forall x : Q, x ∈ xs -> (-65536 <= x)%Q /\ (x <= 65536)%Q) ->
  forall (a e : Q) (k : Z),
    0 <= k -> k + Z.of_nat (length xs) <= 65536 ->
    (- (inject_Z k * (68719476737 # 1048576)) <= a)%Q ->
    (a <= inject_Z k * (68719476737 # 1048576))%Q ->
    (e - inject_Z k * (1 # 1048576) <= a)%Q ->
    (a <= e + inject_Z k * (1 # 1048576))%Q ->
    (e + fold_right Qplus 0 xs
     - inject_Z (k + Z.of_nat (length xs)) * (1 # 1048576)
     <= fold_left Number_add xs a)%Q /\
    (fold_left Number_add xs a
     <= e + fold_right Qplus 0 xs
        + inject_Z (k + Z.of_nat (length xs)) * (1 # 1048576))%Q.
Proof.
  induction xs as [|x xs IH]; intros Hall a e k Hk Hlen B1 B2 E1 E2.
  - simpl. rewrite Z.add_0_r. split; lra.
  - destruct (Hall x ltac:(constructor)) as [Hx1 Hx2].
    simpl length in *. rewrite Nat2Z.inj_succ in Hlen.
    assert (Hk' : (inject_Z k <= 65535)%Q).
    { change 65535%Q with (inject_Z 65535). rewrite <- Zle_Qle. lia. }
    assert (Hk0 : (0 <= inject_Z k)%Q).
    { change 0%Q with (inject_Z 0). rewrite <- Zle_Qle. lia. }
    destruct (binary64_err_33 (a + x)) as [R1 R2]; [lra|lra|].
    fold (Number_add a x) in R1, R2.
    assert (Hk1 : (inject_Z (k + 1) == inject_Z k + 1)%Q)
      by (by rewrite inject_Z_plus).
    destruct (IH ltac:(intros y Hy; apply Hall; by constructor)
                (Number_add a x) (e + x)%Q (k + 1)) as [I1 I2];
      [lia|lia|lra|lra|lra|lra|].
    rewrite Nat2Z.inj_succ.
    replace (k + Z.succ (Z.of_nat (length xs)))
      with (k + 1 + Z.of_nat (length xs)) by lia.
    simpl fold_left.
    change (fold_right Qplus 0 (x :: xs))%Q
      with (x + fold_right Qplus 0 xs)%Q.
    split; lra.
Qed.

(** The double average of at most 65536 values of magnitude at most 65536
    is within 2^-20 + 2^-36 of their mean. *)
Lemma average_err (xs : list Q) :
  xs <> [] -> Z.of_nat (length xs) <= 65536 ->
  (forall x : Q, x ∈ xs -> (-65536 <= x)%Q /\ (x <= 65536)%Q) ->
  (mean xs - (65537 # 68719476736)
   <= Number_div (reduce_add xs) (inject_Z (Z.of_nat (length xs))))%Q /\
  (Number_div (reduce_add xs) (inject_Z (Z.of_nat (length xs)))
   <= mean xs + (65537 # 68719476736))%Q.
Proof.
  intros Hne Hlen Hall.
  pose proof (length_pos_Q xs Hne) as Hn.
  destruct (mean_between _ _ xs Hne Hall) as [M1 M2].
  destruct (fold_Number_add_err xs Hall 0%Q 0%Q 0) as [S1 S2];
    [lia|lia|done|done|done|done|].
  rewrite !Z.add_0_l in S1, S2. fold (reduce_add xs) in S1, S2.
  set (n := inject_Z (Z.of_nat (length xs))) in *.
  set (s := fold_right Qplus 0%Q xs) in *.
  assert (Hm : (mean xs == s / n)%Q) by reflexivity.
  assert (Q1 : (s / n - (1 # 1048576) <= reduce_add xs / n)%Q).
  { apply Qle_shift_div_l; [done|].
    assert (E : ((s / n - (1 # 1048576)) * n == s - n * (1 # 1048576))%Q)
      by (field; lra).
    lra. }
  assert (Q2 : (reduce_add xs / n <= s / n + (1 # 1048576))%Q).
  { apply Qle_shift_div_r; [done|].
    assert (E : ((s / n + (1 # 1048576)) * n == s + n * (1 # 1048576))%Q)
      by (field; lra).
    lra. }
  destruct (binary64_err_17 (reduce_add xs / n)) as [R1 R2]; [lra|lra|].
  unfold Number_div. split; lra.
Qed.

(** Scaling by 100, rounding to an integer and scaling back, in doubles,
    moves a number of magnitude at most 65537 by at most one half of a
    hundredth and 2^-35. *)
Lemma hundredths_err (q : Q) :
  (-65537 <= q)%Q -> (q <= 65537)%Q ->
  let v := Number_div (inject_Z (Math_round (Number_mul q 100))) 100 in
  (q - (1 # 200) - (1 # 34359738368) <= v)%Q /\
  (v <= q + (1 # 200) + (1 # 34359738368))%Q.
Proof.
  intros H1 H2 v. subst v. unfold Number_div, Number_mul.
  destruct (binary64_err_23 (q * 100)) as [P1 P2]; [lra|lra|].
  destruct (Math_round_nearest (binary64 (q * 100))) as [N1 N2].
  set (r := inject_Z (Math_round (binary64 (q * 100)))) in *.
  assert (D : (r / 100 == r * (1 # 100))%Q) by (field; lra).
  destruct (binary64_err_17 (r / 100)) as [R1 R2]; [lra|lra|].
  split; lra.
Qed.

Lemma Qmin_cases (a b : Q) : Qmin a b = a \/ Qmin a b = b.
Proof.
  unfold Qmin, GenericMinMax.gmin. destruct (a ?= b)%Q; auto.
Qed.

Lemma Qmax_cases (a b : Q) : Qmax a b = a \/ Qmax a b = b.
Proof.
  unfold Qmax, GenericMinMax.gmax. destruct (a ?= b)%Q; auto.
Qed.

Lemma fold_Qmin_spec (xs : list Q) (a : Q) :
  let m := fold_left Qmin xs a in
  m ∈ a :: xs /\ forall p : Q, p ∈ a :: xs -> (m <= p)%Q.
Proof.
  revert a. induction xs as [|x xs IH]; intros a; simpl.
  - split; [constructor|]. intros p Hp.
    apply list_elem_of_singleton in Hp as ->. apply Qle_refl.
  - destruct (IH (Qmin a x)) as [Hin Hle]. split.
    + apply elem_of_cons in Hin as [Heq|Hin].
      * rewrite Heq. destruct (Qmin_cases a x) as [->| ->];
          [constructor | do 2 constructor].
      * by do 2 constructor.
    + intros p Hp.
      assert (Hm : (fold_left Qmin xs (Qmin a x) <= Qmin a x)%Q)
        by (apply Hle; constructor).
      apply elem_of_cons in Hp as [->|Hp].
      { eapply Qle_trans; [exact Hm|apply Q.le_min_l]. }
      apply elem_of_cons in Hp as [->|Hp].
      { eapply Qle_trans; [exact Hm|apply Q.le_min_r]. }
      apply Hle. by constructor.
Qed.

Lemma fold_Qmax_spec (xs : list Q) (a : Q) :
  let m := fold_left Qmax xs a in
  m ∈ a :: xs /\ forall p : Q, p ∈ a :: xs -> (p <= m)%Q.
Proof.
  revert a. induction xs as [|x xs IH]; intros a; simpl.
  - split; [constructor|]. intros p Hp.
    apply list_elem_of_singleton in Hp as ->. apply Qle_refl.
  - destruct (IH (Qmax a x)) as [Hin Hle]. split.
    + apply elem_of_cons in Hin as [Heq|Hin].
      * rewrite Heq. destruct (Qmax_cases a x) as [->| ->];
          [constructor | do 2 constructor].
      * by do 2 constructor.
    + intros p Hp.
      assert (Hm : (Qmax a x <= fold_left Qmax xs (Qmax a x))%Q)
        by (apply Hle; constructor).
      apply elem_of_cons in Hp as [->|Hp].
      { eapply Qle_trans; [apply Q.le_max_l|exact Hm]. }
      apply elem_of_cons in Hp as [->|Hp].
      { eapply Qle_trans; [apply Q.le_max_r|exact Hm]. }
      apply Hle. by constructor.
Qed.

Lemma Math_min_cons (a : Q) (xs : list Q) :
  Math_min (a :: xs) = Finite (fold_left Qmin xs a).
Proof.
  unfold Math_min. simpl. generalize a. clear a.
  induction xs as [|x xs IH]; intros a; simpl; [done|]. apply IH.
Qed.

Lemma Math_max_cons (a : Q) (xs : list Q) :
  Math_max (a :: xs) = Finite (fold_left Qmax xs a).
Proof.
  unfold Math_max. simpl. generalize a. clear a.
  induction xs as [|x xs IH]; intros a; simpl; [done|]. apply IH.
Qed.

(** On at least one argument [Math.min] is a finite number, one of the
    arguments and below all of them. *)
Lemma Math_min_spec (xs : list Q) :
  xs <> [] ->
  exists m : Q, Math_min xs = Finite m /\ m ∈ xs /\
                forall p : Q, p ∈ xs -> (m <= p)%Q.
Proof.
  destruct xs as [|a xs]; [done|]. intros _.
  exists (fold_left Qmin xs a). rewrite Math_min_cons.
  split; [done|]. apply fold_Qmin_spec.
Qed.

Lemma Math_max_spec (xs : list Q) :
  xs <> [] ->
  exists m : Q, Math_max xs = Finite m /\ m ∈ xs /\
                forall p : Q, p ∈ xs -> (p <= m)%Q.
Proof.
  destruct xs as [|a xs]; [done|]. intros _.
  exists (fold_left Qmax xs a). rewrite Math_max_cons.
  split; [done|]. apply fold_Qmax_spec.
Qed.

Lemma filter_isValid_length (type : ChartType) (data : list NetworkData) :
  length (List.filter (isValid type) data) = countValid type data.
Proof.
  induction data as [|item rest IH]; simpl; [done|].
  unfold isValid at 1.
  destruct (Qeq_bool (pingOf type item) (-1)); simpl; by rewrite IH.
Qed.

Lemma countValid_le (type : ChartType) (data : list NetworkData) :
  (countValid type data <= length data)%nat.
Proof.
  induction data as [|item rest IH]; simpl; [done|].
  destruct (Qeq_bool (pingOf type item) (-1)); lia.
Qed.

Lemma filter_isValid_nil (type : ChartType) (data : list NetworkData) :
  List.filter (isValid type) data = [] <->
  forall item : NetworkData, item ∈ data -> (pingOf type item == -1)%Q.
Proof.
  induction data as [|item rest IH]; simpl.
  - split; [|done]. intros _ item Hin. by apply elem_of_nil in Hin.
  - unfold isValid at 1.
    destruct (Qeq_bool (pingOf type item) (-1)) eqn:E; simpl.
    + apply Qeq_bool_iff in E. rewrite IH. split.
      * intros H x Hx. apply elem_of_cons in Hx as [->|Hx]; auto.
      * intros H x Hx. apply H. by constructor.
    + apply Qeq_bool_false in E. split; [done|].
      intros H. exfalso. apply E, H. constructor.
Qed.

(** The result of [getStats], field by field. *)
Lemma getStats_unfold (data : list NetworkData) (type : ChartType) :
  let validData := List.filter (isValid type) data in
  let pings := map (pingOf type) validData in
  let losses := map (lossOf type) validData in
  getStats data type =
  match validData with
  | [] => None
  | _ :: _ =>
      Some {| avgPing :=
                Math_round
                  (Number_div (reduce_add pings)
                              (inject_Z (Z.of_nat (length pings))));
              minPing := Math_min pings;
              maxPing := Math_max pings;
              avgLoss :=
                Number_div
                  (inject_Z
                     (Math_round
                        (Number_mul
                           (Number_div (reduce_add losses)
                                       (inject_Z (Z.of_nat (length losses))))
                           100)))
                  100;
              maxLoss := Math_max losses;
              dataPoints := length validData;
              totalPoints := length data |}
  end.
Proof.
  intros validData pings losses. unfold getStats.
  change (List.filter _ data) with validData.
  by destruct validData.
Qed.

(** C6.  [getStats] keeps the samples whose selected metric is not -1 and
    returns [null] exactly when none is kept, that is exactly when every
    sample of the input has the sentinel metric: in particular on the empty
    input.  Otherwise it returns a stats object. *)
Theorem getStats_absent_iff (data : list NetworkData) (type : ChartType) :
  (getStats data type = None <-> List.filter (isValid type) data = []) /\
  (getStats data type = None <->
   forall item : NetworkData, item ∈ data -> (pingOf type item == -1)%Q) /\
  (is_Some (getStats data type) <->
   exists item : NetworkData, item ∈ data /\ ~ (pingOf type item == -1)%Q) /\
  getStats [] type = None.
Proof.
  assert (H1 : getStats data type = None <->
               List.filter (isValid type) data = []).
  { rewrite getStats_unfold. by destruct (List.filter (isValid type) data). }
  split; [exact H1|]. split; [by rewrite H1, filter_isValid_nil|].
  split; [|reflexivity].
  rewrite <- not_eq_None_Some, H1. split.
  - intros Hne. destruct (List.filter (isValid type) data) as [|item l] eqn:E;
      [done|].
    exists item.
    assert (Hin : In item (List.filter (isValid type) data))
      by (rewrite E; by left).
    apply filter_In in Hin as [Hin Hv]. split; [by apply list_elem_of_In|].
    unfold isValid in Hv. apply negb_true_iff in Hv.
    by apply Qeq_bool_false.
  - intros (item & Hin & Hv) Hnil.
    apply Hv. by apply (proj1 (filter_isValid_nil type data) Hnil).
Qed.

Lemma getStats_absent_iff_witness :
  getStats [sampleOf (-1) 0 25 0; sampleOf (-1) 10 30 0] cloudflare = None /\
  is_Some (getStats [sampleOf (-1) 0 25 0; sampleOf (-1) 10 30 0] origin).
Proof.
  split.
  - apply (proj2 (proj1 (proj2 (getStats_absent_iff
                                  [sampleOf (-1) 0 25 0; sampleOf (-1) 10 30 0]
                                  cloudflare)))).
    intros item Hin.
    apply elem_of_cons in Hin as [->|Hin]; [reflexivity|].
    apply list_elem_of_singleton in Hin as ->. reflexivity.
  - apply (proj2 (proj1 (proj2 (proj2 (getStats_absent_iff
                                  [sampleOf (-1) 0 25 0; sampleOf (-1) 10 30 0]
                                  origin))))).
    exists (sampleOf (-1) 0 25 0). split; [constructor|]. by compute.
Defined.

(** All the fields of the stats object, when some sample is kept. *)
Lemma getStats_fields (data : list NetworkData) (type : ChartType) :
  List.filter (isValid type) data <> [] ->
  let validData := List.filter (isValid type) data in
  let pings := map (pingOf type) validData in
  let losses := map (lossOf type) validData in
  exists st : Stats,
    getStats data type = Some st /\
    avgPing st
    = Math_round (Number_div (reduce_add pings)
                             (inject_Z (Z.of_nat (length pings)))) /\
    avgLoss st
    = Number_div
        (inject_Z
           (Math_round
              (Number_mul
                 (Number_div (reduce_add losses)
                             (inject_Z (Z.of_nat (length losses))))
                 100)))
        100 /\
    (exists m : Q, minPing st = Finite m /\ m ∈ pings /\
                   forall p : Q, p ∈ pings -> (m <= p)%Q) /\
    (exists m : Q, maxPing st = Finite m /\ m ∈ pings /\
                   forall p : Q, p ∈ pings -> (p <= m)%Q) /\
    (exists m : Q, maxLoss st = Finite m /\ m ∈ losses /\
                   forall l : Q, l ∈ losses -> (l <= m)%Q) /\
    dataPoints st = countValid type data /\
    totalPoints st = length data /\
    (dataPoints st <= totalPoints st)%nat.
Proof.
  intros Hne validData pings losses. change (validData <> []) in Hne.
  pose proof (getStats_unfold data type) as Hg. simpl in Hg.
  fold validData in Hg. fold pings in Hg. fold losses in Hg.
  assert (Hl : losses <> []).
  { subst losses. by destruct validData. }
  assert (Hp : pings <> []).
  { subst pings. by destruct validData. }
  lazymatch type of Hg with
  | _ = match _ with [] => _ | _ :: _ => Some ?r end =>
      assert (Hs : getStats data type = Some r)
        by (rewrite Hg; by destruct validData)
  end.
  eexists. split; [exact Hs|].
  cbn [avgPing minPing maxPing avgLoss maxLoss dataPoints totalPoints].
  split; [reflexivity|]. split; [reflexivity|].
  split; [by apply Math_min_spec|]. split; [by apply Math_max_spec|].
  split; [by apply Math_max_spec|].
  split; [subst validData; apply filter_isValid_length|].
  split; [reflexivity|].
  subst validData. rewrite filter_isValid_length. apply countValid_le.
Qed.



(** [avgLoss] is within half a hundredth and a millionth of the mean, for
    at most 65536 values of magnitude at most 65536. *)
Lemma avgLoss_close (xs : list Q) :
  xs <> [] -> Z.of_nat (length xs) <= 65536 ->
  (forall x : Q, x ∈ xs -> (-65536 <= x)%Q /\ (x <= 65536)%Q) ->
  let avg :=
    Number_div
      (inject_Z
         (Math_round
            (Number_mul
               (Number_div (reduce_add xs) (inject_Z (Z.of_nat (length xs))))
               100)))
      100 in
  (mean xs - (1 # 200) - (1 # 1000000) <= avg)%Q /\
  (avg <= mean xs + (1 # 200) + (1 # 1000000))%Q.
Proof.
  intros Hne Hlen Hall avg. subst avg.
  destruct (average_err xs Hne Hlen Hall) as [A1 A2].
  destruct (mean_between _ _ xs Hne Hall) as [M1 M2].
  destruct (hundredths_err
              (Number_div (reduce_add xs) (inject_Z (Z.of_nat (length xs)))))
    as [H1 H2]; [lra|lra|].
  cbv zeta in H1, H2. split; lra.
Qed.



Lemma Math_round_comp (x y : Q) : (x == y)%Q -> Math_round x = Math_round y.
Proof. intros H. unfold Math_round. apply Qfloor_comp. lra. Qed.



(** Scaling by 100, rounding to an integer and scaling back, in doubles,
    keeps a number between the integers it lies between. *)
Lemma hundredths_between (lo hi : Z) (q : Q) :
  100 * Z.max (Z.abs lo) (Z.abs hi) < 2 ^ 53 ->
  (inject_Z lo <= q)%Q -> (q <= inject_Z hi)%Q ->
  let v := Number_div (inject_Z (Math_round (Number_mul q 100))) 100 in
  (inject_Z lo <= v)%Q /\ (v <= inject_Z hi)%Q.
Proof.
  intros Hmag H1 H2 v. subst v. unfold Number_div, Number_mul.
  assert (P1 : (inject_Z (lo * 100) <= binary64 (q * 100))%Q).
  { rewrite <- (binary64_Z (lo * 100)) by lia. apply binary64_mono.
    rewrite inject_Z_mult. change (inject_Z 100) with 100%Q. lra. }
  assert (P2 : (binary64 (q * 100) <= inject_Z (hi * 100))%Q).
  { rewrite <- (binary64_Z (hi * 100)) by lia. apply binary64_mono.
    rewrite inject_Z_mult. change (inject_Z 100) with 100%Q. lra. }
  destruct (Math_round_between _ _ _ P1 P2) as [R1 R2].
  rewrite Zle_Qle in R1, R2. rewrite inject_Z_mult in R1, R2.
  change (inject_Z 100) with 100%Q in R1, R2.
  split.
  - rewrite <- (binary64_Z lo) by lia. apply binary64_mono.
    apply Qle_shift_div_l; [reflexivity|]. lra.
  - rewrite <- (binary64_Z hi) by lia. apply binary64_mono.
    apply Qle_shift_div_r; [reflexivity|]. lra.
Qed.


(** The stats object of a given input, by evaluation. *)
Ltac stats_by_computation :=
  lazymatch goal with
  | |- exists st : Stats, getStats ?data ?type = Some st /\ _ =>
      let v := eval vm_compute in (getStats data type) in
      lazymatch v with
      | Some ?s => exists s; split; [vm_compute; reflexivity|]
      end
  end.

(** C7, as the spec has it, fails for the averages, which are computed in
    doubles.  Of 40 samples with a valid value, 23 with loss 1 and 17 with
    loss 0, the mean loss is 0.575, which rounds to 0.58 (a tie going up, or
    to the even hundredth); [getStats] stores 23/40 as the double just below
    0.575 and its product by 100 as the double just below 57.5, and its
    [avgLoss] is the double nearest to 0.57, which is more than half a
    hundredth below the mean. *)
Lemma getStats_average_not_rounded_mean :
  let losses :=
    map (lossOf cloudflare) (List.filter (isValid cloudflare) fortySamples) in
  length losses = 40%nat /\
  (mean losses == 23 # 40)%Q /\
  Math_round (mean losses * 100) = 58 /\
  (avgLoss <$> getStats fortySamples cloudflare)
  = Some (binary64 (57 # 100)) /\
  (binary64 (57 # 100) < mean losses - (1 # 200))%Q.
Proof.
  split; [by vm_compute|]. split; [by vm_compute|].
  split; [by vm_compute|]. split; by vm_compute.
Qed.

(** The same with large values: of the four values 2^53, 1, 1, 1 the mean
    is 2^51 + 0.75, whose nearest integer is 2^51 + 1; each addition of 1 to
    2^53 is lost in the sum and [avgPing] is 2^51. *)
Example getStats_avgPing_large_values :
  let data := [sampleOf 9007199254740992 0 0 0; sampleOf 1 0 0 0;
               sampleOf 1 0 0 0; sampleOf 1 0 0 0] in
  let pings :=
    map (pingOf cloudflare) (List.filter (isValid cloudflare) data) in
  (avgPing <$> getStats data cloudflare) = Some 2251799813685248 /\
  Math_round (mean pings) = 2251799813685249.
Proof. split; by vm_compute. Qed.



(** The scenario of 120 samples with [ping = 10], [loss = 0] at range 60:
    120 healthy points, [avgPing = 10], [avgLoss = 0], all 120 valid. *)
Example getStats_all_healthy_60 :
  let data := replicate 120 (sampleOf 10 0 10 0) in
  let pts := Rev2.prepareScatterData noLabel 1700000000000
               (rev2_state 60 data (Some 1700000030000)) data cloudflare in
  length pts = 120%nat /\
  forallb (fun pt => String.eqb (ScatterPoint.color pt) "#10B981") pts = true /\
  (avgPing <$> getStats data cloudflare) = Some 10 /\
  ((fun st => Qeq_bool (avgLoss st) 0) <$> getStats data cloudflare)
  = Some true /\
  (dataPoints <$> getStats data cloudflare) = Some 120%nat /\
  (totalPoints <$> getStats data cloudflare) = Some 120%nat.
Proof. repeat split; vm_compute; reflexivity. Qed.

Example getStats_threeSamples :
  (avgPing <$> getStats threeSamples cloudflare) = Some 11 /\
  ((fun st => Qeq_bool (avgLoss st) (- (1 # 2))) <$>
     getStats threeSamples cloudflare) = Some true /\
  (minPing <$> getStats threeSamples cloudflare) = Some (Finite 9) /\
  (maxPing <$> getStats threeSamples cloudflare) = Some (Finite 12).
Proof. repeat split; vm_compute; reflexivity. Qed.

(** Forty measured samples of which 23 lost one percent: the page shows an
    average loss of 0.57 where the mean is 0.575. *)
Example getStats_fortySamples :
  (avgPing <$> getStats fortySamples cloudflare) = Some 10 /\
  (avgLoss <$> getStats fortySamples cloudflare)
  = Some (binary64 (57 # 100)) /\
  (dataPoints <$> getStats fortySamples cloudflare) = Some 40%nat.
Proof. repeat split; vm_compute; reflexivity. Qed.

Lemma valid_loss_kept (data : list NetworkData) (type : ChartType)
      (item : NetworkData) :
  item ∈ data -> ~ (pingOf type item == -1)%Q ->
  item ∈ List.filter (isValid type) data /\
  lossOf type item ∈ map (lossOf type) (List.filter (isValid type) data).
Proof.
  intros Hin Hv.
  assert (Hf : In item (List.filter (isValid type) data)).
  { apply filter_In. split; [by apply list_elem_of_In|].
    unfold isValid. apply negb_true_iff. by apply Qeq_bool_false. }
  split; apply list_elem_of_In; [done|]. by apply in_map.
Qed.

(** C10.  [getStats] selects samples by the ping metric alone: a sample with
    the sentinel metric is dropped whatever its loss, and a sample whose
    metric is valid and whose loss is -1 is kept; its -1 is one of the losses
    that [avgLoss] averages and [maxLoss] maximises.  For at most 65536
    kept samples with losses of magnitude at most 65536, [avgLoss] is
    within half a hundredth and a millionth of the mean of all the kept
    losses, the -1 included; when every kept loss is -1, [avgLoss] and
    [maxLoss] are -1.  So [avgLoss] can be negative: one sample with loss 0
    and one with loss -1 give [avgLoss = -0.5] and [maxLoss = 0]; a sample
    with the sentinel metric and loss 50 next to a valid sample with loss -1
    gives [avgLoss = -1] and [maxLoss = -1], from one data point. *)
Theorem getStats_loss_keeps_sentinel :
  (forall (data : list NetworkData) (type : ChartType) (item : NetworkData),
      item ∈ data ->
      ~ (pingOf type item == -1)%Q ->
      (lossOf type item == -1)%Q ->
      let losses := map (lossOf type) (List.filter (isValid type) data) in
      exists st : Stats,
        getStats data type = Some st /\
        lossOf type item ∈ losses /\
        (exists m : Q, maxLoss st = Finite m /\ m ∈ losses /\
                       forall l : Q, l ∈ losses -> (l <= m)%Q) /\
        (Z.of_nat (length losses) <= 65536 ->
         (forall l : Q, l ∈ losses -> (-65536 <= l)%Q /\ (l <= 65536)%Q) ->
         (mean losses - (1 # 200) - (1 # 1000000) <= avgLoss st)%Q /\
         (avgLoss st <= mean losses + (1 # 200) + (1 # 1000000))%Q) /\
        (Z.of_nat (length losses) <= 65536 ->
         (forall l : Q, l ∈ losses -> (l == -1)%Q) ->
         (avgLoss st == -1)%Q /\
         exists m : Q, maxLoss st = Finite m /\ (m == -1)%Q)) /\
  (exists st : Stats,
      getStats [sampleOf 10 0 10 0; sampleOf 20 (-1) 20 (-1)] cloudflare
      = Some st /\
      (avgLoss st == - (1 # 2))%Q /\ maxLoss st = Finite 0) /\
  (exists st : Stats,
      getStats [sampleOf (-1) 50 35 50; sampleOf 20 (-1) 20 (-1)] cloudflare
      = Some st /\
      (avgLoss st == -1)%Q /\ maxLoss st = Finite (-1) /\
      dataPoints st = 1%nat /\ totalPoints st = 2%nat).
Proof.
  split; [|split].
  - intros data type item Hin Hv Hs losses.
    destruct (valid_loss_kept data type item Hin Hv) as [Hk Hl].
    assert (Hne : List.filter (isValid type) data <> []).
    { intros Hnil. rewrite Hnil in Hk. by apply elem_of_nil in Hk. }
    destruct (getStats_fields data type Hne)
      as (st & Hst & _ & Havg & _ & _ & Hmax & _).
    fold losses in Havg, Hmax.
    assert (Hlne : losses <> []).
    { intros Hnil. fold losses in Hl. rewrite Hnil in Hl.
      by apply elem_of_nil in Hl. }
    exists st. split; [exact Hst|]. split; [exact Hl|].
    split; [exact Hmax|]. split.
    + intros Hlen Hall. rewrite Havg. by apply avgLoss_close.
    + intros Hlen Hall.
      assert (Hb : forall l : Q,
                 l ∈ losses ->
                 (inject_Z (-1) <= l)%Q /\ (l <= inject_Z (-1))%Q).
      { intros l Hl'. pose proof (Hall l Hl') as E.
        change (inject_Z (-1)) with (-1)%Q. split; lra. }
      destruct (average_between (-1) (-1) losses Hlne Hb) as [A1 A2].
      { simpl Z.abs. simpl Z.max. lia. }
      destruct (hundredths_between (-1) (-1) _ ltac:(simpl; lia) A1 A2)
        as [V1 V2].
      cbv zeta in V1, V2. rewrite <- Havg in V1, V2.
      change (inject_Z (-1)) with (-1)%Q in V1, V2.
      split; [lra|].
      destruct Hmax as (m & Hm & Hmin & _). exists m. split; [exact Hm|].
      by apply Hall.
  - stats_by_computation. split; by vm_compute.
  - stats_by_computation. split; [by vm_compute|].
    split; [by vm_compute|]. split; reflexivity.
Qed.

Lemma getStats_loss_keeps_sentinel_witness :
  exists st : Stats,
    getStats threeSamples cloudflare = Some st /\
    (-1)%Q ∈ [0%Q; (-1)%Q] /\
    (mean [0%Q; (-1)%Q] - (1 # 200) - (1 # 1000000) <= avgLoss st)%Q /\
    (avgLoss st <= mean [0%Q; (-1)%Q] + (1 # 200) + (1 # 1000000))%Q.
Proof.
  destruct (proj1 getStats_loss_keeps_sentinel threeSamples cloudflare
                  (sampleOf 9 (-1) 15 100))
    as (st & Hst & Hin & _ & Hclose & _).
  - do 2 constructor. constructor.
  - by compute.
  - reflexivity.
  - exists st. split; [exact Hst|]. split; [exact Hin|].
    apply Hclose; [by vm_compute|]. intros l Hl.
    apply elem_of_cons in Hl as [->|Hl]; [split; by vm_compute|].
    apply list_elem_of_singleton in Hl as ->. split; by vm_compute.
Defined.

(** ** The sample-series request *)

Lemma formatData_length (items : list NetworkData) :
  length (formatData items) = length items.
Proof. apply length_imap. Qed.

Lemma formatData_lookup (items : list NetworkData) (i : nat)
      (item : NetworkData) :
  items !! i = Some item ->
  exists item' : NetworkData,
    formatData items !! i = Some item' /\
    ping item' = ping item /\ loss item' = loss item /\
    ping_dev item' = ping_dev item /\ loss_dev item' = loss_dev item /\
    time item' = Some (Z.of_nat i + 1).
Proof.
  intros Hi. unfold formatData. rewrite list_lookup_imap, Hi. simpl.
  eexists. split; [reflexivity|]. by repeat split.
Qed.

Lemma isp_selected (isp : string) : isp <> "" -> String.eqb isp "" = false.
Proof. intros H. by apply String.eqb_neq. Qed.

(** C9.  In both revisions, when a request was sent (an ISP is selected) and
    it fails, by rejection of the request or by a response whose [ok] flag is
    false, the state left by [fetchNetworkData] has the error message
    "無法取得網路數據" of the [catch] block, which is not empty, an empty
    [networkData] whatever samples were held before, and [loading] false.
    In revision 2 the same holds of the state in which the failing request
    settles, whatever other requests did to it in the meantime.  The page
    then shows the error box and no charts. *)
Theorem fetchNetworkData_failure
        (st1 : Rev1.State) (st2 : Rev2.State) (r : FetchResult) :
  r = Rejected \/ (exists json : option Json, r = Responded false json) ->
  (Rev1.selectedISP st1 <> "" ->
   Rev1.error (Rev1.fetchNetworkData st1 r) = "無法取得網路數據" /\
   Rev1.error (Rev1.fetchNetworkData st1 r) <> "" /\
   Rev1.networkData (Rev1.fetchNetworkData st1 r) = [] /\
   Rev1.loading (Rev1.fetchNetworkData st1 r) = false /\
   showError (Rev1Events.view (Rev1.fetchNetworkData st1 r)) = true /\
   showCharts (Rev1Events.view (Rev1.fetchNetworkData st1 r)) = false) /\
  (Rev2.selectedISP st2 <> "" ->
   Rev2.error (Rev2.fetchNetworkData st2 r) = "無法取得網路數據" /\
   Rev2.error (Rev2.fetchNetworkData st2 r) <> "" /\
   Rev2.networkData (Rev2.fetchNetworkData st2 r) = [] /\
   Rev2.loading (Rev2.fetchNetworkData st2 r) = false /\
   showError (Rev2Events.view (Rev2.fetchNetworkData st2 r)) = true /\
   showCharts (Rev2Events.view (Rev2.fetchNetworkData st2 r)) = false) /\
  (Rev2.error (fetchNetworkData_settle st2 r) = "無法取得網路數據" /\
   Rev2.networkData (fetchNetworkData_settle st2 r) = [] /\
   Rev2.loading (fetchNetworkData_settle st2 r) = false /\
   showError (Rev2Events.view (fetchNetworkData_settle st2 r)) = true /\
   showCharts (Rev2Events.view (fetchNetworkData_settle st2 r)) = false).
Proof.
  intros Hfail. split; [|split].
  - intros Hisp. unfold Rev1Events.view, Rev1.fetchNetworkData.
    rewrite (isp_selected _ Hisp).
    destruct Hfail as [->|[json ->]]; cbn;
      (split; [reflexivity|]); (split; [discriminate|]);
      (split; [reflexivity|]); (split; [reflexivity|]);
      (split; [reflexivity|]); apply andb_false_r.
  - intros Hisp. unfold Rev2Events.view, Rev2.fetchNetworkData.
    rewrite (isp_selected _ Hisp).
    destruct Hfail as [->|[json ->]]; cbn;
      (split; [reflexivity|]); (split; [discriminate|]);
      (split; [reflexivity|]); (split; [reflexivity|]);
      (split; [reflexivity|]); apply andb_false_r.
  - unfold Rev2Events.view, fetchNetworkData_settle.
    destruct Hfail as [->|[json ->]]; cbn;
      (split; [reflexivity|]); (split; [reflexivity|]);
      (split; [reflexivity|]); (split; [reflexivity|]);
      apply andb_false_r.
Qed.

Lemma fetchNetworkData_failure_witness :
  Rev2.error (Rev2.fetchNetworkData
                (rev2_state 60 threeSamples (Some 1700000030000))
                (Responded false None)) = "無法取得網路數據" /\
  Rev2.error (Rev2.fetchNetworkData
                (rev2_state 60 threeSamples (Some 1700000030000))
                (Responded false None)) <> "" /\
  Rev2.networkData (Rev2.fetchNetworkData
                      (rev2_state 60 threeSamples (Some 1700000030000))
                      (Responded false None)) = [] /\
  Rev2.loading (Rev2.fetchNetworkData
                  (rev2_state 60 threeSamples (Some 1700000030000))
                  (Responded false None)) = false /\
  showError (Rev2Events.view
               (Rev2.fetchNetworkData
                  (rev2_state 60 threeSamples (Some 1700000030000))
                  (Responded false None))) = true /\
  showCharts (Rev2Events.view
                (Rev2.fetchNetworkData
                   (rev2_state 60 threeSamples (Some 1700000030000))
                   (Responded false None))) = false.
Proof.
  apply (fetchNetworkData_failure
           (rev1_state 60 threeSamples)
           (rev2_state 60 threeSamples (Some 1700000030000))
           (Responded false None)).
  - right. by exists None.
  - discriminate.
Defined.

(** Against C8 as stated: a successful response carrying a bare array is not
    accepted by the handler of revision 2: [responseData.data] is [undefined], the [try]
    block throws, and the failure state results.  Symmetrically the
    handler of revision 1 does not accept the envelope. *)
Lemma fetchNetworkData_one_shape_per_revision :
  let bare := Responded true (Some (JArray threeSamples)) in
  let envelope :=
    Responded true (Some (JObject (Some threeSamples) (Some 1700000030000))) in
  Rev2.error (Rev2.fetchNetworkData (rev2_state 60 [] None) bare)
  = networkDataError /\
  Rev2.error (Rev2.fetchNetworkData (rev2_state 60 [] None) bare) <> "" /\
  Rev2.networkData (Rev2.fetchNetworkData (rev2_state 60 [] None) bare) = [] /\
  Rev1.error (Rev1.fetchNetworkData (rev1_state 60 []) envelope)
  = networkDataError /\
  Rev1.networkData (Rev1.fetchNetworkData (rev1_state 60 []) envelope) = [].
Proof. repeat split. discriminate. Qed.

(** C8, amended.  Each revision of [fetchNetworkData] accepts one shape of
    response.  Revision 2 accepts the envelope: a successful response whose
    body is an object with a [data] array leaves no error, stores the items
    of [data] (each with its position as [time]), and stores [now] as
    [serverNow]; the timeline is then anchored at [now] when it is present
    and not 0, and at the clock reading when [now] is absent.  Revision 1
    accepts the bare array, leaves no error, and its timeline is anchored at
    the clock reading.  A bare array given to revision 2, or an envelope
    given to revision 1, ends in the failure state. *)
Theorem fetchNetworkData_response_shapes
        (st1 : Rev1.State) (st2 : Rev2.State)
        (items : list NetworkData) (now : option Z) (Date_now : Z) :
  Rev1.selectedISP st1 <> "" ->
  Rev2.selectedISP st2 <> "" ->
  let envelope := Responded true (Some (JObject (Some items) now)) in
  let bare := Responded true (Some (JArray items)) in
  let st2' := Rev2.fetchNetworkData st2 envelope in
  let st1' := Rev1.fetchNetworkData st1 bare in
  (Rev2.error st2' = "" /\ Rev2.loading st2' = false /\
   Rev2.networkData st2' = formatData items /\
   Rev2.serverNow st2' = now /\
   Rev2.selectedRange st2' = Rev2.selectedRange st2) /\
  (forall (i : nat) (item : NetworkData),
      items !! i = Some item ->
      exists item' : NetworkData,
        Rev2.networkData st2' !! i = Some item' /\
        ping item' = ping item /\ loss item' = loss item /\
        ping_dev item' = ping_dev item /\ loss_dev item' = loss_dev item) /\
  (0 < (cadence (Rev2.selectedRange st2)).2 ->
   (forall n : Z, now = Some n -> n <> 0 ->
      list.last (Rev2.getAllTimePoints Date_now (Rev2.selectedRange st2')
                                       (Rev2.serverNow st2')) = Some n) /\
   (now = None ->
    list.last (Rev2.getAllTimePoints Date_now (Rev2.selectedRange st2')
                                     (Rev2.serverNow st2')) = Some Date_now)) /\
  (Rev1.error st1' = "" /\ Rev1.loading st1' = false /\
   Rev1.networkData st1' = formatData items /\
   Rev1.selectedRange st1' = Rev1.selectedRange st1) /\
  (0 < (cadence (Rev1.selectedRange st1)).2 ->
   list.last (Rev1.getAllTimePoints Date_now (Rev1.selectedRange st1'))
   = Some Date_now) /\
  (Rev2.error (Rev2.fetchNetworkData st2 bare) = networkDataError /\
   Rev2.networkData (Rev2.fetchNetworkData st2 bare) = []) /\
  (Rev1.error (Rev1.fetchNetworkData st1 envelope) = networkDataError /\
   Rev1.networkData (Rev1.fetchNetworkData st1 envelope) = []).
Proof.
  intros H1 H2 envelope bare st2' st1'.
  subst envelope bare st2' st1'.
  unfold Rev1.fetchNetworkData, Rev2.fetchNetworkData.
  rewrite (isp_selected _ H1), (isp_selected _ H2). simpl.
  split; [by repeat split|]. split.
  { intros i item Hi.
    destruct (formatData_lookup items i item Hi)
      as (item' & Hl & Hp & Hlo & Hpd & Hld & _).
    exists item'. by repeat split. }
  split.
  { intros Hpos. split.
    - intros n -> Hn. rewrite rev2_as_rev1, or_Date_now_nonzero by done.
      by apply rev1_last.
    - intros ->. rewrite rev2_as_rev1. by apply rev1_last. }
  split; [by repeat split|]. split; [apply rev1_last|by repeat split].
Qed.

Lemma fetchNetworkData_response_shapes_witness :
  Rev2.error (Rev2.fetchNetworkData
                (rev2_state 60 [] None)
                (Responded true
                   (Some (JObject (Some threeSamples) (Some 1700000030000)))))
  = "" /\
  Rev2.serverNow (Rev2.fetchNetworkData
                    (rev2_state 60 [] None)
                    (Responded true
                       (Some (JObject (Some threeSamples)
                                      (Some 1700000030000)))))
  = Some 1700000030000.
Proof.
  destruct (fetchNetworkData_response_shapes
              (rev1_state 60 []) (rev2_state 60 [] None)
              threeSamples (Some 1700000030000) 1700000000000)
    as ((He & _ & _ & Hn & _) & _).
  - discriminate.
  - discriminate.
  - split; [exact He|exact Hn].
Defined.

(** * Further properties of the page component *)

(** ** The window covered by the timeline *)

Lemma cadence_points_pos (r : Z) : 1 <= r -> 0 < (cadence r).2.
Proof.
  intros Hr. unfold cadence. repeat case_match; simpl; try lia.
  rewrite Math_ceil_div60. apply Z.div_str_pos. lia.
Qed.

Lemma cadence_product (r : Z) :
  (r <= 1440 -> (cadence r).1 * (cadence r).2 = r * 60000) /\
  (1440 < r ->
   r * 60000 <= (cadence r).1 * (cadence r).2 < r * 60000 + 3600000).
Proof.
  unfold cadence. split; intros Hr.
  - repeat case_match; simpl; lia.
  - repeat case_match; try lia. simpl. rewrite Math_ceil_div60.
    pose proof (Z.div_mod (r + 59) 60 ltac:(lia)).
    pose proof (Z.mod_pos_bound (r + 59) 60 ltac:(lia)). lia.
Qed.

Lemma rev1_head (c r : Z) :
  0 < (cadence r).2 ->
  head (Rev1.getAllTimePoints c r)
  = Some (c - ((cadence r).2 - 1) * (cadence r).1).
Proof.
  intros Hpos. rewrite head_lookup, rev1_lookup by (simpl; lia).
  f_equal. simpl. ring.
Qed.

Lemma rev1_bounds (c r x : Z) :
  x ∈ Rev1.getAllTimePoints c r ->
  c - ((cadence r).2 - 1) * (cadence r).1 <= x <= c.
Proof.
  intros Hx. apply list_elem_of_lookup in Hx as [i Hi].
  pose proof (cadence_unitMs_pos r) as Hw.
  unfold Rev1.getAllTimePoints in Hi.
  destruct (cadence r) as [unitMs points]. simpl in *.
  apply Array_from_lookup_Some in Hi as [Hlt ->]. nia.
Qed.

(** X1.  For a range of at least one minute the timeline of either revision
    starts at a first bucket, ends at the current time, and every time point
    lies between the two.  Up to 1440 minutes the buckets tile the range
    exactly, so the first bucket is one bucket width less than the range
    before the current time; above, the distance is less than the range and
    within an hour of it. *)
Theorem getAllTimePoints_window (range Date_now : Z) (now : option Z) :
  1 <= range ->
  let t := or_Date_now now Date_now in
  let pts := Rev2.getAllTimePoints Date_now range now in
  pts = Rev1.getAllTimePoints t range /\
  exists first : Z,
    head pts = Some first /\ list.last pts = Some t /\
    (forall x : Z, x ∈ pts -> first <= x <= t) /\
    (range <= 1440 -> t - first = range * 60000 - (cadence range).1) /\
    (1440 < range ->
     range * 60000 - 3600000 <= t - first < range * 60000).
Proof.
  intros Hr t pts. subst pts. rewrite rev2_as_rev1. fold t.
  split; [reflexivity|].
  pose proof (cadence_points_pos range Hr) as Hpos.
  pose proof (cadence_product range) as [Hlow Hhigh].
  exists (t - ((cadence range).2 - 1) * (cadence range).1).
  split; [by apply rev1_head|]. split; [by apply rev1_last|].
  split; [intros x Hx; by apply rev1_bounds|].
  split.
  - intros Hle. specialize (Hlow Hle). lia.
  - intros Hgt. specialize (Hhigh Hgt).
    assert ((cadence range).1 = 3600000) as Hw.
    { unfold cadence. repeat case_match; simpl; lia. }
    lia.
Qed.

Lemma getAllTimePoints_window_witness :
  exists first : Z,
    head (Rev2.getAllTimePoints 1700000000000 60 (Some 1700000030000))
    = Some first /\
    1700000030000 - first = 60 * 60000 - 30000.
Proof.
  destruct (getAllTimePoints_window 60 1700000000000 (Some 1700000030000))
    as (_ & first & Hh & _ & _ & Hspan & _).
  - lia.
  - exists first. split; [exact Hh|]. apply Hspan. lia.
Defined.

(** X2.  Moving the current time moves every time point by the same amount,
    and moving it by one bucket width slides the window by one bucket:
    bucket [i] of the later timeline is bucket [i + 1] of the earlier
    one. *)
Theorem getAllTimePoints_slides (range c d : Z) :
  Rev1.getAllTimePoints (c + d) range
  = (fun t => t + d) <$> Rev1.getAllTimePoints c range /\
  (forall n : Z, n <> 0 -> n + d <> 0 ->
     Rev2.getAllTimePoints c range (Some (n + d))
     = (fun t => t + d) <$> Rev2.getAllTimePoints c range (Some n)) /\
  (forall i : nat,
     Z.of_nat (S i) < (cadence range).2 ->
     Rev1.getAllTimePoints (c + (cadence range).1) range !! i
     = Rev1.getAllTimePoints c range !! S i).
Proof.
  assert (Hshift : forall a b : Z,
             Rev1.getAllTimePoints (a + b) range
             = (fun t => t + b) <$> Rev1.getAllTimePoints a range).
  { intros a b. unfold Rev1.getAllTimePoints.
    destruct (cadence range) as [unitMs points]. unfold Array_from.
    rewrite <- list_fmap_compose. apply list_fmap_ext.
    intros i index _. simpl. lia. }
  split; [apply Hshift|]. split.
  - intros n Hn Hnd. rewrite !rev2_as_rev1, !or_Date_now_nonzero by done.
    apply Hshift.
  - intros i Hi. rewrite !rev1_lookup by lia. f_equal. lia.
Qed.

Lemma getAllTimePoints_slides_witness :
  Rev1.getAllTimePoints (1700000000000 + 30000) 5 !! 3%nat
  = Rev1.getAllTimePoints 1700000000000 5 !! 4%nat.
Proof.
  apply (proj2 (proj2 (getAllTimePoints_slides 5 1700000000000 0)) 3%nat).
  reflexivity.
Defined.

(** ** The time axis of revision 2 *)







Lemma Array_filter_from_length {A} (p : Z -> bool) (k : Z) (xs : list A) :
  length (Array_filter_from (fun _ index => p index) k xs)
  = length (List.filter p (seqZ k (Z.of_nat (length xs)))).
Proof.
  revert k. induction xs as [|x xs IH]; intros k; [done|].
  replace (Z.of_nat (length (x :: xs))) with (Z.succ (Z.of_nat (length xs)))
    by (simpl length; lia).
  rewrite seqZ_cons by lia. rewrite Z.pred_succ. simpl.
  replace (Z.succ k) with (k + 1) by lia.
  destruct (p k); simpl; by rewrite IH.
Qed.

Lemma filter_orb_length {A} (p q : A -> bool) (l : list A) :
  (length (List.filter (fun a => p a || q a) l)
   <= length (List.filter p l) + length (List.filter q l))%nat.
Proof.
  induction l as [|a l IH]; simpl; [done|].
  destruct (p a), (q a); simpl; lia.
Qed.

Lemma filter_length_le {A} (p : A -> bool) (l : list A) :
  (length (List.filter p l) <= length l)%nat.
Proof. induction l as [|a l IH]; simpl; [done|]. destruct (p a); simpl; lia. Qed.

Lemma count_index_eq (a : Z) (n : nat) :
  (length (List.filter (fun i => Z.eqb i a) (seqZ 0 (Z.of_nat n))) <= 1)%nat /\
  (Z.of_nat n <= a ->
   length (List.filter (fun i => Z.eqb i a) (seqZ 0 (Z.of_nat n))) = 0%nat).
Proof.
  induction n as [|n [IH1 IH2]]; [split; [simpl; lia|reflexivity]|].
  rewrite seqZ_S, List.filter_app, length_app, Z.add_0_l. simpl.
  destruct (Z.eqb_spec (Z.of_nat n) a) as [E|E]; simpl.
  - rewrite IH2 by lia. split; [lia|]. intros. lia.
  - split; [lia|]. intros. rewrite IH2 by lia. done.
Qed.

(** Among the indices below [n], the multiples of [s] are at most one more
    than the quotient of [n - 1] by [s]. *)
Lemma count_multiples (s : Z) (n : nat) :
  1 <= s ->
  let m := Z.of_nat (length (List.filter (fun i => Z.rem i s =? 0)
                                         (seqZ 0 (Z.of_nat n)))) in
  (n = 0%nat -> m = 0) /\ ((0 < n)%nat -> 1 <= m /\ s * (m - 1) <= Z.of_nat n - 1).
Proof.
  intros Hs. induction n as [|n IH]; [split; [done|lia]|].
  simpl in IH. destruct IH as [IH0 IHn].
  rewrite seqZ_S, List.filter_app, length_app, Z.add_0_l. simpl.
  split; [lia|]. intros _.
  destruct (Z.eqb_spec (Z.rem (Z.of_nat n) s) 0) as [E|E]; simpl.
  - destruct n as [|n].
    + simpl. lia.
    + destruct (IHn ltac:(lia)) as [H1 H2].
      apply Z.rem_divide in E; [|lia]. destruct E as [q Hq].
      rewrite Nat2Z.inj_add. simpl Z.of_nat at 2.
      set (m := Z.of_nat (length (List.filter (fun i => Z.rem i s =? 0)
                                (seqZ 0 (Z.of_nat (S n)))))) in *.
      clearbody m. rewrite (Nat2Z.inj_succ (S n)).
      assert (m - 1 < q) by nia.
      split; [lia|]. nia.
  - destruct n as [|n].
    + exfalso. apply E. by rewrite Z.rem_0_l by lia.
    + destruct (IHn ltac:(lia)) as [H1 H2].
      rewrite Nat.add_0_r. split; [lia|]. lia.
Qed.






Lemma xAxisTicks_step_pos (n : nat) : 1 <= Z.max 1 (Z.of_nat n / 8).
Proof. lia. Qed.



(** The number of ticks for each entry of [TIME_RANGES]. *)
Example xAxisTicks_TIME_RANGES :
  (fun range =>
     length (xAxisTicks 1700000000000
               (rev2_state range [] (Some 1700000030000)))) <$> TIME_RANGES
  = [10; 11; 10; 9; 10; 9; 9]%nat.
Proof. vm_compute. reflexivity. Qed.

(** X5.  The time axis never carries more than 15 ticks, whatever the range
    and the current time. *)
Theorem xAxisTicks_at_most_15 (Date_now : Z) (st : Rev2.State) :
  (length (xAxisTicks Date_now st) <= 15)%nat.
Proof.
  unfold xAxisTicks, Array_filter.
  set (pts := Rev2.getAllTimePoints Date_now (Rev2.selectedRange st)
                                    (Rev2.serverNow st)).
  set (n := length pts).
  rewrite (Array_filter_from_length
             (fun index =>
                (Z.rem index (Z.max 1 (Z.of_nat n / 8)) =? 0)
                || (index =? Z.of_nat n - 1)) 0 pts).
  fold n.
  destruct (Z_lt_le_dec (Z.of_nat n / 8) 2) as [Hsmall|Hbig].
  - (* fewer than 16 time points *)
    pose proof (filter_length_le
                  (fun index =>
                     (Z.rem index (Z.max 1 (Z.of_nat n / 8)) =? 0)
                     || (index =? Z.of_nat n - 1))
                  (seqZ 0 (Z.of_nat n))) as Hle.
    rewrite length_seqZ in Hle.
    pose proof (Z.div_mod (Z.of_nat n) 8 ltac:(lia)).
    pose proof (Z.mod_pos_bound (Z.of_nat n) 8 ltac:(lia)). lia.
  - pose proof (filter_orb_length
                  (fun index => Z.rem index (Z.max 1 (Z.of_nat n / 8)) =? 0)
                  (fun index => index =? Z.of_nat n - 1)
                  (seqZ 0 (Z.of_nat n))) as Hor.
    pose proof (proj1 (count_index_eq (Z.of_nat n - 1) n)) as Hone.
    pose proof (count_multiples (Z.max 1 (Z.of_nat n / 8)) n ltac:(lia))
      as [_ Hm].
    simpl in Hm.
    pose proof (Z.div_mod (Z.of_nat n) 8 ltac:(lia)).
    pose proof (Z.mod_pos_bound (Z.of_nat n) 8 ltac:(lia)).
    destruct Hm as [Hm1 Hm2]; [lia|].
    replace (Z.max 1 (Z.of_nat n / 8)) with (Z.of_nat n / 8) in * by lia.
    set (s := Z.of_nat n / 8) in *.
    set (m := length (List.filter (fun i => Z.rem i s =? 0)
                                  (seqZ 0 (Z.of_nat n)))) in *.
    assert (Z.of_nat m - 1 <= 11) by nia.
    lia.
Qed.

(** ** What the chart shows *)

Lemma scatterPoint_invariant (fmt : TimeFormatter) (range : Z)
      (data : list NetworkData) (type : ChartType) (i : nat) (t : Z) :
  let pt := scatterPoint fmt range data type i t in
  (ScatterPoint.hasData pt = true ->
   exists v : Q, ScatterPoint.y pt = Some v /\ ~ (v == -1)%Q /\
                 ScatterPoint.color pt = getColorByLoss (ScatterPoint.loss pt)) /\
  (ScatterPoint.hasData pt = false ->
   ScatterPoint.y pt = None /\
   ScatterPoint.color pt = "rgba(156, 163, 175, 0.3)").
Proof.
  unfold scatterPoint. simpl.
  destruct (Qeq_bool _ (-1)) eqn:E; simpl; split; intros H; try done.
  eexists. split; [reflexivity|]. split; [|reflexivity].
  by apply Qeq_bool_false.
Qed.

Lemma rev1_prepare_elem (fmt : TimeFormatter) (c : Z) (st : Rev1.State)
      (data : list NetworkData) (type : ChartType) (pt : ScatterPoint.t) :
  pt ∈ Rev1.prepareScatterData fmt c st data type ->
  exists (i : nat) (t : Z),
    pt = scatterPoint fmt (Rev1.selectedRange st) data type i t.
Proof.
  intros Hpt. unfold Rev1.prepareScatterData in Hpt.
  apply elem_of_lookup_imap_1 in Hpt as (i & t & -> & _). eauto.
Qed.

Lemma rev2_prepare_elem (fmt : TimeFormatter) (c : Z) (st : Rev2.State)
      (data : list NetworkData) (type : ChartType) (pt : ScatterPoint.t) :
  pt ∈ Rev2.prepareScatterData fmt c st data type ->
  exists (i : nat) (t : Z),
    pt = scatterPoint fmt (Rev2.selectedRange st) data type i t.
Proof.
  intros Hpt. unfold Rev2.prepareScatterData in Hpt.
  apply elem_of_lookup_imap_1 in Hpt as (i & t & -> & _). eauto.
Qed.

(** X6.  Every point that [prepareScatterData] returns, in either revision,
    is consistent: with [hasData] it has a [y] that is not the sentinel -1
    and the severity colour of its own loss; without [hasData] its [y] is
    [null] and its colour the faint grey.  The sentinel never reaches the
    value axis. *)
Theorem prepareScatterData_points_consistent
        (fmt : TimeFormatter) (Date_now : Z)
        (st1 : Rev1.State) (st2 : Rev2.State)
        (data : list NetworkData) (type : ChartType) (pt : ScatterPoint.t) :
  pt ∈ Rev1.prepareScatterData fmt Date_now st1 data type \/
  pt ∈ Rev2.prepareScatterData fmt Date_now st2 data type ->
  (ScatterPoint.hasData pt = true ->
   exists v : Q, ScatterPoint.y pt = Some v /\ ~ (v == -1)%Q /\
                 ScatterPoint.color pt = getColorByLoss (ScatterPoint.loss pt)) /\
  (ScatterPoint.hasData pt = false ->
   ScatterPoint.y pt = None /\
   ScatterPoint.color pt = "rgba(156, 163, 175, 0.3)").
Proof.
  intros [Hpt|Hpt].
  - apply rev1_prepare_elem in Hpt as (i & t & ->).
    apply scatterPoint_invariant.
  - apply rev2_prepare_elem in Hpt as (i & t & ->).
    apply scatterPoint_invariant.
Qed.

(** X7.  How a chart point is drawn: a point without data is a faint ring,
    filled with the translucent grey at opacity 0.3 and outlined in
    [#9CA3AF] with width 1, never in a severity colour; a point with data is
    filled and outlined in the severity colour of its loss, fully opaque,
    with no outline width. *)
Theorem cellProps_of_chart_point
        (fmt : TimeFormatter) (Date_now : Z)
        (st1 : Rev1.State) (st2 : Rev2.State)
        (data : list NetworkData) (type : ChartType) (pt : ScatterPoint.t) :
  pt ∈ Rev1.prepareScatterData fmt Date_now st1 data type \/
  pt ∈ Rev2.prepareScatterData fmt Date_now st2 data type ->
  (ScatterPoint.hasData pt = false /\
   cellProps pt = {| fill := "rgba(156, 163, 175, 0.3)"; fillOpacity := 0.3;
                     stroke := "#9CA3AF"; strokeWidth := 1 |}) \/
  (ScatterPoint.hasData pt = true /\
   cellProps pt = {| fill := getColorByLoss (ScatterPoint.loss pt);
                     fillOpacity := 1;
                     stroke := getColorByLoss (ScatterPoint.loss pt);
                     strokeWidth := 0 |}).
Proof.
  intros Hpt.
  assert (Hinv : exists (range : Z) (i : nat) (t : Z),
             pt = scatterPoint fmt range data type i t).
  { destruct Hpt as [Hpt|Hpt].
    - apply rev1_prepare_elem in Hpt as (i & t & ->). eauto.
    - apply rev2_prepare_elem in Hpt as (i & t & ->). eauto. }
  destruct Hinv as (range & i & t & ->).
  destruct (scatterPoint_invariant fmt range data type i t) as [Ht Hf].
  unfold cellProps.
  destruct (ScatterPoint.hasData (scatterPoint fmt range data type i t)) eqn:E.
  - right. destruct (Ht eq_refl) as (v & _ & _ & ->). done.
  - left. destruct (Hf eq_refl) as (_ & ->). done.
Qed.

Lemma threeSamples_point :
  scatterPoint noLabel 5 threeSamples cloudflare 1 1699999790000
  ∈ Rev2.prepareScatterData noLabel 1700000000000
      (rev2_state 5 threeSamples (Some 1700000030000)) threeSamples cloudflare.
Proof. apply list_elem_of_lookup. exists 1%nat. reflexivity. Qed.

Lemma prepareScatterData_points_consistent_witness :
  ScatterPoint.y
    (scatterPoint noLabel 5 threeSamples cloudflare 1 1699999790000) = None.
Proof.
  apply (proj2 (prepareScatterData_points_consistent
                  noLabel 1700000000000 (rev1_state 5 [])
                  (rev2_state 5 threeSamples (Some 1700000030000))
                  threeSamples cloudflare _
                  (or_intror threeSamples_point))).
  reflexivity.
Defined.

Lemma cellProps_of_chart_point_witness :
  stroke (cellProps
            (scatterPoint noLabel 5 threeSamples cloudflare 1 1699999790000))
  = "#9CA3AF".
Proof.
  destruct (cellProps_of_chart_point
              noLabel 1700000000000 (rev1_state 5 [])
              (rev2_state 5 threeSamples (Some 1700000030000))
              threeSamples cloudflare _ (or_intror threeSamples_point))
    as [[_ ->]|[Hd _]].
  - reflexivity.
  - discriminate Hd.
Defined.

(** X8.  Samples beyond the bucket count are ignored by the chart: in either
    revision the points are those of the first [points] samples alone. *)
Theorem prepareScatterData_ignores_overflow
        (fmt : TimeFormatter) (Date_now : Z)
        (st1 : Rev1.State) (st2 : Rev2.State)
        (data : list NetworkData) (type : ChartType) :
  Rev1.prepareScatterData fmt Date_now st1 data type
  = Rev1.prepareScatterData fmt Date_now st1
      (take (Z.to_nat (cadence (Rev1.selectedRange st1)).2) data) type /\
  Rev2.prepareScatterData fmt Date_now st2 data type
  = Rev2.prepareScatterData fmt Date_now st2
      (take (Z.to_nat (cadence (Rev2.selectedRange st2)).2) data) type.
Proof.
  split.
  - unfold Rev1.prepareScatterData. apply imap_ext. intros i t Hi.
    apply lookup_lt_Some in Hi. rewrite rev1_length in Hi.
    unfold scatterPoint. by rewrite lookup_take_lt.
  - unfold Rev2.prepareScatterData. apply imap_ext. intros i t Hi.
    apply lookup_lt_Some in Hi. rewrite rev2_length in Hi.
    unfold scatterPoint. by rewrite lookup_take_lt.
Qed.

Lemma scatterPoint_hasData (fmt : TimeFormatter) (range : Z)
      (data : list NetworkData) (type : ChartType) (i : nat) (t : Z) :
  ScatterPoint.hasData (scatterPoint fmt range data type i t)
  = match data !! i with
    | Some item => isValid type item
    | None => false
    end.
Proof. unfold scatterPoint, isValid. simpl. by destruct (data !! i). Qed.

Lemma filter_cons_length {A} (f : A -> bool) (a : A) (l : list A) :
  length (List.filter f (a :: l))
  = ((if f a then 1 else 0) + length (List.filter f l))%nat.
Proof. simpl. by destruct (f a). Qed.

Lemma countHasData_imap (fmt : TimeFormatter) (range : Z) (type : ChartType)
      (pts : list Z) (data : list NetworkData) :
  countHasData (imap (fun index timePoint =>
                        scatterPoint fmt range data type index timePoint) pts)
  = countValid type (take (length pts) data).
Proof.
  unfold countHasData. revert data.
  induction pts as [|t pts IH]; intros data; [done|].
  rewrite imap_cons, filter_cons_length, scatterPoint_hasData.
  destruct data as [|d ds].
  - rewrite (imap_ext _ (fun index timePoint =>
                           scatterPoint fmt range [] type index timePoint));
      [|done].
    rewrite IH. by rewrite !take_nil.
  - rewrite (imap_ext _ (fun index timePoint =>
                           scatterPoint fmt range ds type index timePoint));
      [|done].
    rewrite IH. simpl. unfold isValid.
    by destruct (Qeq_bool (pingOf type d) (-1)).
Qed.

(** X9.  The chart and the statistics card agree on what is valid: the
    number of chart points with data is the number of samples with a valid
    metric among the first [points] samples.  So when the samples fit into
    the timeline and [getStats] returns a stats object, its [dataPoints] is
    exactly the number of points drawn with data. *)
Theorem chart_and_stats_agree
        (fmt : TimeFormatter) (Date_now : Z) (st : Rev2.State)
        (data : list NetworkData) (type : ChartType) :
  let n := Z.to_nat (cadence (Rev2.selectedRange st)).2 in
  countHasData (Rev2.prepareScatterData fmt Date_now st data type)
  = countValid type (take n data) /\
  ((length data <= n)%nat ->
   forall stats : Stats,
     getStats data type = Some stats ->
     dataPoints stats
     = countHasData (Rev2.prepareScatterData fmt Date_now st data type)).
Proof.
  intros n.
  assert (Hc : countHasData (Rev2.prepareScatterData fmt Date_now st data type)
               = countValid type (take n data)).
  { unfold Rev2.prepareScatterData. rewrite countHasData_imap.
    by rewrite rev2_length. }
  split; [exact Hc|].
  intros Hlen stats Hs. rewrite Hc, take_ge by lia.
  destruct (getStats_fields data type)
    as (st' & Hs' & _ & _ & _ & _ & _ & Hn & _).
  { intros Hnil. pose proof (getStats_unfold data type) as Hg. simpl in Hg.
    rewrite Hnil, Hs in Hg. done. }
  rewrite Hs in Hs'. by inversion Hs'; subst.
Qed.

Lemma chart_and_stats_agree_witness :
  exists stats : Stats,
    getStats threeSamples cloudflare = Some stats /\
    dataPoints stats
    = countHasData (Rev2.prepareScatterData noLabel 1700000000000
                      (rev2_state 5 threeSamples None)
                      threeSamples cloudflare).
Proof.
  eexists. split; [reflexivity|].
  apply (proj2 (chart_and_stats_agree noLabel 1700000000000
                  (rev2_state 5 threeSamples None) threeSamples cloudflare)).
  - simpl. lia.
  - reflexivity.
Defined.

(** ** The [time] property added to the samples *)

Lemma imap_time_fields (h : nat -> Z) (type : ChartType)
      (items : list NetworkData) :
  let tagged := imap (fun index item =>
                        {| ping := ping item; loss := loss item;
                           ping_dev := ping_dev item;
                           loss_dev := loss_dev item;
                           time := Some (h index) |}) items in
  map (pingOf type) (List.filter (isValid type) tagged)
  = map (pingOf type) (List.filter (isValid type) items) /\
  map (lossOf type) (List.filter (isValid type) tagged)
  = map (lossOf type) (List.filter (isValid type) items).
Proof.
  revert h. induction items as [|item items IH]; intros h; [done|].
  simpl. destruct (IH (h ∘ S)) as [IHp IHl].
  assert (Hv : isValid type
                 {| ping := ping item; loss := loss item;
                    ping_dev := ping_dev item; loss_dev := loss_dev item;
                    time := Some (h 0%nat) |} = isValid type item)
    by (by destruct type).
  rewrite Hv. destruct (isValid type item); simpl.
  - split; f_equal; try (by destruct type); assumption.
  - split; assumption.
Qed.

(** X10.  [formatData] numbers the samples 1, 2, 3, ... in their [time]
    property and changes nothing else: the list keeps its length and each
    sample its four measurements; formatting twice is formatting once. *)
Theorem formatData_numbers_samples (items : list NetworkData) :
  length (formatData items) = length items /\
  time <$> formatData items
  = (fun i => Some (i + 1)) <$> seqZ 0 (Z.of_nat (length items)) /\
  (forall type : ChartType,
      pingOf type <$> formatData items = pingOf type <$> items /\
      lossOf type <$> formatData items = lossOf type <$> items) /\
  formatData (formatData items) = formatData items.
Proof.
  split; [apply formatData_length|]. split; [|split].
  - apply list_eq. intros i.
    rewrite !list_lookup_fmap. unfold formatData. rewrite list_lookup_imap.
    destruct (items !! i) as [item|] eqn:E; simpl.
    + apply lookup_lt_Some in E as Hlt.
      rewrite lookup_seqZ_lt by lia. simpl. do 2 f_equal.
    + apply lookup_ge_None in E.
      rewrite lookup_seqZ_ge by lia. done.
  - intros type. unfold formatData. rewrite !fmap_imap.
    split; (rewrite <- (imap_const _ items); apply imap_ext;
            intros i item _; by destruct type).
  - unfold formatData at 1. unfold formatData at 1.
    apply list_eq. intros i. unfold formatData.
    rewrite !list_lookup_imap. by destruct (items !! i).
Qed.

(** X11.  The statistics and the chart do not look at the [time] property:
    on the formatted samples that the state holds they are the same as on
    the samples the server sent. *)
Theorem formatData_transparent
        (fmt : TimeFormatter) (Date_now : Z)
        (st1 : Rev1.State) (st2 : Rev2.State)
        (items : list NetworkData) (type : ChartType) :
  getStats (formatData items) type = getStats items type /\
  Rev1.prepareScatterData fmt Date_now st1 (formatData items) type
  = Rev1.prepareScatterData fmt Date_now st1 items type /\
  Rev2.prepareScatterData fmt Date_now st2 (formatData items) type
  = Rev2.prepareScatterData fmt Date_now st2 items type.
Proof.
  assert (Hpt : forall (range : Z) (i : nat) (t : Z),
             scatterPoint fmt range (formatData items) type i t
             = scatterPoint fmt range items type i t).
  { intros range i t. unfold scatterPoint, formatData.
    rewrite list_lookup_imap.
    destruct (items !! i) as [item|]; simpl; [|done]. by destruct type. }
  split; [|split].
  - destruct (imap_time_fields (fun i => Z.of_nat i + 1) type items)
      as [Hp Hl].
    fold (formatData items) in Hp, Hl.
    assert (Hn : length (List.filter (isValid type) (formatData items))
                 = length (List.filter (isValid type) items)).
    { by rewrite <- (length_map (pingOf type)), Hp, length_map. }
    unfold getStats. cbv zeta.
    change (fun item : NetworkData => negb (Qeq_bool (pingOf type item) (-1)))
      with (isValid type).
    by rewrite Hn, Hp, Hl, formatData_length.
  - unfold Rev1.prepareScatterData. apply imap_ext. intros. apply Hpt.
  - unfold Rev2.prepareScatterData. apply imap_ext. intros. apply Hpt.
Qed.

(** ** Bounds on the statistics *)

(** The fields of a stats object that [getStats] has returned. *)
Lemma getStats_Some (data : list NetworkData) (type : ChartType)
      (stats : Stats) :
  getStats data type = Some stats ->
  let validData := List.filter (isValid type) data in
  let pings := map (pingOf type) validData in
  let losses := map (lossOf type) validData in
  validData <> [] /\
  avgPing stats
  = Math_round (Number_div (reduce_add pings)
                           (inject_Z (Z.of_nat (length pings)))) /\
  avgLoss stats
  = Number_div
      (inject_Z
         (Math_round
            (Number_mul
               (Number_div (reduce_add losses)
                           (inject_Z (Z.of_nat (length losses))))
               100)))
      100 /\
  dataPoints stats = countValid type data /\
  totalPoints stats = length data.
Proof.
  intros Hs validData pings losses.
  assert (Hne : validData <> []).
  { intros Hnil. pose proof (getStats_unfold data type) as Hg. simpl in Hg.
    fold validData in Hg. rewrite Hnil, Hs in Hg. done. }
  destruct (getStats_fields data type Hne)
    as (st' & Hs' & Hp & Hl & _ & _ & _ & Hn & Ht & _).
  rewrite Hs in Hs'. inversion Hs'; subst st'. clear Hs'.
  by repeat split.
Qed.



(** X13.  Whenever [getStats] returns a stats object there is at least one
    valid sample, so [totalPoints] is not zero and the completeness figure
    divides by a positive number; the figure, computed in doubles, is a
    percentage between 0 and 100, and it is 100 when every sample is
    valid. *)
Theorem completeness_is_percentage
        (data : list NetworkData) (type : ChartType) (stats : Stats) :
  getStats data type = Some stats ->
  (1 <= dataPoints stats)%nat /\
  (dataPoints stats <= totalPoints stats)%nat /\
  0 <= completeness stats <= 100 /\
  (dataPoints stats = totalPoints stats -> completeness stats = 100).
Proof.
  intros Hs.
  destruct (getStats_Some data type stats Hs) as (Hne & _ & _ & Hn & Ht).
  assert (H1 : (1 <= dataPoints stats)%nat).
  { rewrite Hn, <- filter_isValid_length.
    destruct (List.filter (isValid type) data); [done|]. simpl. lia. }
  assert (Hle : (dataPoints stats <= totalPoints stats)%nat)
    by (rewrite Hn, Ht; apply countValid_le).
  split; [exact H1|]. split; [exact Hle|].
  unfold completeness, Number_mul, Number_div.
  set (d := Z.of_nat (dataPoints stats)).
  set (t := Z.of_nat (totalPoints stats)).
  assert (Hd : 1 <= d <= t) by lia.
  assert (Ht0 : (0 < inject_Z t)%Q).
  { change 0%Q with (inject_Z 0). rewrite <- Zlt_Qlt. lia. }
  assert (Hq0 : (0 <= inject_Z d / inject_Z t)%Q).
  { apply Qle_shift_div_l; [done|]. rewrite Qmult_0_l.
    change 0%Q with (inject_Z 0). rewrite <- Zle_Qle. lia. }
  assert (Hq1 : (inject_Z d / inject_Z t <= 1)%Q).
  { apply Qle_shift_div_r; [done|]. rewrite Qmult_1_l.
    rewrite <- Zle_Qle. lia. }
  assert (B0 : (0 <= binary64 (inject_Z d / inject_Z t))%Q).
  { change 0%Q with (inject_Z 0). rewrite <- (binary64_Z 0) by (by vm_compute).
    by apply binary64_mono. }
  assert (B1 : (binary64 (inject_Z d / inject_Z t) <= 1)%Q).
  { change 1%Q with (inject_Z 1). rewrite <- (binary64_Z 1) by (by vm_compute).
    by apply binary64_mono. }
  split.
  - apply Math_round_between.
    + rewrite <- (binary64_Z 0) by (by vm_compute). apply binary64_mono.
      change (inject_Z 0) with 0%Q. lra.
    + rewrite <- (binary64_Z 100) by (by vm_compute). apply binary64_mono.
      change (inject_Z 100) with 100%Q. lra.
  - intros Heq.
    assert (Hdt : d = t) by (subst d t; lia).
    assert (E1 : (inject_Z d / inject_Z t == inject_Z 1)%Q).
    { rewrite Hdt. change (inject_Z 1) with 1%Q. field. lra. }
    assert (E2 : (binary64 (inject_Z d / inject_Z t) == 1)%Q).
    { rewrite (binary64_comp _ _ E1). by apply binary64_Z. }
    assert (E3 : (binary64 (binary64 (inject_Z d / inject_Z t) * 100)
                  == inject_Z 100)%Q).
    { rewrite <- (binary64_Z 100) by (by vm_compute). apply binary64_comp.
      rewrite E2. reflexivity. }
    rewrite (Math_round_comp _ _ E3). apply Math_round_Z.
Qed.

Lemma completeness_is_percentage_witness :
  exists stats : Stats,
    getStats threeSamples cloudflare = Some stats /\
    (1 <= dataPoints stats)%nat /\
    0 <= completeness stats <= 100.
Proof.
  destruct (getStats threeSamples cloudflare) as [stats|] eqn:Hs;
    [|by vm_compute in Hs].
  exists stats. split; [reflexivity|].
  destruct (completeness_is_percentage threeSamples cloudflare stats Hs)
    as (H1 & _ & H2 & _).
  split; [exact H1|exact H2].
Defined.

(** When 23 samples of 40 are valid the page shows 57%: the quotient 23/40
    is the double just below 0.575. *)
Example completeness_23_of_40 :
  (completeness <$>
     getStats (replicate 23 (sampleOf 10 0 10 0)
               ++ replicate 17 (sampleOf (-1) 0 (-1) 0)) cloudflare)
  = Some 57 /\
  (completeness <$> getStats threeSamples cloudflare) = Some 67.
Proof. split; vm_compute; reflexivity. Qed.

(** X14.  The colour tells the band: [getColorByLoss] returns the grey only
    for a loss equal to -1, green only for another loss up to 0, blue only
    for a loss in (0, 33], red only in (33, 66] and purple only above 66.
    Two losses that are equal as numbers get the same colour. *)
Theorem getColorByLoss_band_of_colour (l : Q) :
  (getColorByLoss l = "#9CA3AF" <-> (l == -1)%Q) /\
  (getColorByLoss l = "#10B981" <-> ~ (l == -1)%Q /\ (l <= 0)%Q) /\
  (getColorByLoss l = "#3B82F6" <-> (0 < l)%Q /\ (l <= 33)%Q) /\
  (getColorByLoss l = "#EF4444" <-> (33 < l)%Q /\ (l <= 66)%Q) /\
  (getColorByLoss l = "#8B5CF6" <-> (66 < l)%Q) /\
  (forall l' : Q, (l == l')%Q -> getColorByLoss l = getColorByLoss l').
Proof.
  assert (Hcompat : forall a b : Q,
             (a == b)%Q -> getColorByLoss a = getColorByLoss b).
  { intros a b Hab. unfold getColorByLoss.
    assert (E1 : Qeq_bool a (-1) = Qeq_bool b (-1))
      by (apply Qeqb_comp; [exact Hab|reflexivity]).
    assert (E2 : forall c : Q, Qle_bool a c = Qle_bool b c)
      by (intros c; apply Qleb_comp; [exact Hab|reflexivity]).
    by rewrite E1, !E2. }
  split; [|split; [|split; [|split; [|split; [|apply Hcompat]]]]];
    unfold getColorByLoss;
    (destruct (Qeq_bool l (-1)) eqn:E1;
     [apply Qeq_bool_iff in E1 | apply Qeq_bool_false in E1]);
    (destruct (Qle_bool l 0) eqn:E2;
     [apply Qle_bool_iff in E2 | apply Qle_bool_false in E2]);
    (destruct (Qle_bool l 33) eqn:E3;
     [apply Qle_bool_iff in E3 | apply Qle_bool_false in E3]);
    (destruct (Qle_bool l 66) eqn:E4;
     [apply Qle_bool_iff in E4 | apply Qle_bool_false in E4]);
    (split; [intros H; try discriminate H; try lra; try (split; (done || lra))
            |intros H; try reflexivity; exfalso; try lra;
             destruct H; (done || lra)]).
Qed.

Lemma getColorByLoss_band_of_colour_witness :
  getColorByLoss (-2 # 2) = "#9CA3AF".
Proof.
  apply (proj2 (proj1 (getColorByLoss_band_of_colour (-2 # 2)))). reflexivity.
Defined.

Lemma filter_isValid_idem (type : ChartType) (data : list NetworkData) :
  List.filter (isValid type) (List.filter (isValid type) data)
  = List.filter (isValid type) data.
Proof.
  induction data as [|item data IH]; [done|]. simpl.
  destruct (isValid type item) eqn:E; simpl; [by rewrite E, IH|exact IH].
Qed.

(** X15.  Samples with the sentinel metric only count in [totalPoints]:
    dropping them from the input leaves every other field of the stats
    object as it was, and makes [totalPoints] equal to [dataPoints]. *)
Theorem getStats_ignores_sentinel_samples
        (data : list NetworkData) (type : ChartType) (stats : Stats) :
  getStats data type = Some stats ->
  getStats (List.filter (isValid type) data) type
  = Some {| avgPing := avgPing stats; minPing := minPing stats;
            maxPing := maxPing stats; avgLoss := avgLoss stats;
            maxLoss := maxLoss stats; dataPoints := dataPoints stats;
            totalPoints := dataPoints stats |}.
Proof.
  unfold getStats. cbv zeta.
  change (fun item : NetworkData => negb (Qeq_bool (pingOf type item) (-1)))
    with (isValid type).
  rewrite filter_isValid_idem.
  destruct (length (List.filter (isValid type) data) =? 0)%nat; [done|].
  intros Hs. by inversion Hs.
Qed.

Lemma getStats_ignores_sentinel_samples_witness :
  (totalPoints <$> getStats (List.filter (isValid cloudflare) threeSamples)
                            cloudflare) = Some 2%nat.
Proof.
  rewrite (getStats_ignores_sentinel_samples threeSamples cloudflare _ eq_refl).
  reflexivity.
Defined.

(** ** The state left by the requests *)

Lemma truthy_nonempty (s : string) : truthy s = true <-> s <> "".
Proof.
  unfold truthy. rewrite negb_true_iff. apply String.eqb_neq.
Qed.

(** X16.  [fetchNetworkData] never changes the selection, the ISP list or
    the auto-refresh switch, in either revision; and when no ISP is selected
    it changes nothing at all, whatever response is offered. *)
Theorem fetchNetworkData_frame
        (st1 : Rev1.State) (st2 : Rev2.State) (r : FetchResult) :
  (Rev1.selectedISP (Rev1.fetchNetworkData st1 r) = Rev1.selectedISP st1 /\
   Rev1.selectedRange (Rev1.fetchNetworkData st1 r) = Rev1.selectedRange st1 /\
   Rev1.ispList (Rev1.fetchNetworkData st1 r) = Rev1.ispList st1) /\
  (Rev2.selectedISP (Rev2.fetchNetworkData st2 r) = Rev2.selectedISP st2 /\
   Rev2.selectedRange (Rev2.fetchNetworkData st2 r) = Rev2.selectedRange st2 /\
   Rev2.ispList (Rev2.fetchNetworkData st2 r) = Rev2.ispList st2 /\
   Rev2.autoRefresh (Rev2.fetchNetworkData st2 r) = Rev2.autoRefresh st2) /\
  (Rev1.selectedISP st1 = "" -> Rev1.fetchNetworkData st1 r = st1) /\
  (Rev2.selectedISP st2 = "" -> Rev2.fetchNetworkData st2 r = st2).
Proof.
  split; [|split; [|split]].
  - unfold Rev1.fetchNetworkData.
    destruct (String.eqb (Rev1.selectedISP st1) ""); [done|].
    destruct r as [|[] [[]|]]; by repeat split.
  - unfold Rev2.fetchNetworkData.
    destruct (String.eqb (Rev2.selectedISP st2) ""); [done|].
    destruct r as [|[] [[|[]]|]]; by repeat split.
  - intros H. unfold Rev1.fetchNetworkData. by rewrite H.
  - intros H. unfold Rev2.fetchNetworkData. by rewrite H.
Qed.

Lemma fetchNetworkData_frame_witness :
  Rev2.fetchNetworkData
    (Rev2Events.setSelectedISP "" (rev2_state 60 threeSamples None))
    (Responded true (Some (JObject (Some []) (Some 5))))
  = Rev2Events.setSelectedISP "" (rev2_state 60 threeSamples None).
Proof.
  apply (fetchNetworkData_frame
           (rev1_state 60 [])
           (Rev2Events.setSelectedISP "" (rev2_state 60 threeSamples None))
           (Responded true (Some (JObject (Some []) (Some 5))))).
  reflexivity.
Defined.

(** *** Settlements in revision 2 *)

Lemma accepted_inv (r : FetchResult) :
  accepted r = true ->
  exists (data : list NetworkData) (now : option Z),
    r = Responded true (Some (JObject (Some data) now)).
Proof.
  destruct r as [|[] [[|[]]|]]; try discriminate. intros _. by eexists _, _.
Qed.

Lemma settle_accepted (st : Rev2.State) (data : list NetworkData)
      (now : option Z) :
  fetchNetworkData_settle st (Responded true (Some (JObject (Some data) now)))
  = Rev2.setLoading false
      (Rev2.setServerNow now
         (Rev2.setLastUpdated (Some (Date_new now))
            (Rev2.setNetworkData (formatData data) st))).
Proof. reflexivity. Qed.

Lemma settle_failed (st : Rev2.State) (r : FetchResult) :
  accepted r = false ->
  fetchNetworkData_settle st r
  = Rev2.setLoading false
      (Rev2.setNetworkData [] (Rev2.setError networkDataError st)).
Proof. by destruct r as [|[] [[|[]]|]]. Qed.




Lemma scatterPoint_nil (fmt : TimeFormatter) (range : Z) (type : ChartType)
      (i : nat) (t : Z) :
  let pt := scatterPoint fmt range [] type i t in
  ScatterPoint.hasData pt = false /\ ScatterPoint.y pt = None /\
  ScatterPoint.loss pt = (-1)%Q /\
  ScatterPoint.color pt = "rgba(156, 163, 175, 0.3)".
Proof. done. Qed.

(** X18.  After a request of revision 2 that fails for any reason (rejected,
    not [ok], undecodable, or a body of the wrong shape) the time anchor
    [serverNow] and [lastUpdated] are left as they were, the statistics of
    the remaining samples are absent for both targets, and the chart built
    from them has one point per bucket of the old timeline, none of which
    has data. *)
Theorem fetchNetworkData_failure_leaves_empty_chart
        (fmt : TimeFormatter) (Date_now : Z) (st : Rev2.State)
        (r : FetchResult) (type : ChartType) :
  Rev2.selectedISP st <> "" ->
  Rev2.fetchNetworkData_try st r = None ->
  let st' := Rev2.fetchNetworkData st r in
  let pts := Rev2.prepareScatterData fmt Date_now st'
               (Rev2.networkData st') type in
  Rev2.serverNow st' = Rev2.serverNow st /\
  Rev2.lastUpdated st' = Rev2.lastUpdated st /\
  getStats (Rev2.networkData st') type = None /\
  ScatterPoint.x <$> pts
  = Rev2.getAllTimePoints Date_now (Rev2.selectedRange st)
                          (Rev2.serverNow st) /\
  (forall pt : ScatterPoint.t,
      pt ∈ pts ->
      ScatterPoint.hasData pt = false /\ ScatterPoint.y pt = None /\
      ScatterPoint.loss pt = (-1)%Q).
Proof.
  intros Hisp Hnone st' pts.
  assert (Hst : st' = Rev2.setLoading false
                        (Rev2.setNetworkData []
                           (Rev2.setError networkDataError
                              (Rev2.setError ""
                                 (Rev2.setLoading true st))))).
  { subst st'. unfold Rev2.fetchNetworkData.
    rewrite (isp_selected _ Hisp). cbv zeta.
    assert (Hn' : Rev2.fetchNetworkData_try
                    (Rev2.setError "" (Rev2.setLoading true st)) r = None).
    { destruct r as [|[] [[|[]]|]]; try done; discriminate Hnone. }
    by rewrite Hn'. }
  subst pts. rewrite Hst. simpl.
  split; [done|]. split; [done|]. split; [done|]. split.
  - unfold Rev2.prepareScatterData. simpl.
    rewrite fmap_imap.
    rewrite (imap_ext _ (fun _ t => t)); [|done].
    apply list_eq. intros i. rewrite list_lookup_imap.
    by destruct (_ !! i).
  - intros pt Hpt. apply rev2_prepare_elem in Hpt as (i & t & ->).
    simpl. by repeat split.
Qed.

Lemma fetchNetworkData_failure_leaves_empty_chart_witness :
  Rev2.serverNow
    (Rev2.fetchNetworkData
       (rev2_state 60 threeSamples (Some 1700000030000))
       (Responded true (Some (JArray threeSamples))))
  = Some 1700000030000 /\
  getStats (Rev2.networkData
              (Rev2.fetchNetworkData
                 (rev2_state 60 threeSamples (Some 1700000030000))
                 (Responded true (Some (JArray threeSamples)))))
           cloudflare = None.
Proof.
  destruct (fetchNetworkData_failure_leaves_empty_chart
              noLabel 1700000000000
              (rev2_state 60 threeSamples (Some 1700000030000))
              (Responded true (Some (JArray threeSamples))) cloudflare)
    as (Hn & _ & Hs & _).
  - discriminate.
  - reflexivity.
  - split; [exact Hn|exact Hs].
Defined.

(** X19.  The page is never blank: in every state at least one of the five
    blocks is rendered.  The prompt to select an ISP, the "no data" notice
    and the charts exclude one another; while loading neither the notice
    nor the charts are rendered; the charts are rendered only with at least
    one sample, and the notice only without sample and without error. *)
Theorem panels_cover_every_state
        (selectedISP : string) (loading : bool) (error : string)
        (networkData : list NetworkData) :
  let p := panels selectedISP loading error networkData in
  showError p || showLoading p || showSelectPrompt p
  || showNoData p || showCharts p = true /\
  showSelectPrompt p && showNoData p = false /\
  showSelectPrompt p && showCharts p = false /\
  showNoData p && showCharts p = false /\
  showLoading p && (showNoData p || showCharts p) = false /\
  (showCharts p = true -> networkData <> [] /\ selectedISP <> "") /\
  (showNoData p = true -> networkData = [] /\ error = "").
Proof.
  unfold panels, truthy. simpl.
  destruct (String.eqb_spec selectedISP "") as [Hi|Hi];
    destruct (String.eqb_spec error "") as [He|He];
    destruct loading, networkData as [|d ds]; simpl;
    repeat split; try done; intros; discriminate.
Qed.

Lemma panels_cover_every_state_witness :
  threeSamples <> [] /\ ("HiNet" : string) <> "".
Proof.
  apply (proj1 (proj2 (proj2 (proj2 (proj2 (proj2
           (panels_cover_every_state "HiNet" false "" threeSamples))))))).
  reflexivity.
Defined.

Lemma step_Tick (p : Page) :
  Rev2.selectedISP (state p) <> "" ->
  Rev2.autoRefresh (state p) = true ->
  step p Tick
  = {| state := Rev2.setError "" (Rev2.setLoading true (state p));
       inFlight := S (inFlight p) |}.
Proof.
  intros Hisp Hauto. unfold step, call, fetchNetworkData_start.
  by rewrite (proj2 (truthy_nonempty _) Hisp), Hauto, (isp_selected _ Hisp).
Qed.



(** ** The ISP list *)

(** X21.  [fetchISPList] in either revision.  An accepted response stores
    one entry per name, in order, whose value and label are both the name,
    and leaves the error message, the samples and the loading flag alone.
    Any failure sets the ISP-list error message and keeps the list as it
    was; so when the list was empty the ISP select stays disabled. *)
Theorem fetchISPList_outcomes
        (st1 : Rev1.State) (st2 : Rev2.State)
        (names : list string) (r : IspFetchResult) :
  let ok := IspResponded true (Some (IspNames names)) in
  (value <$> Rev1.ispList (Rev1Events.fetchISPList st1 ok) = names /\
   label <$> Rev1.ispList (Rev1Events.fetchISPList st1 ok) = names /\
   Rev1.error (Rev1Events.fetchISPList st1 ok) = Rev1.error st1 /\
   Rev1.networkData (Rev1Events.fetchISPList st1 ok) = Rev1.networkData st1 /\
   Rev1.loading (Rev1Events.fetchISPList st1 ok) = Rev1.loading st1) /\
  (value <$> Rev2.ispList (Rev2Events.fetchISPList st2 ok) = names /\
   label <$> Rev2.ispList (Rev2Events.fetchISPList st2 ok) = names /\
   Rev2.error (Rev2Events.fetchISPList st2 ok) = Rev2.error st2 /\
   Rev2.networkData (Rev2Events.fetchISPList st2 ok) = Rev2.networkData st2 /\
   Rev2.loading (Rev2Events.fetchISPList st2 ok) = Rev2.loading st2) /\
  (fetchISPList_try r = None ->
   Rev1.error (Rev1Events.fetchISPList st1 r) = ispListError /\
   Rev1.ispList (Rev1Events.fetchISPList st1 r) = Rev1.ispList st1 /\
   Rev1.networkData (Rev1Events.fetchISPList st1 r) = Rev1.networkData st1 /\
   Rev2.error (Rev2Events.fetchISPList st2 r) = ispListError /\
   Rev2.ispList (Rev2Events.fetchISPList st2 r) = Rev2.ispList st2 /\
   Rev2.networkData (Rev2Events.fetchISPList st2 r) = Rev2.networkData st2 /\
   (Rev2.ispList st2 = [] ->
    ispSelectDisabled (Rev2.loading (Rev2Events.fetchISPList st2 r))
                      (Rev2.ispList (Rev2Events.fetchISPList st2 r)) = true)).
Proof.
  intros ok. subst ok.
  assert (Hv : value <$> formatISPs names = names).
  { unfold formatISPs. rewrite <- list_fmap_compose.
    rewrite <- (list_fmap_id names) at 2. by apply list_fmap_ext. }
  assert (Hl : label <$> formatISPs names = names).
  { unfold formatISPs. rewrite <- list_fmap_compose.
    rewrite <- (list_fmap_id names) at 2. by apply list_fmap_ext. }
  split; [by repeat split|]. split; [by repeat split|].
  intros Hnone. unfold Rev1Events.fetchISPList, Rev2Events.fetchISPList.
  rewrite Hnone. simpl. repeat split.
  intros ->. unfold ispSelectDisabled. simpl. apply orb_true_r.
Qed.

Lemma fetchISPList_outcomes_witness :
  Rev2.error (Rev2Events.fetchISPList (rev2_state 60 [] None)
                                      (IspResponded false None))
  = ispListError.
Proof.
  destruct (fetchISPList_outcomes (rev1_state 60 []) (rev2_state 60 [] None)
              [] (IspResponded false None))
    as (_ & _ & Hfail).
  destruct Hfail as (_ & _ & _ & He & _); [reflexivity|exact He].
Defined.

(** ** Changing the selection *)

(** X22.  Choosing the empty ISP entry sends no request: whatever response
    is offered, the samples are cleared and the error message, the loading
    flag, the range and the ISP list stay as they were; the page then shows
    the prompt to select an ISP and no charts. *)
Theorem onSelectISP_empty_clears_samples
        (st1 : Rev1.State) (st2 : Rev2.State) (r : FetchResult) :
  (Rev1Events.onSelectISP "" st1 r
   = Rev1.setNetworkData [] (Rev1Events.setSelectedISP "" st1) /\
   showSelectPrompt (Rev1Events.view (Rev1Events.onSelectISP "" st1 r)) = true /\
   showCharts (Rev1Events.view (Rev1Events.onSelectISP "" st1 r)) = false) /\
  (Rev2Events.onSelectISP "" st2 r
   = Rev2.setNetworkData [] (Rev2Events.setSelectedISP "" st2) /\
   Rev2.error (Rev2Events.onSelectISP "" st2 r) = Rev2.error st2 /\
   Rev2.serverNow (Rev2Events.onSelectISP "" st2 r) = Rev2.serverNow st2 /\
   showSelectPrompt (Rev2Events.view (Rev2Events.onSelectISP "" st2 r)) = true /\
   showCharts (Rev2Events.view (Rev2Events.onSelectISP "" st2 r)) = false).
Proof.
  split.
  - unfold Rev1Events.onSelectISP, Rev1Events.selectionEffect,
      Rev1Events.view, panels. simpl.
    repeat split. apply andb_false_r.
  - unfold Rev2Events.onSelectISP, Rev2Events.selectionEffect,
      Rev2Events.view, panels. simpl.
    repeat split. apply andb_false_r.
Qed.

(** X23.  Choosing another range with an ISP selected, when the response is
    accepted: the new range is stored together with the samples of the
    response, the chart has exactly the bucket count of the new range, and
    the number of its points with data is the number of valid samples among
    the first [points] samples of the response. *)
Theorem onSelectRange_rebuilds_chart
        (fmt : TimeFormatter) (Date_now : Z) (st : Rev2.State)
        (range : Z) (items : list NetworkData) (now : option Z)
        (type : ChartType) :
  Rev2.selectedISP st <> "" ->
  let st' := Rev2Events.onSelectRange range st
               (Responded true (Some (JObject (Some items) now))) in
  let pts := Rev2.prepareScatterData fmt Date_now st'
               (Rev2.networkData st') type in
  Rev2.selectedRange st' = range /\
  Rev2.networkData st' = formatData items /\
  Rev2.serverNow st' = now /\
  length pts = Z.to_nat (cadence range).2 /\
  countHasData pts
  = countValid type (take (Z.to_nat (cadence range).2) items) /\
  getStats (Rev2.networkData st') type = getStats items type.
Proof.
  intros Hisp st' pts.
  assert (Hst : st' = Rev2.fetchNetworkData
                        (Rev2Events.setSelectedRange range st)
                        (Responded true (Some (JObject (Some items) now)))).
  { subst st'. unfold Rev2Events.onSelectRange, Rev2Events.selectionEffect.
    simpl. by rewrite (proj2 (truthy_nonempty _) Hisp). }
  assert (Hr : Rev2.selectedRange st' = range).
  { rewrite Hst. unfold Rev2.fetchNetworkData. simpl.
    by rewrite (isp_selected _ Hisp). }
  assert (Hd : Rev2.networkData st' = formatData items).
  { rewrite Hst. unfold Rev2.fetchNetworkData. simpl.
    by rewrite (isp_selected _ Hisp). }
  assert (Hn : Rev2.serverNow st' = now).
  { rewrite Hst. unfold Rev2.fetchNetworkData. simpl.
    by rewrite (isp_selected _ Hisp). }
  split; [exact Hr|]. split; [exact Hd|]. split; [exact Hn|].
  subst pts. rewrite Hd.
  destruct (formatData_transparent fmt Date_now (rev1_state 0 []) st'
              items type) as (Hs & _ & Hp).
  rewrite Hp. split; [|split; [|exact Hs]].
  - by rewrite rev2_prepare_length, rev2_length, Hr.
  - unfold Rev2.prepareScatterData.
    by rewrite countHasData_imap, rev2_length, Hr.
Qed.

Lemma onSelectRange_rebuilds_chart_witness :
  length (Rev2.prepareScatterData noLabel 1700000000000
            (Rev2Events.onSelectRange 180 (rev2_state 60 [] None)
               (Responded true
                  (Some (JObject (Some threeSamples) (Some 1700000030000)))))
            (Rev2.networkData
               (Rev2Events.onSelectRange 180 (rev2_state 60 [] None)
                  (Responded true
                     (Some (JObject (Some threeSamples)
                                    (Some 1700000030000))))))
            cloudflare)
  = 180%nat.
Proof.
  destruct (onSelectRange_rebuilds_chart
              noLabel 1700000000000 (rev2_state 60 [] None) 180
              threeSamples (Some 1700000030000) cloudflare)
    as (_ & _ & _ & Hlen & _).
  - discriminate.
  - exact Hlen.
Defined.

(** X24.  When an accepted response of revision 2 carries no [now], or a
    [now] of 0, the timeline is anchored at the local clock while
    [lastUpdated] still records what the server sent: an invalid date when
    [now] is missing, the epoch when it is 0. *)
Theorem fetchNetworkData_missing_now
        (Date_now : Z) (st : Rev2.State) (items : list NetworkData)
        (now : option Z) :
  Rev2.selectedISP st <> "" ->
  1 <= Rev2.selectedRange st ->
  now = None \/ now = Some 0 ->
  let st' := Rev2.fetchNetworkData st
               (Responded true (Some (JObject (Some items) now))) in
  Rev2.getAllTimePoints Date_now (Rev2.selectedRange st') (Rev2.serverNow st')
  = Rev1.getAllTimePoints Date_now (Rev2.selectedRange st) /\
  list.last (Rev2.getAllTimePoints Date_now (Rev2.selectedRange st')
                                   (Rev2.serverNow st')) = Some Date_now /\
  (now = None -> Rev2.lastUpdated st' = Some InvalidDate) /\
  (now = Some 0 -> Rev2.lastUpdated st' = Some (DateAt 0)).
Proof.
  intros Hisp Hr Hnow st'. subst st'.
  unfold Rev2.fetchNetworkData. rewrite (isp_selected _ Hisp). simpl.
  pose proof (cadence_points_pos _ Hr) as Hpos.
  assert (Ht : or_Date_now now Date_now = Date_now)
    by (by destruct Hnow as [-> | ->]).
  rewrite rev2_as_rev1, Ht.
  split; [reflexivity|]. split; [by apply rev1_last|].
  split; by intros ->.
Qed.

Lemma fetchNetworkData_missing_now_witness :
  list.last
    (Rev2.getAllTimePoints 1700000000000 60
       (Rev2.serverNow
          (Rev2.fetchNetworkData
             (rev2_state 60 [] (Some 1699999000000))
             (Responded true (Some (JObject (Some threeSamples) (Some 0)))))))
  = Some 1700000000000.
Proof.
  destruct (fetchNetworkData_missing_now
              1700000000000 (rev2_state 60 [] (Some 1699999000000))
              threeSamples (Some 0))
    as (_ & Hl & _).
  - discriminate.
  - simpl. lia.
  - by right.
  - exact Hl.
Defined.

(** ** Refreshing *)

Lemma rev2_fetch_frame (st : Rev2.State) (r : FetchResult) :
  Rev2.selectedISP (Rev2.fetchNetworkData st r) = Rev2.selectedISP st /\
  Rev2.selectedRange (Rev2.fetchNetworkData st r) = Rev2.selectedRange st /\
  Rev2.ispList (Rev2.fetchNetworkData st r) = Rev2.ispList st /\
  Rev2.autoRefresh (Rev2.fetchNetworkData st r) = Rev2.autoRefresh st.
Proof.
  unfold Rev2.fetchNetworkData.
  destruct (String.eqb (Rev2.selectedISP st) ""); [done|].
  destruct r as [|[] [[|[]]|]]; by repeat split.
Qed.

(** *** Runs of the page of revision 2 *)

Lemma rev2_settle_frame (st : Rev2.State) (r : FetchResult) :
  Rev2.selectedISP (fetchNetworkData_settle st r) = Rev2.selectedISP st /\
  Rev2.selectedRange (fetchNetworkData_settle st r) = Rev2.selectedRange st /\
  Rev2.ispList (fetchNetworkData_settle st r) = Rev2.ispList st /\
  Rev2.autoRefresh (fetchNetworkData_settle st r) = Rev2.autoRefresh st.
Proof. by destruct r as [|[] [[|[]]|]]. Qed.

Lemma rev2_start_frame (st : Rev2.State) :
  Rev2.selectedISP (fetchNetworkData_start st) = Rev2.selectedISP st /\
  Rev2.selectedRange (fetchNetworkData_start st) = Rev2.selectedRange st /\
  Rev2.ispList (fetchNetworkData_start st) = Rev2.ispList st /\
  Rev2.autoRefresh (fetchNetworkData_start st) = Rev2.autoRefresh st.
Proof.
  unfold fetchNetworkData_start.
  by destruct (String.eqb (Rev2.selectedISP st) "").
Qed.

Lemma call_frame (p : Page) :
  Rev2.selectedISP (state (call p)) = Rev2.selectedISP (state p) /\
  Rev2.selectedRange (state (call p)) = Rev2.selectedRange (state p) /\
  Rev2.ispList (state (call p)) = Rev2.ispList (state p) /\
  Rev2.autoRefresh (state (call p)) = Rev2.autoRefresh (state p).
Proof.
  unfold call. destruct (String.eqb (Rev2.selectedISP (state p)) "");
    [done|]. apply rev2_start_frame.
Qed.

Lemma step_frame (p : Page) (e : Event) :
  Rev2.selectedISP (state (step p e)) = Rev2.selectedISP (state p) /\
  Rev2.selectedRange (state (step p e)) = Rev2.selectedRange (state p) /\
  Rev2.ispList (state (step p e)) = Rev2.ispList (state p) /\
  Rev2.autoRefresh (state (step p e)) = Rev2.autoRefresh (state p).
Proof.
  destruct e as [| |r]; simpl.
  - destruct (_ && _); [apply call_frame|done].
  - destruct (_ && _); [apply call_frame|done].
  - destruct (inFlight p); [done|]. apply rev2_settle_frame.
Qed.

Lemma run_frame (es : list Event) (p : Page) :
  Rev2.selectedISP (state (run p es)) = Rev2.selectedISP (state p) /\
  Rev2.selectedRange (state (run p es)) = Rev2.selectedRange (state p) /\
  Rev2.ispList (state (run p es)) = Rev2.ispList (state p) /\
  Rev2.autoRefresh (state (run p es)) = Rev2.autoRefresh (state p).
Proof.
  unfold run. revert p.
  induction es as [|e es IH]; intros p; [done|]. simpl.
  destruct (IH (step p e)) as (-> & -> & -> & ->). apply step_frame.
Qed.

Lemma run_snoc (p : Page) (es : list Event) (e : Event) :
  run p (es ++ [e]) = step (run p es) e.
Proof. unfold run. by rewrite foldl_app. Qed.

Lemma run_app (p : Page) (es es' : list Event) :
  run p (es ++ es') = run (run p es) es'.
Proof. unfold run. by rewrite foldl_app. Qed.

Lemma run_cons (p : Page) (e : Event) (es : list Event) :
  run p (e :: es) = run (step p e) es.
Proof. reflexivity. Qed.

(** A call clears the message and sets the spinner. *)
Lemma call_state (p : Page) :
  Rev2.selectedISP (state p) <> "" ->
  call p = {| state := Rev2.setError "" (Rev2.setLoading true (state p));
              inFlight := S (inFlight p) |}.
Proof.
  intros Hisp. unfold call, fetchNetworkData_start.
  by rewrite (isp_selected _ Hisp).
Qed.

Lemma call_no_isp (p : Page) : Rev2.selectedISP (state p) = "" -> call p = p.
Proof. intros Hisp. unfold call. by rewrite Hisp. Qed.

Lemma call_error (p : Page) :
  Rev2.error (state p) = "" -> Rev2.error (state (call p)) = "".
Proof.
  intros He. destruct (String.eqb_spec (Rev2.selectedISP (state p)) "")
    as [Hisp|Hisp].
  - by rewrite call_no_isp.
  - by rewrite call_state.
Qed.

(** The spinner is only shown while a request is in flight. *)
Lemma step_spinner (p : Page) (e : Event) :
  (Rev2.loading (state p) = true -> (0 < inFlight p)%nat) ->
  Rev2.loading (state (step p e)) = true -> (0 < inFlight (step p e))%nat.
Proof.
  intros Hinv.
  assert (Hcall : Rev2.loading (state (call p)) = true ->
                  (0 < inFlight (call p))%nat).
  { destruct (String.eqb_spec (Rev2.selectedISP (state p)) "")
      as [Hisp|Hisp].
    - by rewrite call_no_isp.
    - rewrite call_state by done. simpl. lia. }
  destruct e as [| |r]; simpl.
  - by destruct (_ && _).
  - by destruct (_ && _).
  - destruct (inFlight p) as [|n] eqn:E; [by rewrite E|].
    simpl. by destruct r as [|[] [[|[]]|]].
Qed.

Lemma run_spinner (es : list Event) (p : Page) :
  (Rev2.loading (state p) = true -> (0 < inFlight p)%nat) ->
  Rev2.loading (state (run p es)) = true -> (0 < inFlight (run p es))%nat.
Proof.
  revert p. induction es as [|e es IH]; intros p Hinv; [done|].
  rewrite run_cons. apply IH. by apply step_spinner.
Qed.

(** Accepted responses leave the message as it is. *)
Lemma run_accepted_error (es : list Event) (p : Page) :
  forallb (fun e => isSettled e && negb (isFailure e)) es = true ->
  Rev2.error (state (run p es)) = Rev2.error (state p).
Proof.
  revert p. induction es as [|e es IH]; intros p Hall; [done|].
  simpl in Hall. apply andb_true_iff in Hall as [He Hall].
  rewrite run_cons, (IH _ Hall).
  destruct e as [| |r]; try discriminate He. simpl in He.
  apply negb_true_iff, negb_false_iff in He.
  apply accepted_inv in He as (data & now & ->).
  simpl. by destruct (inFlight p).
Qed.

(** Without a failure no message appears. *)
Lemma run_no_failure_error (es : list Event) (p : Page) :
  Rev2.error (state p) = "" ->
  forallb (fun e => negb (isFailure e)) es = true ->
  Rev2.error (state (run p es)) = "".
Proof.
  revert p. induction es as [|e es IH]; intros p Herr Hall; [done|].
  simpl in Hall. apply andb_true_iff in Hall as [He Hall].
  rewrite run_cons. apply IH; [|exact Hall].
  destruct e as [| |r]; simpl.
  - destruct (_ && _); [by apply call_error|done].
  - destruct (_ && _); [by apply call_error|done].
  - simpl in He. apply negb_true_iff, negb_false_iff in He.
    apply accepted_inv in He as (data & now & ->).
    by destruct (inFlight p).
Qed.

(** X25.  Along any series of timer ticks, clicks on the refresh button and
    settlements of revision 2, the selection, the ISP list and the
    auto-refresh switch are untouched, and the spinner is shown only while a
    request is in flight.  A settlement leaves the samples of its response,
    no spinner, and one request less in flight.  The error message follows
    the failures and the calls, not the last response: the message of a
    failed request stays through the accepted responses that follow, and
    after a tick that sends a request there is no message as long as no
    request fails. *)
Theorem run_error_until_next_call (p : Page) (es : list Event) :
  (Rev2.selectedISP (state (run p es)) = Rev2.selectedISP (state p) /\
   Rev2.selectedRange (state (run p es)) = Rev2.selectedRange (state p) /\
   Rev2.ispList (state (run p es)) = Rev2.ispList (state p) /\
   Rev2.autoRefresh (state (run p es)) = Rev2.autoRefresh (state p)) /\
  ((Rev2.loading (state p) = true -> (0 < inFlight p)%nat) ->
   Rev2.loading (state (run p es)) = true -> (0 < inFlight (run p es))%nat) /\
  (forall r : FetchResult,
      (0 < inFlight (run p es))%nat ->
      let p' := run p (es ++ [Settled r]) in
      Rev2.networkData (state p')
      = Rev2.networkData (fetchNetworkData_settle (state p) r) /\
      Rev2.loading (state p') = false /\
      S (inFlight p') = inFlight (run p es) /\
      (accepted r = true ->
       Rev2.error (state p') = Rev2.error (state (run p es))) /\
      (accepted r = false -> Rev2.error (state p') = "無法取得網路數據")) /\
  (forall (r : FetchResult) (es' : list Event),
      (0 < inFlight (run p es))%nat ->
      accepted r = false ->
      forallb (fun e => isSettled e && negb (isFailure e)) es' = true ->
      Rev2.error (state (run p (es ++ Settled r :: es')))
      = "無法取得網路數據") /\
  (forall es' : list Event,
      Rev2.selectedISP (state p) <> "" ->
      Rev2.autoRefresh (state p) = true ->
      forallb (fun e => negb (isFailure e)) es' = true ->
      Rev2.error (state (run p (es ++ Tick :: es'))) = "").
Proof.
  split; [apply run_frame|]. split; [apply run_spinner|].
  split; [|split].
  - intros r Hfl p'. subst p'. rewrite run_snoc. cbn [step].
    destruct (inFlight (run p es)) as [|n]; [lia|]. cbn [state inFlight].
    split; [by destruct r as [|[] [[|[]]|]]|].
    split; [by destruct r as [|[] [[|[]]|]]|].
    split; [reflexivity|]. split.
    + intros Ha. apply accepted_inv in Ha as (data & now & ->).
      by rewrite settle_accepted.
    + intros Hf. by rewrite (settle_failed _ _ Hf).
  - intros r es' Hfl Hf Hall.
    rewrite run_app, run_cons, (run_accepted_error _ _ Hall). cbn [step].
    destruct (inFlight (run p es)) as [|n]; [lia|]. cbn [state inFlight].
    by rewrite (settle_failed _ _ Hf).
  - intros es' Hisp Hauto Hall.
    rewrite run_app, run_cons.
    apply run_no_failure_error; [|exact Hall].
    destruct (run_frame es p) as (Hi & _ & _ & Ha).
    rewrite step_Tick by (by rewrite ?Hi, ?Ha). reflexivity.
Qed.

Lemma run_error_until_next_call_witness :
  Rev2.error
    (state
       (run {| state := rev2_state 60 [] None; inFlight := 0 |}
            ([Tick; Tick]
             ++ Settled Rejected
                :: [Settled
                      (Responded true
                         (Some (JObject (Some threeSamples)
                                        (Some 1700000030000))))])))
  = "無法取得網路數據" /\
  Rev2.error
    (state
       (run {| state := rev2_state 60 [] None; inFlight := 0 |}
            ([Tick; Tick; Settled Rejected]
             ++ Tick
                :: [Settled
                      (Responded true
                         (Some (JObject (Some threeSamples)
                                        (Some 1700000030000))))])))
  = "".
Proof.
  split.
  - apply (proj1 (proj2 (proj2 (proj2
             (run_error_until_next_call
                {| state := rev2_state 60 [] None; inFlight := 0 |}
                [Tick; Tick]))))).
    + vm_compute. lia.
    + reflexivity.
    + reflexivity.
  - apply (proj2 (proj2 (proj2 (proj2
             (run_error_until_next_call
                {| state := rev2_state 60 [] None; inFlight := 0 |}
                [Tick; Tick; Settled Rejected]))))).
    + discriminate.
    + reflexivity.
    + reflexivity.
Defined.

Lemma getColorByLoss_sentinel (l : Q) :
  (l == -1)%Q -> getColorByLoss l = "#9CA3AF".
Proof.
  intros Hl. unfold getColorByLoss.
  by rewrite (proj2 (Qeq_bool_iff l (-1)) Hl).
Qed.

(** X26.  A sample with a valid metric but no loss figure (loss -1) is drawn
    as a solid point in the no-data grey [#9CA3AF]: it has data, its value is
    the metric, and its fill and outline are that grey at full opacity,
    unlike the faint ring of an empty bucket. *)
Theorem valid_ping_without_loss_is_solid_grey
        (fmt : TimeFormatter) (Date_now : Z) (st : Rev2.State)
        (data : list NetworkData) (type : ChartType)
        (i : nat) (item : NetworkData) :
  Z.of_nat i < (cadence (Rev2.selectedRange st)).2 ->
  data !! i = Some item ->
  ~ (pingOf type item == -1)%Q ->
  (lossOf type item == -1)%Q ->
  exists pt : ScatterPoint.t,
    Rev2.prepareScatterData fmt Date_now st data type !! i = Some pt /\
    ScatterPoint.hasData pt = true /\
    ScatterPoint.y pt = Some (pingOf type item) /\
    cellProps pt = {| fill := "#9CA3AF"; fillOpacity := 1;
                      stroke := "#9CA3AF"; strokeWidth := 0 |}.
Proof.
  intros Hi Hitem Hv Hl.
  eexists. rewrite rev2_prepare_lookup, rev2_lookup by done. simpl.
  split; [reflexivity|].
  unfold cellProps, scatterPoint. rewrite Hitem. simpl.
  apply Qeq_bool_false in Hv. rewrite Hv. simpl.
  by rewrite (getColorByLoss_sentinel _ Hl).
Qed.

Lemma valid_ping_without_loss_is_solid_grey_witness :
  exists pt : ScatterPoint.t,
    Rev2.prepareScatterData noLabel 1700000000000
      (rev2_state 5 threeSamples None) threeSamples cloudflare !! 2%nat
    = Some pt /\
    ScatterPoint.hasData pt = true /\
    ScatterPoint.y pt = Some 9%Q /\
    cellProps pt = {| fill := "#9CA3AF"; fillOpacity := 1;
                      stroke := "#9CA3AF"; strokeWidth := 0 |}.
Proof.
  apply (valid_ping_without_loss_is_solid_grey
           noLabel 1700000000000 (rev2_state 5 threeSamples None)
           threeSamples cloudflare 2 (sampleOf 9 (-1) 15 100)).
  - reflexivity.
  - reflexivity.
  - by compute.
  - reflexivity.
Defined.


